(** * StoreDemoDownloader: the download engine of [main.py]

    A shallow embedding of the parts of [main.py] that fetch the catalog,
    build the download list, schedule the downloads over the progress-bar
    slots, run one download and report its progress.

    Conventions.
    - Python [int] is [Z]; Python [float] is a binary64 [PrimFloat.float].
    - Python [str] is [string]; case mapping covers the ASCII letters, other
      characters are left as they are.
    - A Python [dict] is an association list in insertion order; lookup takes
      the first binding of a key, assignment replaces it in place.
    - Exceptions are values of [exn]; code that can raise runs in the
      state-and-exception monad [M], where the state reached so far survives
      a raise, as the mutations of a Python object do.
    - Widgets are reduced to the attributes the engine reads or writes. *)

From Stdlib Require Import ZArith List String Ascii Bool Lia.
From Stdlib Require Import DecimalString.
From Stdlib Require PrimFloat FloatOps SpecFloat Uint63.
Import ListNotations.

Set Warnings "-register-all".
Local Open Scope string_scope.
Local Open Scope Z_scope.
Local Open Scope list_scope.

Abbreviation float := PrimFloat.float.
Infix "+s+" := String.append (at level 60, right associativity).

(** ** Exceptions and results *)

(** [Exception cls detail] is an instance of a class deriving from Python's
    [Exception] ([cls] names it, [detail] is what [str(e)] gives);
    [BaseException cls detail] is one deriving from [BaseException] only
    ([KeyboardInterrupt], [SystemExit]), which [except Exception] lets pass. *)
Inductive exn : Type :=
| Exception (cls : string) (detail : string)
| BaseException (cls : string) (detail : string).

Definition exn_str (e : exn) : string :=
  match e with
  | Exception _ detail => detail
  | BaseException _ detail => detail
  end.

Inductive result (A : Type) : Type :=
| Ok (a : A)
| Raise (e : exn).

Arguments Ok {A} a.
Arguments Raise {A} e.

(** ** The state-and-exception monad *)

Definition M (S A : Type) : Type := S -> result A * S.

Definition ret {S A : Type} (a : A) : M S A := fun s => (Ok a, s).

Definition raise {S A : Type} (e : exn) : M S A := fun s => (Raise e, s).

Definition bind {S A B : Type} (m : M S A) (k : A -> M S B) : M S B :=
  fun s =>
    match m s with
    | (Ok a, s') => k a s'
    | (Raise e, s') => (Raise e, s')
    end.

Definition get {S : Type} : M S S := fun s => (Ok s, s).

Definition modify {S : Type} (f : S -> S) : M S unit := fun s => (Ok tt, f s).

Definition lift_result {S A : Type} (r : result A) : M S A := fun s => (r, s).

(** [try: body except Exception as e: handler e]. *)
Definition try_except_Exception {S A : Type}
    (body : M S A) (handler : exn -> M S A) : M S A :=
  fun s =>
    match body s with
    | (Ok a, s') => (Ok a, s')
    | (Raise (Exception cls detail), s') => handler (Exception cls detail) s'
    | (Raise (BaseException cls detail), s') => (Raise (BaseException cls detail), s')
    end.

Declare Scope py_scope.
Delimit Scope py_scope with py.
Notation "x <- m ;; k" := (bind m (fun x => k))
  (at level 61, m at next level, right associativity) : py_scope.
Notation "m ;; k" := (bind m (fun _ => k))
  (at level 61, right associativity) : py_scope.
Local Open Scope py_scope.

(** [for x in l: body x]. *)
Fixpoint for_each {S A : Type} (l : list A) (body : A -> M S unit) : M S unit :=
  match l with
  | [] => ret tt
  | x :: l' => body x ;; for_each l' body
  end.

(** [range(n)]: empty when [n <= 0]. *)
Definition range (n : Z) : list nat := seq 0 (Z.to_nat n).

(** ** Python values *)

Definition bytes : Type := list Byte.byte.

(** [len] of a list or of a byte string. *)
Definition len {A : Type} (l : list A) : Z := Z.of_nat (List.length l).

(** A value produced by [json.loads]. *)
Inductive json : Type :=
| JNull
| JBool (b : bool)
| JInt (z : Z)
| JFloat (f : float)
| JStr (s : string)
| JList (l : list json)
| JDict (d : list (string * json)).

Definition dict (V : Type) : Type := list (string * V).

Fixpoint dict_lookup {V : Type} (k : string) (d : dict V) : option V :=
  match d with
  | [] => None
  | (k', v) :: d' => if String.eqb k k' then Some v else dict_lookup k d'
  end.

(** [d.get(k, default)]. *)
Definition dict_get {V : Type} (d : dict V) (k : string) (default : V) : V :=
  match dict_lookup k d with
  | Some v => v
  | None => default
  end.

(** [d[k] = v]: an existing key keeps its place. *)
Fixpoint dict_set {V : Type} (k : string) (v : V) (d : dict V) : dict V :=
  match d with
  | [] => [(k, v)]
  | (k', v') :: d' =>
      if String.eqb k k' then (k, v) :: d' else (k', v') :: dict_set k v d'
  end.

(** Case mapping of one ASCII character; any other is left as it is. *)
Definition upper_ascii (c : ascii) : ascii :=
  let n := nat_of_ascii c in
  if (Nat.leb 97 n && Nat.leb n 122)%bool then ascii_of_nat (n - 32) else c.

Definition lower_ascii (c : ascii) : ascii :=
  let n := nat_of_ascii c in
  if (Nat.leb 65 n && Nat.leb n 90)%bool then ascii_of_nat (n + 32) else c.

Fixpoint string_map (f : ascii -> ascii) (s : string) : string :=
  match s with
  | EmptyString => EmptyString
  | String c s' => String (f c) (string_map f s')
  end.

(** [s.isascii()]: every character is below 128. *)
Fixpoint isascii (s : string) : bool :=
  match s with
  | EmptyString => true
  | String c s' => Nat.ltb (nat_of_ascii c) 128 && isascii s'
  end.

(** [s.upper()] for a [str] of ASCII characters.  Python also maps letters
    beyond ASCII, some of them to several characters: the results below
    that speak of [upper] or [capitalize] on text of the catalog are stated
    for ASCII text. *)
Definition upper (s : string) : string := string_map upper_ascii s.

(** [s.capitalize()] for a [str] of ASCII characters: first character
    upper-cased, the rest lower-cased. *)
Definition capitalize (s : string) : string :=
  match s with
  | EmptyString => EmptyString
  | String c s' => String (upper_ascii c) (string_map lower_ascii s')
  end.

(** [str(z)] for an [int]. *)
Definition str_of_int (z : Z) : string := NilZero.string_of_int (Z.to_int z).

(** ** Floats *)

(** [float(z)], correctly rounded; Python raises where the integer is beyond
    the floats. *)
Definition py_float (z : Z) : result float :=
  match SpecFloat.binary_normalize FloatOps.prec FloatOps.emax z 0 false with
  | SpecFloat.S754_infinity _ =>
      Raise (Exception "OverflowError" "int too large to convert to float")
  | x => Ok (FloatOps.SF2Prim x)
  end.

(** [a / (2**k)] for an [int] [a]: the quotient, correctly rounded; Python
    raises where it is beyond the floats. *)
Definition truediv_pow2 (a : Z) (k : Z) : result float :=
  match SpecFloat.binary_normalize FloatOps.prec FloatOps.emax a (- k) false with
  | SpecFloat.S754_infinity _ =>
      Raise (Exception "OverflowError" "integer division result too large for a float")
  | x => Ok (FloatOps.SF2Prim x)
  end.

(** [n / (1024 * 1024)] for an [int] [n]. *)
Definition to_megabytes (n : Z) : result float := truediv_pow2 n 20.

(** The value of [n / (1024 * 1024)] where the division raises nothing. *)
Definition megabytes (n : Z) : float :=
  match to_megabytes n with
  | Ok x => x
  | Raise _ => PrimFloat.infinity
  end.

(** The [int] 100 as the float it is multiplied as. *)
Definition hundred : float := PrimFloat.of_uint63 (Uint63.of_Z 100).

(** [x / y] on floats: Python raises where IEEE gives an infinity or a NaN. *)
Definition float_truediv (x y : float) : result float :=
  if PrimFloat.eqb y PrimFloat.zero
  then Raise (Exception "ZeroDivisionError" "float division by zero")
  else Ok (PrimFloat.div x y).

(** [math.floor(x)]. *)
Definition math_floor (x : float) : result Z :=
  match FloatOps.Prim2SF x with
  | SpecFloat.S754_zero _ => Ok 0
  | SpecFloat.S754_finite s m e =>
      let n := if s then Z.neg m else Z.pos m in
      Ok (if 0 <=? e then n * 2 ^ e else n / 2 ^ (- e))
  | SpecFloat.S754_infinity _ =>
      Raise (Exception "OverflowError" "cannot convert float infinity to integer")
  | SpecFloat.S754_nan =>
      Raise (Exception "ValueError" "cannot convert float NaN to integer")
  end.

(** ** Catalog items, downloads and widgets *)

(** The dict [fetch_data] builds for one catalog entry. *)
Record ProcessedItem : Type := {
  item_category : string;
  item_title : json;
  item_duration : json;
  item_filetype : string;
  item_size : string;
  item_size_gb : json;
  item_url : json
}.

(** The tuple [(url, file_path, file_name)] of [download_urls]. *)
Definition download : Type := (string * string * json)%type.

(** The arguments of the last [setFormat] call of [update_progress]: the
    label shows the name, then the two amounts and the percentage with two
    decimals. *)
Record ProgressLabel : Type := {
  label_file_name : json;
  label_downloaded_mb : float;
  label_total_mb : float;
  label_percent : float
}.

Record QProgressBar : Type := {
  bar_minimum : Z;
  bar_maximum : Z;
  bar_value : Z;                      (* argument of the last [setValue] *)
  bar_format : option ProgressLabel   (* [None]: the default format *)
}.

Module DownloadWorker.

(** [signal] is the bar index both signal connections are bound to with
    [partial]; [progress_bar] is the position in [progress_bars] of the
    bar object the worker holds. *)
Record t : Type := {
  url : string;
  file_path : string;
  file_name : json;
  signal : nat;
  progress_bar : nat
}.

(** [__init__], with the index bound to the signals and the position of
    the bar in place of the two objects. *)
Definition init (url file_path : string) (file_name : json)
    (signal progress_bar : nat) : t :=
  {| url := url; file_path := file_path; file_name := file_name;
     signal := signal; progress_bar := progress_bar |}.

Definition task (w : t) : download := (url w, file_path w, file_name w).

End DownloadWorker.

Inductive callback : Type := Go_to_stage7.

(** The local files the program touches: path and contents. *)
Definition Disk : Type := list (string * bytes).

(** ** The application object *)

Module USBSelectorApp.

(** The attributes of [USBSelectorApp] the download engine uses.
    [threadpool] lists the workers handed to [QThreadPool.start] whose
    result signal has not been delivered yet; [timers] lists the pending
    [QTimer.singleShot] calls; [stdout] collects what [print] writes. *)
Record t : Type := {
  selected_content_items : list ProcessedItem;
  concurrent_downloads : Z;
  threadpool_max_thread_count : Z;
  threadpool : list DownloadWorker.t;
  download_queue : list download;
  active_downloads : list DownloadWorker.t;
  completed_downloads : Z;
  progress_bars : list QProgressBar;
  use_cache : bool;
  current_index : Z;
  timers : list (Z * callback);
  stdout : list string;
  files : Disk
}.

Definition set_selected_content_items (v : list ProcessedItem) (self : t) : t :=
  {| selected_content_items := v;
     concurrent_downloads := concurrent_downloads self;
     threadpool_max_thread_count := threadpool_max_thread_count self;
     threadpool := threadpool self;
     download_queue := download_queue self;
     active_downloads := active_downloads self;
     completed_downloads := completed_downloads self;
     progress_bars := progress_bars self;
     use_cache := use_cache self;
     current_index := current_index self;
     timers := timers self;
     stdout := stdout self;
     files := files self |}.

Definition set_concurrency (v : Z) (self : t) : t :=
  {| selected_content_items := selected_content_items self;
     concurrent_downloads := v;
     threadpool_max_thread_count := v;
     threadpool := threadpool self;
     download_queue := download_queue self;
     active_downloads := active_downloads self;
     completed_downloads := completed_downloads self;
     progress_bars := progress_bars self;
     use_cache := use_cache self;
     current_index := current_index self;
     timers := timers self;
     stdout := stdout self;
     files := files self |}.

Definition set_threadpool (v : list DownloadWorker.t) (self : t) : t :=
  {| selected_content_items := selected_content_items self;
     concurrent_downloads := concurrent_downloads self;
     threadpool_max_thread_count := threadpool_max_thread_count self;
     threadpool := v;
     download_queue := download_queue self;
     active_downloads := active_downloads self;
     completed_downloads := completed_downloads self;
     progress_bars := progress_bars self;
     use_cache := use_cache self;
     current_index := current_index self;
     timers := timers self;
     stdout := stdout self;
     files := files self |}.

Definition set_download_queue (v : list download) (self : t) : t :=
  {| selected_content_items := selected_content_items self;
     concurrent_downloads := concurrent_downloads self;
     threadpool_max_thread_count := threadpool_max_thread_count self;
     threadpool := threadpool self;
     download_queue := v;
     active_downloads := active_downloads self;
     completed_downloads := completed_downloads self;
     progress_bars := progress_bars self;
     use_cache := use_cache self;
     current_index := current_index self;
     timers := timers self;
     stdout := stdout self;
     files := files self |}.

Definition set_active_downloads (v : list DownloadWorker.t) (self : t) : t :=
  {| selected_content_items := selected_content_items self;
     concurrent_downloads := concurrent_downloads self;
     threadpool_max_thread_count := threadpool_max_thread_count self;
     threadpool := threadpool self;
     download_queue := download_queue self;
     active_downloads := v;
     completed_downloads := completed_downloads self;
     progress_bars := progress_bars self;
     use_cache := use_cache self;
     current_index := current_index self;
     timers := timers self;
     stdout := stdout self;
     files := files self |}.

Definition set_completed_downloads (v : Z) (self : t) : t :=
  {| selected_content_items := selected_content_items self;
     concurrent_downloads := concurrent_downloads self;
     threadpool_max_thread_count := threadpool_max_thread_count self;
     threadpool := threadpool self;
     download_queue := download_queue self;
     active_downloads := active_downloads self;
     completed_downloads := v;
     progress_bars := progress_bars self;
     use_cache := use_cache self;
     current_index := current_index self;
     timers := timers self;
     stdout := stdout self;
     files := files self |}.

Definition set_progress_bars (v : list QProgressBar) (self : t) : t :=
  {| selected_content_items := selected_content_items self;
     concurrent_downloads := concurrent_downloads self;
     threadpool_max_thread_count := threadpool_max_thread_count self;
     threadpool := threadpool self;
     download_queue := download_queue self;
     active_downloads := active_downloads self;
     completed_downloads := completed_downloads self;
     progress_bars := v;
     use_cache := use_cache self;
     current_index := current_index self;
     timers := timers self;
     stdout := stdout self;
     files := files self |}.

Definition set_use_cache (v : bool) (self : t) : t :=
  {| selected_content_items := selected_content_items self;
     concurrent_downloads := concurrent_downloads self;
     threadpool_max_thread_count := threadpool_max_thread_count self;
     threadpool := threadpool self;
     download_queue := download_queue self;
     active_downloads := active_downloads self;
     completed_downloads := completed_downloads self;
     progress_bars := progress_bars self;
     use_cache := v;
     current_index := current_index self;
     timers := timers self;
     stdout := stdout self;
     files := files self |}.

Definition set_current_index (v : Z) (self : t) : t :=
  {| selected_content_items := selected_content_items self;
     concurrent_downloads := concurrent_downloads self;
     threadpool_max_thread_count := threadpool_max_thread_count self;
     threadpool := threadpool self;
     download_queue := download_queue self;
     active_downloads := active_downloads self;
     completed_downloads := completed_downloads self;
     progress_bars := progress_bars self;
     use_cache := use_cache self;
     current_index := v;
     timers := timers self;
     stdout := stdout self;
     files := files self |}.

Definition set_timers (v : list (Z * callback)) (self : t) : t :=
  {| selected_content_items := selected_content_items self;
     concurrent_downloads := concurrent_downloads self;
     threadpool_max_thread_count := threadpool_max_thread_count self;
     threadpool := threadpool self;
     download_queue := download_queue self;
     active_downloads := active_downloads self;
     completed_downloads := completed_downloads self;
     progress_bars := progress_bars self;
     use_cache := use_cache self;
     current_index := current_index self;
     timers := v;
     stdout := stdout self;
     files := files self |}.

Definition set_stdout (v : list string) (self : t) : t :=
  {| selected_content_items := selected_content_items self;
     concurrent_downloads := concurrent_downloads self;
     threadpool_max_thread_count := threadpool_max_thread_count self;
     threadpool := threadpool self;
     download_queue := download_queue self;
     active_downloads := active_downloads self;
     completed_downloads := completed_downloads self;
     progress_bars := progress_bars self;
     use_cache := use_cache self;
     current_index := current_index self;
     timers := timers self;
     stdout := v;
     files := files self |}.

Definition set_files (v : Disk) (self : t) : t :=
  {| selected_content_items := selected_content_items self;
     concurrent_downloads := concurrent_downloads self;
     threadpool_max_thread_count := threadpool_max_thread_count self;
     threadpool := threadpool self;
     download_queue := download_queue self;
     active_downloads := active_downloads self;
     completed_downloads := completed_downloads self;
     progress_bars := progress_bars self;
     use_cache := use_cache self;
     current_index := current_index self;
     timers := timers self;
     stdout := stdout self;
     files := v |}.

(** [print(message)]. *)
Definition print (message : string) : M t unit :=
  modify (fun self => set_stdout (stdout self ++ [message]) self).

(** The object [__init__] leaves, for the files found in the working
    directory.  The three download attributes are [None] there until
    [start_downloads] assigns them; no handler reads them before. *)
Definition init (disk : Disk) : t :=
  {| selected_content_items := [];
     concurrent_downloads := 3;
     threadpool_max_thread_count := 3;
     threadpool := [];
     download_queue := [];
     active_downloads := [];
     completed_downloads := 0;
     progress_bars := [];
     use_cache := true;
     current_index := 0;
     timers := [];
     stdout := [];
     files := disk |}.

(** [update_concurrent_downloads], for the slider value [value]. *)
Definition update_concurrent_downloads (value : Z) : M t unit :=
  modify (set_concurrency value).

(** What [go_to_stage4] stores for the boxes that are checked. *)
Definition select_content (items : list ProcessedItem) : M t unit :=
  modify (set_selected_content_items items).

(** The bar [start_downloads] builds: range 0..100, value 0. *)
Definition new_progress_bar : QProgressBar :=
  {| bar_minimum := 0; bar_maximum := 100; bar_value := 0; bar_format := None |}.

Definition start_next_download (bar_index : nat) : M t unit :=
  self <- get ;;
  match download_queue self with
  | [] => ret tt
  | (url, file_path, file_name) :: rest =>
      modify (set_download_queue rest) ;;
      self <- get ;;
      match nth_error (progress_bars self) bar_index with
      | None => raise (Exception "IndexError" "list index out of range")
      | Some _ =>
          let download_worker :=
            DownloadWorker.init url file_path file_name bar_index bar_index in
          modify (fun self =>
            set_active_downloads (active_downloads self ++ [download_worker]) self) ;;
          modify (fun self =>
            set_threadpool (threadpool self ++ [download_worker]) self)
      end
  end.

Definition start_downloads (download_urls : list download) : M t unit :=
  modify (set_download_queue download_urls) ;;
  modify (set_active_downloads []) ;;
  modify (set_completed_downloads 0) ;;
  self <- get ;;
  for_each (range (Z.min (concurrent_downloads self) (len download_urls)))
    (fun i =>
       modify (fun self =>
         set_progress_bars (progress_bars self ++ [new_progress_bar]) self) ;;
       start_next_download i).

Definition go_to_stage6 : M t unit :=
  modify (set_current_index 5) ;;
  modify (fun self => set_timers (timers self ++ [(2000, Go_to_stage7)]) self).

Definition on_download_complete (bar_index : nat) (message : string) : M t unit :=
  print message ;;
  start_next_download bar_index ;;
  modify (fun self => set_completed_downloads (completed_downloads self + 1) self) ;;
  self <- get ;;
  if completed_downloads self =? len (selected_content_items self)
  then go_to_stage6
  else ret tt.

(** ** The event loop, as far as downloads go *)

Fixpoint remove_nth {A : Type} (k : nat) (l : list A) : list A :=
  match k, l with
  | _, [] => []
  | O, _ :: l' => l'
  | S k', x :: l' => x :: remove_nth k' l'
  end.

(** The [k]-th worker of the pool ends its [run] having emitted [message]
    on its result signal: it leaves the pool and the connected slot runs.
    Nothing happens when the pool has no such worker. *)
Definition worker_finished (event : nat * string) : M t unit :=
  let (k, message) := event in
  self <- get ;;
  match nth_error (threadpool self) k with
  | None => ret tt
  | Some w =>
      modify (set_threadpool (remove_nth k (threadpool self))) ;;
      on_download_complete (DownloadWorker.signal w) message
  end.

(** Result signals delivered to the slot as they are, whoever sent them. *)
Definition deliver_results (events : list (nat * string)) : M t unit :=
  for_each events (fun event => on_download_complete (fst event) (snd event)).

(** A session: the slider is set, the content chosen, the downloads
    started, and workers of the pool finish in the order [events] gives. *)
Definition session (concurrency : Z) (items : list ProcessedItem)
    (download_urls : list download) (events : list (nat * string)) : M t unit :=
  update_concurrent_downloads concurrency ;;
  select_content items ;;
  start_downloads download_urls ;;
  for_each events worker_finished.

(** ** Closed forms of the two handlers *)

(** What [start_next_download] leaves when a bar exists at [bar_index]. *)
Definition started (bar_index : nat) (self : t) : t :=
  match download_queue self with
  | [] => self
  | (url, file_path, file_name) :: rest =>
      let w := DownloadWorker.init url file_path file_name bar_index bar_index in
      let self1 := set_download_queue rest self in
      set_threadpool (threadpool self1 ++ [w])
        (set_active_downloads (active_downloads self1 ++ [w]) self1)
  end.

(** The state [on_download_complete] leaves when a bar exists at
    [bar_index]: one print, at most one start, one more completion, and
    stage 6 when the count meets the number of selected items. *)
Definition completed_one (bar_index : nat) (message : string) (self : t) : t :=
  let self1 := started bar_index (set_stdout (stdout self ++ [message]) self) in
  let self2 := set_completed_downloads (completed_downloads self1 + 1) self1 in
  if completed_downloads self2 =? len (selected_content_items self2)
  then set_timers (timers self2 ++ [(2000, Go_to_stage7)]) (set_current_index 5 self2)
  else self2.

(** Every worker of the pool is bound to an existing bar, and the pool
    holds no more workers than there are bars. *)
Definition pool_ok (self : t) : Prop :=
  Forall (fun w => (DownloadWorker.signal w < List.length (progress_bars self))%nat)
    (threadpool self)
  /\ (List.length (threadpool self) <= List.length (progress_bars self))%nat.

End USBSelectorApp.

(** ** The network and the local disk *)

Module requests.

(** What the program reads of a [requests.Response]: the status code, the
    content-length header, the body as the pieces the stream yields
    (followed, when [stream_error] is set, by a connection error with that
    text, raised where the next piece is awaited), and what [json()] gives. *)
Record Response : Type := {
  status_code : Z;
  content_length : option string;
  chunks : list bytes;
  stream_error : option string;
  json_value : result json
}.

Definition set_status_code (code : Z) (r : Response) : Response :=
  {| status_code := code;
     content_length := content_length r;
     chunks := chunks r;
     stream_error := stream_error r;
     json_value := json_value r |}.

(** [response.content]: the whole body, read from the stream. *)
Definition content (r : Response) : result bytes :=
  match stream_error r with
  | None => Ok (List.concat (chunks r))
  | Some detail => Raise (Exception "ChunkedEncodingError" detail)
  end.

End requests.

(** The surroundings of one worker: what [requests.get] answers for a URL
    (an error text when the request fails); the error [open] raises if any;
    the [f.write] call that raises if any (numbered from 0, with its error
    text); the error the closing of the file raises if any; how many of the
    bytes handed to the file are on the disk in the end when a write or the
    closing raised; and the text of the [TypeError] PyQt raises for a value
    that is emitted where the signal declares a [str]. *)
Record Environment : Type := {
  http_get : string -> string + requests.Response;
  open_error : option string;
  write_error : option (nat * string);
  close_error : option string;
  reaches_disk : nat;
  signal_type_error : json -> string
}.

Definition set_http_get (g : string -> string + requests.Response)
    (env : Environment) : Environment :=
  {| http_get := g;
     open_error := open_error env;
     write_error := write_error env;
     close_error := close_error env;
     reaches_disk := reaches_disk env;
     signal_type_error := signal_type_error env |}.

(** The same surroundings, every status code [c] answered replaced by
    [recode c]. *)
Definition recode_status (recode : Z -> Z) (env : Environment) : Environment :=
  set_http_get
    (fun url =>
       match http_get env url with
       | inl detail => inl detail
       | inr response =>
           inr (requests.set_status_code (recode (requests.status_code response)) response)
       end)
    env.

(** What a signal carries when it is emitted. *)
Inductive Emission : Type :=
| Progress (downloaded_mb total_mb : float) (file_name : json) (progress_bar : nat)
| Result (message : string).

(** What a worker changes: the signals emitted so far, the disk, the number
    of [f.write] calls made, and the bytes handed so far to the file object
    that is open for writing. *)
Record World : Type := {
  emitted : list Emission;
  disk : Disk;
  writes : nat;
  handed : bytes
}.

(** [signal.emit(...)] with arguments of the declared types: the emission is
    recorded; how Qt calls the connected slot is outside the worker. *)
Definition emit (e : Emission) : M World unit :=
  modify (fun w =>
    {| emitted := emitted w ++ [e]; disk := disk w; writes := writes w;
       handed := handed w |}).

Definition is_str (v : json) : bool :=
  match v with
  | JStr _ => true
  | _ => false
  end.

(** [signal.progress.emit(downloaded_mb, total_mb, file_name, progress_bar)]:
    the signal is declared [pyqtSignal(float, float, str, QProgressBar)], so
    a file name that is not a [str] is refused with a [TypeError]. *)
Definition emit_progress (env : Environment) (downloaded_mb total_mb : float)
    (file_name : json) (progress_bar : nat) : M World unit :=
  if is_str file_name
  then emit (Progress downloaded_mb total_mb file_name progress_bar)
  else raise (Exception "TypeError" (signal_type_error env file_name)).

Definition is_progress (e : Emission) : Prop :=
  match e with
  | Progress _ _ _ _ => True
  | Result _ => False
  end.

(** From [w] to [w'] progress signals only were emitted. *)
Definition only_progress (w w' : World) : Prop :=
  exists progress,
    Forall is_progress progress /\ emitted w' = emitted w ++ progress.

(** Every file of [w] is still a file of [w']. *)
Definition no_deletion (w w' : World) : Prop :=
  forall path, dict_lookup path (disk w) <> None -> dict_lookup path (disk w') <> None.

(** The outcome is not an exception that [except Exception] lets pass. *)
Definition caught {A : Type} (r : result A) : Prop :=
  match r with
  | Raise (BaseException _ _) => False
  | _ => True
  end.

(** A step that emits progress only, deletes nothing and raises nothing
    beyond [Exception]. *)
Definition tame {A : Type} (m : M World A) : Prop :=
  forall w,
    only_progress w (snd (m w)) /\ no_deletion w (snd (m w)) /\ caught (fst (m w)).

(** A computation that ends with the one result signal [message] when it
    returns, and is tame when it raises. *)
Definition reports (message : string) {A : Type} (m : M World A) : Prop :=
  forall w,
    no_deletion w (snd (m w))
    /\ match fst (m w) with
       | Ok _ =>
           exists progress,
             Forall is_progress progress
             /\ emitted (snd (m w)) = emitted w ++ progress ++ [Result message]
       | Raise (Exception _ _) => only_progress w (snd (m w))
       | Raise (BaseException _ _) => False
       end.

(** [open(path, 'wb')]: creates the file or empties it; nothing has been
    handed to the new file object. *)
Definition open_wb (env : Environment) (path : string) : M World unit :=
  match open_error env with
  | Some detail => raise (Exception "OSError" detail)
  | None =>
      modify (fun w =>
        {| emitted := emitted w; disk := dict_set path [] (disk w); writes := writes w;
           handed := [] |})
  end.

Definition write_fails (env : Environment) (n : nat) : option string :=
  match write_error env with
  | Some (k, detail) => if Nat.eqb k n then Some detail else None
  | None => None
  end.

(** [f.write(data)].  The file object is buffered: it takes the data over,
    and the data reaches the disk later, at the latest when the file is
    closed.  The call that raises is the one during which emptying the
    buffer fails; part of what was handed over may be on the disk by then. *)
Definition file_write (env : Environment) (data : bytes) : M World unit :=
  w <- get ;;
  modify (fun w =>
    {| emitted := emitted w; disk := disk w; writes := S (writes w);
       handed := handed w ++ data |}) ;;
  match write_fails env (writes w) with
  | Some detail => raise (Exception "OSError" detail)
  | None => ret tt
  end.

(** A write made since the file was opened, at write number [opened_at],
    has raised. *)
Definition write_raised (env : Environment) (opened_at : nat) (w : World) : bool :=
  match write_error env with
  | Some (k, _) => Nat.leb opened_at k && Nat.ltb k (writes w)
  | None => false
  end.

(** What is on the disk of the bytes handed to a file, once it is closed:
    all of them when neither a write nor the closing raised, and else the
    first [reaches_disk] of them. *)
Definition on_disk (env : Environment) (opened_at : nat) (w : World) : bytes :=
  if write_raised env opened_at w
  then firstn (reaches_disk env) (handed w)
  else match close_error env with
       | Some _ => firstn (reaches_disk env) (handed w)
       | None => handed w
       end.

(** [f.close()], as the [with] statement calls it on the way out. *)
Definition file_close (env : Environment) (path : string) (opened_at : nat)
    : M World unit :=
  modify (fun w =>
    {| emitted := emitted w; disk := dict_set path (on_disk env opened_at w) (disk w);
       writes := writes w; handed := handed w |}) ;;
  match close_error env with
  | Some detail => raise (Exception "OSError" detail)
  | None => ret tt
  end.

(** [with open(path, 'wb') as f: body].  The file is closed whether the body
    returns or raises; an exception of the closing replaces the one of the
    body. *)
Definition with_open_wb (env : Environment) (path : string) (body : M World unit)
    : M World unit :=
  open_wb env path ;;
  opened <- get ;;
  fun w =>
    match body w with
    | (Ok _, w') => file_close env path (writes opened) w'
    | (Raise e, w') =>
        match file_close env path (writes opened) w' with
        | (Ok _, w'') => (Raise e, w'')
        | (Raise e', w'') => (Raise e', w'')
        end
    end.

(** *** Closed forms of the [with] block *)

(** The world in which the body of the block starts. *)
Definition opened (path : string) (w : World) : World :=
  {| emitted := emitted w; disk := dict_set path [] (disk w); writes := writes w;
     handed := [] |}.

(** The world the block leaves whose body left [w']. *)
Definition closed (env : Environment) (path : string) (opened_at : nat) (w' : World)
    : World :=
  {| emitted := emitted w';
     disk := dict_set path (on_disk env opened_at w') (disk w');
     writes := writes w';
     handed := handed w' |}.

(** The outcome of the block whose body ended with [r]. *)
Definition after_close_result (env : Environment) (r : result unit) : result unit :=
  match close_error env with
  | Some detail => Raise (Exception "OSError" detail)
  | None => r
  end.

(** ** [update_progress] *)

(** [progress_bar.setValue(value)]: the argument is a C [int]. *)
Definition setValue (value : Z) : M QProgressBar unit :=
  if (value <? - 2147483648) || (2147483647 <? value)
  then raise (Exception "OverflowError"
                "argument 1 overflowed: value must be in the range -2147483648 to 2147483647")
  else
    modify (fun bar =>
      {| bar_minimum := bar_minimum bar; bar_maximum := bar_maximum bar;
         bar_value := value; bar_format := bar_format bar |}).

(** The slot of the progress signal; the state is the bar it is given. *)
Definition update_progress (bar_index : nat) (downloaded_mb total_mb : float)
    (file_name : json) : M QProgressBar unit :=
  quotient <- lift_result (float_truediv downloaded_mb total_mb) ;;
  let percent_complete := PrimFloat.mul quotient hundred in
  value <- lift_result (math_floor percent_complete) ;;
  setValue value ;;
  modify (fun bar =>
    {| bar_minimum := bar_minimum bar; bar_maximum := bar_maximum bar;
       bar_value := bar_value bar;
       bar_format := Some {| label_file_name := file_name;
                             label_downloaded_mb := downloaded_mb;
                             label_total_mb := total_mb;
                             label_percent := percent_complete |} |}).

(** ** Code that formats or parses text *)

Section Builtins.

(** Python's [repr] of a float, a list or a dict, and [int] of a string
    ([None] where it raises [ValueError]): built into the interpreter. *)
Variable py_repr : json -> string.
Variable py_int : string -> option Z.

(** A value inside an f-string. *)
Definition py_format (v : json) : string :=
  match v with
  | JNull => "None"
  | JBool true => "True"
  | JBool false => "False"
  | JInt z => str_of_int z
  | JStr s => s
  | JFloat _ | JList _ | JDict _ => py_repr v
  end.

Definition int (s : string) : result Z :=
  match py_int s with
  | Some z => Ok z
  | None =>
      Raise (Exception "ValueError"
               ("invalid literal for int() with base 10: " +s+ py_repr (JStr s)))
  end.

(** *** [DownloadWorker.run] *)

Definition requests_get (env : Environment) (url : string)
    : M World requests.Response :=
  match http_get env url with
  | inl detail => raise (Exception "ConnectionError" detail)
  | inr response => ret response
  end.

(** The loop over [response.iter_content(chunk_size=4096)]. *)
Fixpoint stream (env : Environment) (self : DownloadWorker.t) (total_mb : float)
    (pieces : list bytes) (stream_error : option string) (dl : Z) : M World unit :=
  match pieces with
  | [] =>
      match stream_error with
      | None => ret tt
      | Some detail => raise (Exception "ChunkedEncodingError" detail)
      end
  | data :: rest =>
      let dl := dl + len data in
      file_write env data ;;
      downloaded_mb <- lift_result (to_megabytes dl) ;;
      emit_progress env downloaded_mb total_mb (DownloadWorker.file_name self)
        (DownloadWorker.progress_bar self) ;;
      stream env self total_mb rest stream_error dl
  end.

(** The body of the [try]. *)
Definition run_body (env : Environment) (self : DownloadWorker.t) : M World unit :=
  response <- requests_get env (DownloadWorker.url self) ;;
  let total_length := requests.content_length response in
  match total_length with
  | None =>
      content <- lift_result (requests.content response) ;;
      dl <- lift_result (to_megabytes (len content)) ;;
      let total_mb := dl in
      with_open_wb env (DownloadWorker.file_path self) (file_write env content) ;;
      emit_progress env dl total_mb (DownloadWorker.file_name self)
        (DownloadWorker.progress_bar self)
  | Some total_length =>
      let dl := 0 in
      total_length <- lift_result (int total_length) ;;
      total_mb <- lift_result (to_megabytes total_length) ;;
      with_open_wb env (DownloadWorker.file_path self)
        (stream env self total_mb (requests.chunks response)
           (requests.stream_error response) dl)
  end ;;
  emit (Result ("Finished downloading " +s+ py_format (DownloadWorker.file_name self))).

Definition run (env : Environment) (self : DownloadWorker.t) : M World unit :=
  try_except_Exception (run_body env self)
    (fun e =>
       emit (Result ("Error downloading " +s+ py_format (DownloadWorker.file_name self)
                       +s+ ": " +s+ exn_str e))).

(** *** What fails in a run *)

(** The first step of the loop over [pieces] that raises, by the text of its
    exception: a write, the division of the bytes counted, the emission of
    the progress signal, or the stream where the next piece is awaited;
    [k] writes were made before and [dl] bytes counted.  [None] when the
    loop returns. *)
Fixpoint stream_failure (env : Environment) (file_name : json) (pieces : list bytes)
    (stream_error : option string) (k : nat) (dl : Z) : option string :=
  match pieces with
  | [] => stream_error
  | data :: rest =>
      match write_fails env k with
      | Some detail => Some detail
      | None =>
          match to_megabytes (dl + len data) with
          | Raise e => Some (exn_str e)
          | Ok _ =>
              if is_str file_name
              then stream_failure env file_name rest stream_error (S k) (dl + len data)
              else Some (signal_type_error env file_name)
          end
      end
  end.

(** The exception that leaves a [with] block on an open file whose body
    ends with [inner]: the one of the closing, when it raises. *)
Definition after_close (env : Environment) (inner : option string) : option string :=
  match close_error env with
  | Some detail => Some detail
  | None => inner
  end.

(** What fails before the destination is opened or when it is opened, so
    that the file is neither created nor emptied: the request, [int] on the
    header, the division of the declared length, the reading of the body at
    once, the division of its length, or [open]. *)
Definition early_failure (env : Environment) (self : DownloadWorker.t) : option string :=
  match http_get env (DownloadWorker.url self) with
  | inl detail => Some detail
  | inr response =>
      match requests.content_length response with
      | Some header =>
          match int header with
          | Raise e => Some (exn_str e)
          | Ok total =>
              match to_megabytes total with
              | Raise e => Some (exn_str e)
              | Ok _ => open_error env
              end
          end
      | None =>
          match requests.content response with
          | Raise e => Some (exn_str e)
          | Ok content =>
              match to_megabytes (len content) with
              | Raise e => Some (exn_str e)
              | Ok _ => open_error env
              end
          end
      end
  end.

(** What fails in a run that starts when [k] writes were made: the text of
    the exception that leaves the body of the [try], [None] when none does. *)
Definition run_failure (env : Environment) (self : DownloadWorker.t) (k : nat)
    : option string :=
  match early_failure env self with
  | Some detail => Some detail
  | None =>
      match http_get env (DownloadWorker.url self) with
      | inl detail => Some detail
      | inr response =>
          match requests.content_length response with
          | Some _ =>
              after_close env
                (stream_failure env (DownloadWorker.file_name self)
                   (requests.chunks response) (requests.stream_error response) k 0)
          | None =>
              match after_close env (write_fails env k) with
              | Some detail => Some detail
              | None =>
                  if is_str (DownloadWorker.file_name self) then None
                  else Some (signal_type_error env (DownloadWorker.file_name self))
              end
          end
      end
  end.

(** The text of the result signal of such a run. *)
Definition result_message (env : Environment) (self : DownloadWorker.t) (k : nat)
    : string :=
  match run_failure env self k with
  | None => "Finished downloading " +s+ py_format (DownloadWorker.file_name self)
  | Some detail =>
      "Error downloading " +s+ py_format (DownloadWorker.file_name self)
      +s+ ": " +s+ detail
  end.

(** *** [fetch_data] *)

Definition no_attribute (name : string) : exn :=
  Exception "AttributeError" ("object has no attribute " +s+ name).

(** [for x in v]: the values the loop visits. *)
Definition py_iter (v : json) : result (list json) :=
  match v with
  | JList l => Ok l
  | JDict d => Ok (map (fun kv => JStr (fst kv)) d)
  | JStr s => Ok (map (fun c => JStr (String c EmptyString)) (list_ascii_of_string s))
  | JNull | JBool _ | JInt _ | JFloat _ =>
      Raise (Exception "TypeError" "object is not iterable")
  end.

(** [v[k]] for a string [k]. *)
Definition py_getitem (v : json) (k : string) : result json :=
  match v with
  | JDict d =>
      match dict_lookup k d with
      | Some x => Ok x
      | None => Raise (Exception "KeyError" k)
      end
  | JList _ => Raise (Exception "TypeError" "list indices must be integers or slices, not str")
  | JStr _ => Raise (Exception "TypeError" "string indices must be integers")
  | JNull | JBool _ | JInt _ | JFloat _ =>
      Raise (Exception "TypeError" "object is not subscriptable")
  end.

(** [v.upper()]. *)
Definition py_upper (v : json) : result string :=
  match v with
  | JStr s => Ok (upper s)
  | _ => Raise (no_attribute "upper")
  end.

(** The dict display of the inner loop, for one [item]. *)
Definition process_item (category_name : string) (item : json) : result ProcessedItem :=
  match item with
  | JDict d =>
      match py_upper (dict_get d "filetype" (JStr "")) with
      | Raise e => Raise e
      | Ok filetype =>
          Ok {| item_category := category_name;
                item_title := dict_get d "title" (JStr "");
                item_duration := dict_get d "duration" (JStr "");
                item_filetype := filetype;
                item_size := py_format (dict_get d "size_gb" (JInt 0)) +s+ "GB";
                item_size_gb := dict_get d "size_gb" (JInt 0);
                item_url := dict_get d "url" (JStr "") |}
      end
  | _ => Raise (no_attribute "get")
  end.

(** The inner loop: [processed_items] grows by one item per turn. *)
Fixpoint process_items (category_name : string) (items : list json)
    (processed_items : list ProcessedItem) : result (list ProcessedItem) :=
  match items with
  | [] => Ok processed_items
  | item :: rest =>
      match process_item category_name item with
      | Raise e => Raise e
      | Ok processed_item =>
          process_items category_name rest (processed_items ++ [processed_item])
      end
  end.

(** One turn of the outer loop. *)
Definition process_category (data category_key : json)
    (processed_data : dict (list ProcessedItem)) : result (dict (list ProcessedItem)) :=
  match category_key with
  | JStr key =>
      let category_name := capitalize key in
      match py_getitem data key with
      | Raise e => Raise e
      | Ok items =>
          match py_iter items with
          | Raise e => Raise e
          | Ok items =>
              match process_items category_name items [] with
              | Raise e => Raise e
              | Ok processed_items =>
                  Ok (dict_set category_name processed_items processed_data)
              end
          end
      end
  | _ => Raise (no_attribute "capitalize")
  end.

Fixpoint process_categories (data : json) (category_keys : list json)
    (processed_data : dict (list ProcessedItem)) : result (dict (list ProcessedItem)) :=
  match category_keys with
  | [] => Ok processed_data
  | category_key :: rest =>
      match process_category data category_key processed_data with
      | Raise e => Raise e
      | Ok processed_data => process_categories data rest processed_data
      end
  end.

(** [fetch_data], for the answer [requests.get] gives for the catalog URL;
    the state is what [print] has written. *)
Definition fetch_data (answer : string + requests.Response)
    : M (list string) (dict (list ProcessedItem)) :=
  response <- match answer with
              | inl detail => raise (Exception "ConnectionError" detail)
              | inr response => ret response
              end ;;
  if requests.status_code response =? 200 then
    data <- lift_result (requests.json_value response) ;;
    category_keys <- lift_result (py_iter data) ;;
    lift_result (process_categories data category_keys [])
  else
    modify (fun out =>
      out ++ ["Error fetching data: " +s+ py_format (JInt (requests.status_code response))]) ;;
    ret [].

(** [item] of category [category_name] was built from an entry [d] of the
    list the catalog [data] holds under a key that capitalizes to
    [category_name]. *)
Definition item_from_catalog (data : json) (category_name : string)
    (item : ProcessedItem) : Prop :=
  exists (raw_key : string) (raw_items : json) (entries : list json) (d : dict json),
    category_name = capitalize raw_key
    /\ py_getitem data raw_key = Ok raw_items
    /\ py_iter raw_items = Ok entries
    /\ In (JDict d) entries
    /\ item_category item = category_name
    /\ item_title item = dict_get d "title" (JStr "")
    /\ item_duration item = dict_get d "duration" (JStr "")
    /\ (exists filetype,
          dict_get d "filetype" (JStr "") = JStr filetype
          /\ item_filetype item = upper filetype)
    /\ item_size item = py_format (dict_get d "size_gb" (JInt 0)) +s+ "GB"
    /\ item_size_gb item = dict_get d "size_gb" (JInt 0)
    /\ item_url item = dict_get d "url" (JStr "").

(** The keys of the catalog [data] and the file types of its entries are
    ASCII text. *)
Definition ascii_entry (entry : json) : Prop :=
  match entry with
  | JDict d =>
      match dict_get d "filetype" (JStr "") with
      | JStr filetype => isascii filetype = true
      | _ => True
      end
  | _ => True
  end.

Definition ascii_catalog (data : json) : Prop :=
  match data with
  | JDict d =>
      Forall (fun binding =>
                isascii (fst binding) = true
                /\ match snd binding with
                   | JList entries => Forall ascii_entry entries
                   | _ => True
                   end) d
  | _ => True
  end.

(** An entry [fetch_data] can process: a dict whose file type, when there is
    one, is a string. *)
Definition well_formed_entry (entry : json) : Prop :=
  exists d filetype,
    entry = JDict d /\ dict_get d "filetype" (JStr "") = JStr filetype.

(** A catalog every category of which is a list of such entries. *)
Definition well_formed_catalog (d : dict json) : Prop :=
  Forall (fun binding =>
            exists entries,
              snd binding = JList entries /\ Forall well_formed_entry entries) d.

(** [item] is what the dict display gives for [entry] in the category
    [category_name]. *)
Definition built_from (category_name : string) (entry : json) (item : ProcessedItem)
    : Prop :=
  exists d,
    entry = JDict d
    /\ item_category item = category_name
    /\ item_title item = dict_get d "title" (JStr "")
    /\ item_duration item = dict_get d "duration" (JStr "")
    /\ (exists filetype,
          dict_get d "filetype" (JStr "") = JStr filetype
          /\ item_filetype item = upper filetype)
    /\ item_size item = py_format (dict_get d "size_gb" (JInt 0)) +s+ "GB"
    /\ item_size_gb item = dict_get d "size_gb" (JInt 0)
    /\ item_url item = dict_get d "url" (JStr "").

(** *** [go_to_stage5] *)

Definition cache_folder : string := "cache".

(** The tuple the list comprehension builds for [item]. *)
Definition download_of (item : ProcessedItem) : download :=
  ("https://cdn.skyy.cc/" +s+ py_format (item_url item),
   cache_folder +s+ "/" +s+ item_category item +s+ "/"
     +s+ py_format (item_title item) +s+ ".mp4",
   item_title item).

(** [shutil.rmtree(folder, ignore_errors=True)], every removal succeeding.
    Where a removal fails the folder stays, [os.makedirs] then raises, and
    [go_to_stage5] returns: what is left of the folder in that case (a
    [mkdir_error] below) is not described. *)
Definition rmtree (folder : string) (d : Disk) : Disk :=
  filter (fun entry => negb (String.prefix (folder +s+ "/") (fst entry))) d.

(** [go_to_stage5]; [mkdir_error] is the text of the [OSError] that
    creating the cache folders raises, if it does. *)
Definition go_to_stage5 (mkdir_error : option string) : M USBSelectorApp.t unit :=
  modify (USBSelectorApp.set_current_index 4) ;;
  modify (fun self =>
    USBSelectorApp.set_files (rmtree cache_folder (USBSelectorApp.files self)) self) ;;
  match mkdir_error with
  | Some e => USBSelectorApp.print ("Error creating cache folder: " +s+ e)
  | None =>
      self <- get ;;
      let download_urls := map download_of (USBSelectorApp.selected_content_items self) in
      USBSelectorApp.start_downloads download_urls
  end.

End Builtins.

(** * Sample inputs *)

Definition sample_repr (v : json) : string := "?".

(** Decimal digits with an optional minus sign, where [int] agrees. *)
Definition sample_int (s : string) : option Z :=
  option_map Z.of_int (NilZero.int_of_string s).

Definition sample_item (category title filetype url : string) : ProcessedItem :=
  {| item_category := category;
     item_title := JStr title;
     item_duration := JStr "2:00";
     item_filetype := filetype;
     item_size := "1GB";
     item_size_gb := JInt 1;
     item_url := JStr url |}.

Definition five_items : list ProcessedItem :=
  [sample_item "Movies" "A" "MP4" "a.mp4";
   sample_item "Movies" "B" "MP4" "b.mp4";
   sample_item "Movies" "C" "MP4" "c.mp4";
   sample_item "Music" "D" "MP3" "d.mp3";
   sample_item "Gaming" "E" "MP4" "e.mp4"].

Definition five_downloads : list download := map (download_of sample_repr) five_items.

(** Concurrency 3, the five items selected and their downloads started. *)
Definition five_started : USBSelectorApp.t :=
  snd (USBSelectorApp.session 3 five_items five_downloads [] (USBSelectorApp.init [])).

Definition two_items : list ProcessedItem := firstn 2 five_items.

(** The five items selected on a fresh application object. *)
Definition five_selected : USBSelectorApp.t :=
  USBSelectorApp.set_selected_content_items five_items (USBSelectorApp.init []).

Definition sample_worker : DownloadWorker.t :=
  DownloadWorker.init "https://cdn.skyy.cc/a.mp4" "cache/Movies/A.mp4" (JStr "A") 0 0.

Definition piece (b : Byte.byte) : bytes := repeat b 4.

Definition sample_response (code : Z) (header : option string) (pieces : list bytes)
    : requests.Response :=
  {| requests.status_code := code;
     requests.content_length := header;
     requests.chunks := pieces;
     requests.stream_error := None;
     requests.json_value := Raise (Exception "JSONDecodeError" "Expecting value") |}.

(** The name of the type of a value. *)
Definition py_type_name (v : json) : string :=
  match v with
  | JNull => "NoneType"
  | JBool _ => "bool"
  | JInt _ => "int"
  | JFloat _ => "float"
  | JStr _ => "str"
  | JList _ => "list"
  | JDict _ => "dict"
  end.

(** The text PyQt5 gives when [emit] is handed a value of the wrong type. *)
Definition sample_type_error (v : json) : string :=
  "WorkerSignals.progress[float, float, str, QProgressBar].emit(): "
  +s+ "argument 3 has unexpected type '" +s+ py_type_name v +s+ "'".

(** The request is answered by [response]; [failing_write] tells the write
    that raises, if any, and the first [kept] bytes handed to the file are
    then on the disk; the opening and the closing of the file raise
    nothing. *)
Definition served_with (response : requests.Response)
    (failing_write : option (nat * string)) (kept : nat) : Environment :=
  {| http_get := fun _ => inr response;
     open_error := None;
     write_error := failing_write;
     close_error := None;
     reaches_disk := kept;
     signal_type_error := sample_type_error |}.

(** The same; after a failed write the first eight bytes are on the disk. *)
Definition served (response : requests.Response) (failing_write : option (nat * string))
    : Environment :=
  served_with response failing_write 8.

(** Twelve bytes announced and sent in three pieces; the third write fails. *)
Definition disk_full : Environment :=
  served (sample_response 200 (Some "12") [piece Byte.x61; piece Byte.x62; piece Byte.x63])
    (Some (2%nat, "No space left on device")).

(** A 404 answer with an eight-byte body and no content-length header. *)
Definition not_found : Environment :=
  served (sample_response 404 None [piece Byte.x34; piece Byte.x30]) None.

(** A 200 answer with an empty body and no content-length header. *)
Definition empty_body : Environment :=
  served (sample_response 200 None []) None.

Definition fresh_world (d : Disk) : World :=
  {| emitted := []; disk := d; writes := 0; handed := [] |}.

Definition sample_catalog : json :=
  JDict
    [("movies",
      JList [JDict [("title", JStr "A"); ("duration", JStr "2:00");
                    ("filetype", JStr "mp4"); ("size_gb", JInt 2);
                    ("url", JStr "a.mp4")];
             JDict [("title", JStr "B")]]);
     ("mUSIC",
      JList [JDict [("title", JStr "D"); ("filetype", JStr "mp3");
                    ("size_gb", JInt 1); ("url", JStr "d.mp3")]])].

Definition catalog_response (code : Z) : requests.Response :=
  {| requests.status_code := code;
     requests.content_length := None;
     requests.chunks := [];
     requests.stream_error := None;
     requests.json_value := Ok sample_catalog |}.

(** Item A is selected, the box "Use Cache" is checked as [__init__] leaves
    it, and A's file is in the cache folder from an earlier run. *)
Definition cached_app : USBSelectorApp.t :=
  USBSelectorApp.set_selected_content_items [sample_item "Movies" "A" "MP4" "a.mp4"]
    (USBSelectorApp.init
       [("cache/Movies/A.mp4", piece Byte.x61); ("main.py", piece Byte.x23)]).

Definition two_started : USBSelectorApp.t :=
  snd (USBSelectorApp.session 3 two_items
         (map (download_of sample_repr) two_items) [] (USBSelectorApp.init [])).

(** * Invariants of a session *)

(** What holds of the application object from [start_downloads] on, for the
    list [download_urls] it was given: the pool respects the bars and no two
    of its workers are bound to the same bar; the tasks started so far,
    followed by the queue, are the list; the count of completed downloads is
    the number of workers started less those still in the pool; while the
    queue is not empty every bar has a worker; stage 6 has been entered once
    if the count has reached the number of selected items, and not at all
    otherwise. *)
Definition session_inv (download_urls : list download) (self : USBSelectorApp.t) : Prop :=
  USBSelectorApp.pool_ok self
  /\ Forall (fun w => DownloadWorker.progress_bar w = DownloadWorker.signal w)
       (USBSelectorApp.threadpool self)
  /\ NoDup (map DownloadWorker.signal (USBSelectorApp.threadpool self))
  /\ map DownloadWorker.task (USBSelectorApp.active_downloads self)
       ++ USBSelectorApp.download_queue self = download_urls
  /\ 0 <= USBSelectorApp.completed_downloads self
  /\ USBSelectorApp.completed_downloads self + len (USBSelectorApp.threadpool self)
     = len (USBSelectorApp.active_downloads self)
  /\ (USBSelectorApp.download_queue self <> [] ->
      List.length (USBSelectorApp.threadpool self)
      = List.length (USBSelectorApp.progress_bars self))
  /\ USBSelectorApp.timers self
     = (if (1 <=? len (USBSelectorApp.selected_content_items self))
           && (len (USBSelectorApp.selected_content_items self)
               <=? USBSelectorApp.completed_downloads self)
        then [(2000, Go_to_stage7)] else [])
  /\ (USBSelectorApp.timers self <> [] -> USBSelectorApp.current_index self = 5).

(** * Further vocabulary for the worker *)

(** The progress signals of a streamed download that reported [n] of
    [pieces]: one per piece, each with the bytes counted so far. *)
Definition streamed_progress (self : DownloadWorker.t) (total_mb : float)
    (pieces : list bytes) (n : nat) : list Emission :=
  map (fun k =>
         Progress (megabytes (len (List.concat (firstn k pieces)))) total_mb
           (DownloadWorker.file_name self) (DownloadWorker.progress_bar self))
    (seq 1 n).

(** * Further sample inputs *)

(** No answer: the request itself fails. *)
Definition unreachable : Environment :=
  {| http_get := fun _ => inl "Connection refused";
     open_error := None;
     write_error := None;
     close_error := None;
     reaches_disk := 0;
     signal_type_error := sample_type_error |}.

(** A body sent compressed: the header counts the eight bytes on the wire,
    the stream yields in one piece the twelve bytes they decode to, and
    nothing fails. *)
Definition compressed : Environment :=
  served (sample_response 200 (Some "8") [piece Byte.x61 ++ piece Byte.x62 ++ piece Byte.x63])
    None.

(** A content-length header of 1 followed by 400 zeros. *)
Definition huge_header : Environment :=
  served
    (sample_response 200
       (Some (String "1" (string_of_list_ascii (repeat "0"%char 400))))
       [piece Byte.x61])
    None.

(** Twelve bytes in three pieces that the file object takes over; emptying
    its buffer fails when the file is closed, with four bytes on the disk. *)
Definition full_at_close : Environment :=
  {| http_get :=
       fun _ =>
         inr (sample_response 200 (Some "12")
                [piece Byte.x61; piece Byte.x62; piece Byte.x63]);
     open_error := None;
     write_error := None;
     close_error := Some "No space left on device";
     reaches_disk := 4;
     signal_type_error := sample_type_error |}.

(** A worker whose file name is the number 7, as a catalog with
    ["title": 7] gives it. *)
Definition numbered_worker : DownloadWorker.t :=
  DownloadWorker.init "https://cdn.skyy.cc/a.mp4" "cache/Movies/7.mp4" (JInt 7) 0 0.

(** * Removable drives *)

Module win32.

(** What the program asks of Windows: the bit mask of the drive letters in
    use, the type of a drive, its volume name ([volume_info[0]]) and its
    usage [(total, used, free)] in bytes; the last two answer with an error
    text when the call raises. *)
Record Host : Type := {
  GetLogicalDrives : Z;
  GetDriveType : string -> Z;
  GetVolumeInformation : string -> string + string;
  disk_usage : string -> string + (Z * Z * Z)
}.

Definition DRIVE_REMOVABLE : Z := 2.

End win32.

(** The tuple [(drive_info, free_gb, total_gb, drive)]. *)
Definition device : Type := (string * float * float * string)%type.

Definition device_label (d : device) : string := fst (fst (fst d)).
Definition device_free_gb (d : device) : float := snd (fst (fst d)).
Definition device_drive (d : device) : string := snd d.

(** What [list_usb_devices] builds and prints. *)
Record Scan : Type := {
  drives_info : list device;
  printed : list string
}.

(** [f"{chr(65 + drive_letter)}:\\"]. *)
Definition drive_path (drive_letter : nat) : string :=
  String (ascii_of_nat (65 + drive_letter)) ":\".

Definition no_usb_devices_found : string := "No USB devices found".

Section Formats.

(** Python's rendering of a float with two decimals ([:.2f]): built into the
    interpreter. *)
Variable format_2f : float -> string.

Definition drive_label (usb_name drive : string) (free_gb total_gb : float) : string :=
  usb_name +s+ " (" +s+ drive +s+ ") - " +s+ format_2f free_gb
    +s+ " GB Free / " +s+ format_2f total_gb +s+ " GB Total".

(** The body of the [try] of [list_usb_devices], for one drive. *)
Definition inspect_drive (host : win32.Host) (drive : string) : M Scan unit :=
  volume_name <- match win32.GetVolumeInformation host drive with
                 | inl detail => raise (Exception "pywintypes.error" detail)
                 | inr name => ret name
                 end ;;
  let usb_name :=
    match volume_name with
    | EmptyString => "Unnamed USB"
    | _ => volume_name
    end in
  usage <- match win32.disk_usage host drive with
           | inl detail => raise (Exception "OSError" detail)
           | inr usage => ret usage
           end ;;
  let '(total, used, free) := usage in
  total_gb <- lift_result (truediv_pow2 total 30) ;;
  free_gb <- lift_result (truediv_pow2 free 30) ;;
  let drive_info := drive_label usb_name drive free_gb total_gb in
  modify (fun s =>
    {| drives_info := drives_info s ++ [(drive_info, free_gb, total_gb, drive)];
       printed := printed s |}).

(** One turn of the loop over the 26 letters. *)
Definition scan_drive (host : win32.Host) (drive_letter : nat) : M Scan unit :=
  let mask := Z.shiftl 1 (Z.of_nat drive_letter) in
  if Z.land (win32.GetLogicalDrives host) mask =? 0 then ret tt
  else
    let drive := drive_path drive_letter in
    let drive_type := win32.GetDriveType host drive in
    if drive_type =? win32.DRIVE_REMOVABLE then
      try_except_Exception (inspect_drive host drive)
        (fun e =>
           modify (fun s =>
             {| drives_info := drives_info s;
                printed := printed s
                           ++ ["Error retrieving info for " +s+ drive +s+ ": "
                               +s+ exn_str e] |}))
    else ret tt.

(** [list_usb_devices]: the list returned and what has been printed. *)
Definition list_usb_devices (host : win32.Host) : M (list string) (list device) :=
  fun out =>
    match for_each (range 26) (scan_drive host) {| drives_info := []; printed := out |} with
    | (Ok _, s) => (Ok (drives_info s), printed s)
    | (Raise e, s) => (Raise e, printed s)
    end.

(** The drive of letter number [drive_letter] is in use, removable, and
    Windows answers both questions about it with numbers a float can hold. *)
Definition listed (host : win32.Host) (drive_letter : nat) : bool :=
  Z.testbit (win32.GetLogicalDrives host) (Z.of_nat drive_letter)
  && (win32.GetDriveType host (drive_path drive_letter) =? win32.DRIVE_REMOVABLE)
  && match win32.GetVolumeInformation host (drive_path drive_letter),
           win32.disk_usage host (drive_path drive_letter) with
     | inr _, inr (total, _, free) =>
         match truediv_pow2 total 30, truediv_pow2 free 30 with
         | Ok _, Ok _ => true
         | _, _ => false
         end
     | _, _ => false
     end.

End Formats.

(** The last character of a text. *)
Fixpoint last_char (s : string) : option ascii :=
  match s with
  | EmptyString => None
  | String c EmptyString => Some c
  | String _ rest => last_char rest
  end.

(** * The pages before the download *)

(** A line feed. *)
Definition nl : string := String (ascii_of_nat 10) EmptyString.

(** [l[i]] for an [int] [i]: a negative index counts from the end. *)
Definition py_list_get {A : Type} (l : list A) (i : Z) : result A :=
  let j := if i <? 0 then i + len l else i in
  if j <? 0 then Raise (Exception "IndexError" "list index out of range")
  else match nth_error l (Z.to_nat j) with
       | Some x => Ok x
       | None => Raise (Exception "IndexError" "list index out of range")
       end.

(** [x + v] for a float [x] and a value [v] of the catalog. *)
Definition py_float_add (x : float) (v : json) : result float :=
  match v with
  | JFloat f => Ok (PrimFloat.add x f)
  | JInt z =>
      match py_float z with
      | Ok f => Ok (PrimFloat.add x f)
      | Raise e => Raise e
      end
  | JBool b => Ok (PrimFloat.add x (if b then PrimFloat.one else PrimFloat.zero))
  | JNull | JStr _ | JList _ | JDict _ =>
      Raise (Exception "TypeError" "unsupported operand type(s) for +=")
  end.

(** [QLabel(v)]: a string is the text, [None] is taken for the absent
    parent; anything else matches no overload. *)
Definition QLabel (v : json) : result unit :=
  match v with
  | JStr _ | JNull => Ok tt
  | JBool _ | JInt _ | JFloat _ | JList _ | JDict _ =>
      Raise (Exception "TypeError" "arguments did not match any overloaded call")
  end.

Module Window.

(** The attributes of [USBSelectorApp] the pages before the download read
    or write, around those of the download engine ([app]).  [comboBox] is
    the list of its items and [comboBox_index] its current index (-1 when
    it has none); a check box is its checked state, a button its enabled
    state; [stage1_removed] tells that [deleteLater] was called on the
    button, the refresh button and the combo box of the first page;
    [summary] lists the labels of the summary layout; [message_boxes] lists
    the warnings shown, title and text.  The sidebar, the style sheets and
    the labels of the content page are left out. *)
Record t : Type := {
  app : USBSelectorApp.t;
  data : option (dict (list ProcessedItem));
  usb_devices : list device;
  selected_usb : option device;
  comboBox : list string;
  comboBox_index : Z;
  movies_checkbox : bool;
  music_checkbox : bool;
  gaming_checkbox : bool;
  selected_categories : list string;
  content_checkboxes : list (bool * ProcessedItem);
  stage1_continue : bool;
  stage1_removed : bool;
  stage1_label : string;
  summary : list string;
  warning_label : string;
  stage4_continue : bool;
  message_boxes : list (string * string)
}.

Definition set_app (v : USBSelectorApp.t) (self : t) : t :=
  {| app := v;
     data := data self;
     usb_devices := usb_devices self;
     selected_usb := selected_usb self;
     comboBox := comboBox self;
     comboBox_index := comboBox_index self;
     movies_checkbox := movies_checkbox self;
     music_checkbox := music_checkbox self;
     gaming_checkbox := gaming_checkbox self;
     selected_categories := selected_categories self;
     content_checkboxes := content_checkboxes self;
     stage1_continue := stage1_continue self;
     stage1_removed := stage1_removed self;
     stage1_label := stage1_label self;
     summary := summary self;
     warning_label := warning_label self;
     stage4_continue := stage4_continue self;
     message_boxes := message_boxes self |}.

Definition set_data (v : option (dict (list ProcessedItem))) (self : t) : t :=
  {| app := app self;
     data := v;
     usb_devices := usb_devices self;
     selected_usb := selected_usb self;
     comboBox := comboBox self;
     comboBox_index := comboBox_index self;
     movies_checkbox := movies_checkbox self;
     music_checkbox := music_checkbox self;
     gaming_checkbox := gaming_checkbox self;
     selected_categories := selected_categories self;
     content_checkboxes := content_checkboxes self;
     stage1_continue := stage1_continue self;
     stage1_removed := stage1_removed self;
     stage1_label := stage1_label self;
     summary := summary self;
     warning_label := warning_label self;
     stage4_continue := stage4_continue self;
     message_boxes := message_boxes self |}.

Definition set_usb_devices (v : list device) (self : t) : t :=
  {| app := app self;
     data := data self;
     usb_devices := v;
     selected_usb := selected_usb self;
     comboBox := comboBox self;
     comboBox_index := comboBox_index self;
     movies_checkbox := movies_checkbox self;
     music_checkbox := music_checkbox self;
     gaming_checkbox := gaming_checkbox self;
     selected_categories := selected_categories self;
     content_checkboxes := content_checkboxes self;
     stage1_continue := stage1_continue self;
     stage1_removed := stage1_removed self;
     stage1_label := stage1_label self;
     summary := summary self;
     warning_label := warning_label self;
     stage4_continue := stage4_continue self;
     message_boxes := message_boxes self |}.

Definition set_selected_usb (v : option device) (self : t) : t :=
  {| app := app self;
     data := data self;
     usb_devices := usb_devices self;
     selected_usb := v;
     comboBox := comboBox self;
     comboBox_index := comboBox_index self;
     movies_checkbox := movies_checkbox self;
     music_checkbox := music_checkbox self;
     gaming_checkbox := gaming_checkbox self;
     selected_categories := selected_categories self;
     content_checkboxes := content_checkboxes self;
     stage1_continue := stage1_continue self;
     stage1_removed := stage1_removed self;
     stage1_label := stage1_label self;
     summary := summary self;
     warning_label := warning_label self;
     stage4_continue := stage4_continue self;
     message_boxes := message_boxes self |}.

Definition set_comboBox (v : list string) (self : t) : t :=
  {| app := app self;
     data := data self;
     usb_devices := usb_devices self;
     selected_usb := selected_usb self;
     comboBox := v;
     comboBox_index := comboBox_index self;
     movies_checkbox := movies_checkbox self;
     music_checkbox := music_checkbox self;
     gaming_checkbox := gaming_checkbox self;
     selected_categories := selected_categories self;
     content_checkboxes := content_checkboxes self;
     stage1_continue := stage1_continue self;
     stage1_removed := stage1_removed self;
     stage1_label := stage1_label self;
     summary := summary self;
     warning_label := warning_label self;
     stage4_continue := stage4_continue self;
     message_boxes := message_boxes self |}.

Definition set_comboBox_index (v : Z) (self : t) : t :=
  {| app := app self;
     data := data self;
     usb_devices := usb_devices self;
     selected_usb := selected_usb self;
     comboBox := comboBox self;
     comboBox_index := v;
     movies_checkbox := movies_checkbox self;
     music_checkbox := music_checkbox self;
     gaming_checkbox := gaming_checkbox self;
     selected_categories := selected_categories self;
     content_checkboxes := content_checkboxes self;
     stage1_continue := stage1_continue self;
     stage1_removed := stage1_removed self;
     stage1_label := stage1_label self;
     summary := summary self;
     warning_label := warning_label self;
     stage4_continue := stage4_continue self;
     message_boxes := message_boxes self |}.

Definition set_movies_checkbox (v : bool) (self : t) : t :=
  {| app := app self;
     data := data self;
     usb_devices := usb_devices self;
     selected_usb := selected_usb self;
     comboBox := comboBox self;
     comboBox_index := comboBox_index self;
     movies_checkbox := v;
     music_checkbox := music_checkbox self;
     gaming_checkbox := gaming_checkbox self;
     selected_categories := selected_categories self;
     content_checkboxes := content_checkboxes self;
     stage1_continue := stage1_continue self;
     stage1_removed := stage1_removed self;
     stage1_label := stage1_label self;
     summary := summary self;
     warning_label := warning_label self;
     stage4_continue := stage4_continue self;
     message_boxes := message_boxes self |}.

Definition set_music_checkbox (v : bool) (self : t) : t :=
  {| app := app self;
     data := data self;
     usb_devices := usb_devices self;
     selected_usb := selected_usb self;
     comboBox := comboBox self;
     comboBox_index := comboBox_index self;
     movies_checkbox := movies_checkbox self;
     music_checkbox := v;
     gaming_checkbox := gaming_checkbox self;
     selected_categories := selected_categories self;
     content_checkboxes := content_checkboxes self;
     stage1_continue := stage1_continue self;
     stage1_removed := stage1_removed self;
     stage1_label := stage1_label self;
     summary := summary self;
     warning_label := warning_label self;
     stage4_continue := stage4_continue self;
     message_boxes := message_boxes self |}.

Definition set_gaming_checkbox (v : bool) (self : t) : t :=
  {| app := app self;
     data := data self;
     usb_devices := usb_devices self;
     selected_usb := selected_usb self;
     comboBox := comboBox self;
     comboBox_index := comboBox_index self;
     movies_checkbox := movies_checkbox self;
     music_checkbox := music_checkbox self;
     gaming_checkbox := v;
     selected_categories := selected_categories self;
     content_checkboxes := content_checkboxes self;
     stage1_continue := stage1_continue self;
     stage1_removed := stage1_removed self;
     stage1_label := stage1_label self;
     summary := summary self;
     warning_label := warning_label self;
     stage4_continue := stage4_continue self;
     message_boxes := message_boxes self |}.

Definition set_selected_categories (v : list string) (self : t) : t :=
  {| app := app self;
     data := data self;
     usb_devices := usb_devices self;
     selected_usb := selected_usb self;
     comboBox := comboBox self;
     comboBox_index := comboBox_index self;
     movies_checkbox := movies_checkbox self;
     music_checkbox := music_checkbox self;
     gaming_checkbox := gaming_checkbox self;
     selected_categories := v;
     content_checkboxes := content_checkboxes self;
     stage1_continue := stage1_continue self;
     stage1_removed := stage1_removed self;
     stage1_label := stage1_label self;
     summary := summary self;
     warning_label := warning_label self;
     stage4_continue := stage4_continue self;
     message_boxes := message_boxes self |}.

Definition set_content_checkboxes (v : list (bool * ProcessedItem)) (self : t) : t :=
  {| app := app self;
     data := data self;
     usb_devices := usb_devices self;
     selected_usb := selected_usb self;
     comboBox := comboBox self;
     comboBox_index := comboBox_index self;
     movies_checkbox := movies_checkbox self;
     music_checkbox := music_checkbox self;
     gaming_checkbox := gaming_checkbox self;
     selected_categories := selected_categories self;
     content_checkboxes := v;
     stage1_continue := stage1_continue self;
     stage1_removed := stage1_removed self;
     stage1_label := stage1_label self;
     summary := summary self;
     warning_label := warning_label self;
     stage4_continue := stage4_continue self;
     message_boxes := message_boxes self |}.

Definition set_stage1_continue (v : bool) (self : t) : t :=
  {| app := app self;
     data := data self;
     usb_devices := usb_devices self;
     selected_usb := selected_usb self;
     comboBox := comboBox self;
     comboBox_index := comboBox_index self;
     movies_checkbox := movies_checkbox self;
     music_checkbox := music_checkbox self;
     gaming_checkbox := gaming_checkbox self;
     selected_categories := selected_categories self;
     content_checkboxes := content_checkboxes self;
     stage1_continue := v;
     stage1_removed := stage1_removed self;
     stage1_label := stage1_label self;
     summary := summary self;
     warning_label := warning_label self;
     stage4_continue := stage4_continue self;
     message_boxes := message_boxes self |}.

Definition set_stage1_removed (v : bool) (self : t) : t :=
  {| app := app self;
     data := data self;
     usb_devices := usb_devices self;
     selected_usb := selected_usb self;
     comboBox := comboBox self;
     comboBox_index := comboBox_index self;
     movies_checkbox := movies_checkbox self;
     music_checkbox := music_checkbox self;
     gaming_checkbox := gaming_checkbox self;
     selected_categories := selected_categories self;
     content_checkboxes := content_checkboxes self;
     stage1_continue := stage1_continue self;
     stage1_removed := v;
     stage1_label := stage1_label self;
     summary := summary self;
     warning_label := warning_label self;
     stage4_continue := stage4_continue self;
     message_boxes := message_boxes self |}.

Definition set_stage1_label (v : string) (self : t) : t :=
  {| app := app self;
     data := data self;
     usb_devices := usb_devices self;
     selected_usb := selected_usb self;
     comboBox := comboBox self;
     comboBox_index := comboBox_index self;
     movies_checkbox := movies_checkbox self;
     music_checkbox := music_checkbox self;
     gaming_checkbox := gaming_checkbox self;
     selected_categories := selected_categories self;
     content_checkboxes := content_checkboxes self;
     stage1_continue := stage1_continue self;
     stage1_removed := stage1_removed self;
     stage1_label := v;
     summary := summary self;
     warning_label := warning_label self;
     stage4_continue := stage4_continue self;
     message_boxes := message_boxes self |}.

Definition set_summary (v : list string) (self : t) : t :=
  {| app := app self;
     data := data self;
     usb_devices := usb_devices self;
     selected_usb := selected_usb self;
     comboBox := comboBox self;
     comboBox_index := comboBox_index self;
     movies_checkbox := movies_checkbox self;
     music_checkbox := music_checkbox self;
     gaming_checkbox := gaming_checkbox self;
     selected_categories := selected_categories self;
     content_checkboxes := content_checkboxes self;
     stage1_continue := stage1_continue self;
     stage1_removed := stage1_removed self;
     stage1_label := stage1_label self;
     summary := v;
     warning_label := warning_label self;
     stage4_continue := stage4_continue self;
     message_boxes := message_boxes self |}.

Definition set_warning_label (v : string) (self : t) : t :=
  {| app := app self;
     data := data self;
     usb_devices := usb_devices self;
     selected_usb := selected_usb self;
     comboBox := comboBox self;
     comboBox_index := comboBox_index self;
     movies_checkbox := movies_checkbox self;
     music_checkbox := music_checkbox self;
     gaming_checkbox := gaming_checkbox self;
     selected_categories := selected_categories self;
     content_checkboxes := content_checkboxes self;
     stage1_continue := stage1_continue self;
     stage1_removed := stage1_removed self;
     stage1_label := stage1_label self;
     summary := summary self;
     warning_label := v;
     stage4_continue := stage4_continue self;
     message_boxes := message_boxes self |}.

Definition set_stage4_continue (v : bool) (self : t) : t :=
  {| app := app self;
     data := data self;
     usb_devices := usb_devices self;
     selected_usb := selected_usb self;
     comboBox := comboBox self;
     comboBox_index := comboBox_index self;
     movies_checkbox := movies_checkbox self;
     music_checkbox := music_checkbox self;
     gaming_checkbox := gaming_checkbox self;
     selected_categories := selected_categories self;
     content_checkboxes := content_checkboxes self;
     stage1_continue := stage1_continue self;
     stage1_removed := stage1_removed self;
     stage1_label := stage1_label self;
     summary := summary self;
     warning_label := warning_label self;
     stage4_continue := v;
     message_boxes := message_boxes self |}.

Definition set_message_boxes (v : list (string * string)) (self : t) : t :=
  {| app := app self;
     data := data self;
     usb_devices := usb_devices self;
     selected_usb := selected_usb self;
     comboBox := comboBox self;
     comboBox_index := comboBox_index self;
     movies_checkbox := movies_checkbox self;
     music_checkbox := music_checkbox self;
     gaming_checkbox := gaming_checkbox self;
     selected_categories := selected_categories self;
     content_checkboxes := content_checkboxes self;
     stage1_continue := stage1_continue self;
     stage1_removed := stage1_removed self;
     stage1_label := stage1_label self;
     summary := summary self;
     warning_label := warning_label self;
     stage4_continue := stage4_continue self;
     message_boxes := v |}.

(** The object [__init__] builds, before it calls [refresh_usb_list] and
    [go_to_stage1]: no box checked, every button enabled, the combo box
    empty. *)
Definition init (disk : Disk) : t :=
  {| app := USBSelectorApp.init disk;
     data := None;
     usb_devices := [];
     selected_usb := None;
     comboBox := [];
     comboBox_index := -1;
     movies_checkbox := false;
     music_checkbox := false;
     gaming_checkbox := false;
     selected_categories := [];
     content_checkboxes := [];
     stage1_continue := true;
     stage1_removed := false;
     stage1_label := "Select a USB Drive";
     summary := [];
     warning_label := "";
     stage4_continue := true;
     message_boxes := [] |}.

(** A method of the download engine, run on the window. *)
Definition lift_app {A : Type} (m : M USBSelectorApp.t A) : M t A :=
  fun self =>
    match m (app self) with
    | (r, app') => (r, set_app app' self)
    end.

(** A function that prints, run on the window. *)
Definition lift_stdout {A : Type} (m : M (list string) A) : M t A :=
  fun self =>
    match m (USBSelectorApp.stdout (app self)) with
    | (r, out) => (r, set_app (USBSelectorApp.set_stdout out (app self)) self)
    end.

(** [QMessageBox.warning(self, title, text)]. *)
Definition warning (title text : string) : M t unit :=
  modify (fun self => set_message_boxes (message_boxes self ++ [(title, text)]) self).

(** [self.stacked_widget.setCurrentIndex(index)]. *)
Definition setCurrentIndex (index : Z) : M t unit :=
  lift_app (modify (USBSelectorApp.set_current_index index)).

(** [self.comboBox.addItem(text)]: the first item becomes the current one. *)
Definition comboBox_addItem (text : string) : M t unit :=
  modify (fun self =>
    set_comboBox_index (if comboBox_index self <? 0 then 0 else comboBox_index self)
      (set_comboBox (comboBox self ++ [text]) self)).

(** [self.comboBox.clear()]. *)
Definition comboBox_clear : M t unit :=
  modify (fun self => set_comboBox_index (-1) (set_comboBox [] self)).

(** [self.comboBox.currentText()]: empty when there is no current item. *)
Definition comboBox_currentText (self : t) : string :=
  if comboBox_index self <? 0 then ""
  else nth (Z.to_nat (comboBox_index self)) (comboBox self) "".

Definition refresh_usb_list (format_2f : float -> string) (host : win32.Host) : M t unit :=
  comboBox_clear ;;
  usb_devices <- lift_stdout (list_usb_devices format_2f host) ;;
  modify (set_usb_devices usb_devices) ;;
  match usb_devices with
  | [] => comboBox_addItem no_usb_devices_found
  | _ :: _ => for_each usb_devices (fun usb => comboBox_addItem (device_label usb))
  end.

Definition go_to_stage1 (py_repr : json -> string)
    (answer : string + requests.Response) : M t unit :=
  modify (set_stage1_continue false) ;;
  setCurrentIndex 0 ;;
  modify (set_selected_usb None) ;;
  data <- lift_stdout (fetch_data py_repr answer) ;;
  modify (set_data (Some data)) ;;
  match data with
  | [] =>
      warning "Error Fetching Data" "There was an error fetching the content data." ;;
      modify (set_stage1_label
                ("Error: Could not fetch content data" +s+ nl +s+ nl
                 +s+ "Are you connected to the internet?")) ;;
      modify (set_stage1_removed true)
  | _ :: _ => modify (set_stage1_continue true)
  end.

Definition go_to_stage2 (format_2f : float -> string) (host : win32.Host) : M t unit :=
  self <- get ;;
  if negb (String.eqb (comboBox_currentText self) no_usb_devices_found) then
    let index := comboBox_index self in
    usb <- lift_result (py_list_get (usb_devices self) index) ;;
    modify (set_selected_usb (Some usb)) ;;
    setCurrentIndex 1
  else
    warning "No USB Devices Found"
      "Please insert a USB drive and click 'Refresh USB List'." ;;
    refresh_usb_list format_2f host.

Definition generate_content_items (categories : list string) : M t unit :=
  modify (set_content_checkboxes []) ;;
  for_each categories (fun category =>
    lift_app (USBSelectorApp.print ("Generating content for " +s+ category)) ;;
    self <- get ;;
    items <- match data self with
             | None => raise (Exception "AttributeError"
                                "'NoneType' object has no attribute 'get'")
             | Some data => ret (dict_get data category [])
             end ;;
    for_each items (fun item =>
      modify (fun self =>
        set_content_checkboxes (content_checkboxes self ++ [(true, item)]) self) ;;
      lift_result (QLabel (item_title item)) ;;
      lift_result (QLabel (item_duration item)))).

Definition go_to_stage3 : M t unit :=
  modify (set_selected_categories []) ;;
  self <- get ;;
  (if movies_checkbox self
   then modify (fun self =>
          set_selected_categories (selected_categories self ++ ["Movies"]) self)
   else ret tt) ;;
  (if music_checkbox self
   then modify (fun self =>
          set_selected_categories (selected_categories self ++ ["Music"]) self)
   else ret tt) ;;
  (if gaming_checkbox self
   then modify (fun self =>
          set_selected_categories (selected_categories self ++ ["Gaming"]) self)
   else ret tt) ;;
  self <- get ;;
  match selected_categories self with
  | [] => warning "No Categories Selected" "Please select at least one category."
  | _ :: _ =>
      generate_content_items (selected_categories self) ;;
      setCurrentIndex 2
  end.

(** The first loop of [generate_summary]: the total and the lines of each
    category, in the order the categories are met. *)
Fixpoint summarize (py_repr : json -> string) (items : list ProcessedItem)
    (total_size : float) (content_per_category : dict (list string))
    : result (float * dict (list string)) :=
  match items with
  | [] => Ok (total_size, content_per_category)
  | item :: rest =>
      let category := item_category item in
      let title := item_title item in
      let size := item_size item in
      let size_gb := item_size_gb item in
      match py_float_add total_size size_gb with
      | Raise e => Raise e
      | Ok total_size =>
          let content_per_category :=
            match dict_lookup category content_per_category with
            | None => dict_set category [] content_per_category
            | Some _ => content_per_category
            end in
          let content_per_category :=
            dict_set category
              (dict_get content_per_category category []
               ++ [py_format py_repr title +s+ " (" +s+ size +s+ ")"])
              content_per_category in
          summarize py_repr rest total_size content_per_category
      end
  end.

(** The second loop: the text of the summary. *)
Definition describe (content_per_category : dict (list string)) : string :=
  fold_left
    (fun content_desc binding =>
       fold_left (fun content_desc item => content_desc +s+ "  - " +s+ item +s+ nl)
         (snd binding)
         (content_desc +s+ nl +s+ nl +s+ fst binding +s+ ":" +s+ nl))
    content_per_category "".

Definition generate_summary (py_repr : json -> string) (format_2f : float -> string)
    : M t unit :=
  modify (set_summary []) ;;
  self <- get ;;
  totals <- lift_result
              (summarize py_repr (USBSelectorApp.selected_content_items (app self))
                 PrimFloat.zero []) ;;
  let total_size := fst totals in
  let content_desc := describe (snd totals) in
  modify (fun self => set_summary (summary self ++ [content_desc]) self) ;;
  usb_free_space <- match selected_usb self with
                    | None => raise (Exception "TypeError"
                                       "'NoneType' object is not subscriptable")
                    | Some usb => ret (device_free_gb usb)
                    end ;;
  if PrimFloat.ltb usb_free_space total_size then
    modify (set_warning_label "Warning: Not enough space on the selected USB drive!") ;;
    modify (set_stage4_continue false)
  else
    modify (set_warning_label
              ("Total Required Space: " +s+ format_2f total_size +s+ " GB / "
               +s+ format_2f usb_free_space +s+ " GB Free")) ;;
    modify (set_stage4_continue true).

Definition go_to_stage4 (py_repr : json -> string) (format_2f : float -> string)
    : M t unit :=
  lift_app (modify (USBSelectorApp.set_selected_content_items [])) ;;
  self <- get ;;
  for_each (content_checkboxes self) (fun entry =>
    if fst entry
    then lift_app (modify (fun app =>
           USBSelectorApp.set_selected_content_items
             (USBSelectorApp.selected_content_items app ++ [snd entry]) app))
    else ret tt) ;;
  self <- get ;;
  match USBSelectorApp.selected_content_items (app self) with
  | [] => warning "No Content Selected" "Please select at least one content item."
  | _ :: _ =>
      generate_summary py_repr format_2f ;;
      setCurrentIndex 3
  end.

(** [go_to_stage5], on the window. *)
Definition go_to_stage5 (py_repr : json -> string) (mkdir_error : option string)
    : M t unit :=
  lift_app (go_to_stage5 py_repr mkdir_error).

(** [go_to_stage7]. *)
Definition go_to_stage7 : M t unit := setCurrentIndex 6.

(** ** What the user can do *)

(** A click on the check box of a category, or on the one of item [k] of the
    content page. *)
Definition toggle_movies : M t unit :=
  modify (fun self => set_movies_checkbox (negb (movies_checkbox self)) self).

Definition toggle_music : M t unit :=
  modify (fun self => set_music_checkbox (negb (music_checkbox self)) self).

Definition toggle_gaming : M t unit :=
  modify (fun self => set_gaming_checkbox (negb (gaming_checkbox self)) self).

Fixpoint toggle_nth (k : nat) (boxes : list (bool * ProcessedItem))
    : list (bool * ProcessedItem) :=
  match k, boxes with
  | _, [] => []
  | O, (checked, item) :: rest => (negb checked, item) :: rest
  | S k', box :: rest => box :: toggle_nth k' rest
  end.

Definition toggle_content (k : nat) : M t unit :=
  modify (fun self => set_content_checkboxes (toggle_nth k (content_checkboxes self)) self).

Definition toggle_use_cache : M t unit :=
  lift_app (modify (fun app =>
    USBSelectorApp.set_use_cache (negb (USBSelectorApp.use_cache app)) app)).

(** The user picks item [k] of the combo box. *)
Definition choose_usb (k : nat) : M t unit :=
  modify (set_comboBox_index (Z.of_nat k)).

(** The oldest single-shot timer expires: its callback runs. *)
Definition timeout : M t unit :=
  self <- get ;;
  match USBSelectorApp.timers (app self) with
  | [] => ret tt
  | (_, Go_to_stage7) :: rest =>
      lift_app (modify (USBSelectorApp.set_timers rest)) ;;
      go_to_stage7
  end.

(** What happens to the window: an action of the user, with what the
    outside world answers to the calls it causes; the end of a worker of the
    pool, when its result signal reaches the slot; the expiry of a timer.
    The progress signals of the workers come with [signal] below. *)
Inductive event : Type :=
| Refresh (host : win32.Host)
| Choose_usb (k : nat)
| Slide (value : Z)
| Toggle_use_cache
| Stage1_continue (host : win32.Host)
| Toggle_movies
| Toggle_music
| Toggle_gaming
| Stage2_back (answer : string + requests.Response)
| Stage2_continue
| Toggle_content (k : nat)
| Stage3_back (host : win32.Host)
| Stage3_continue
| Stage4_back
| Stage4_continue (mkdir_error : option string)
| Worker_finished (k : nat) (message : string)
| Timeout.

(** The page shown. *)
Definition page (self : t) : Z := USBSelectorApp.current_index (app self).

(** The slot [__init__] connects to the widget of an event.  Only the
    widgets of the page shown receive input, a disabled or deleted button
    receives none, the combo box offers its own items and the slider the
    values 1 to 15: an event that cannot happen has no effect. *)
Definition handle (py_repr : json -> string) (format_2f : float -> string)
    (e : event) : M t unit :=
  self <- get ;;
  match e with
  | Refresh host =>
      if (page self =? 0) && negb (stage1_removed self)
      then refresh_usb_list format_2f host else ret tt
  | Choose_usb k =>
      if (page self =? 0) && negb (stage1_removed self)
         && (Z.of_nat k <? len (comboBox self))
      then choose_usb k else ret tt
  | Slide value =>
      if (page self =? 0) && (1 <=? value) && (value <=? 15)
      then lift_app (USBSelectorApp.update_concurrent_downloads value) else ret tt
  | Toggle_use_cache => if page self =? 0 then toggle_use_cache else ret tt
  | Stage1_continue host =>
      if (page self =? 0) && negb (stage1_removed self) && stage1_continue self
      then go_to_stage2 format_2f host else ret tt
  | Toggle_movies => if page self =? 1 then toggle_movies else ret tt
  | Toggle_music => if page self =? 1 then toggle_music else ret tt
  | Toggle_gaming => if page self =? 1 then toggle_gaming else ret tt
  | Stage2_back answer => if page self =? 1 then go_to_stage1 py_repr answer else ret tt
  | Stage2_continue => if page self =? 1 then go_to_stage3 else ret tt
  | Toggle_content k => if page self =? 2 then toggle_content k else ret tt
  | Stage3_back host => if page self =? 2 then go_to_stage2 format_2f host else ret tt
  | Stage3_continue => if page self =? 2 then go_to_stage4 py_repr format_2f else ret tt
  | Stage4_back => if page self =? 3 then go_to_stage3 else ret tt
  | Stage4_continue mkdir_error =>
      if (page self =? 3) && stage4_continue self
      then go_to_stage5 py_repr mkdir_error else ret tt
  | Worker_finished k message => lift_app (USBSelectorApp.worker_finished (k, message))
  | Timeout => timeout
  end.

(** The window from its construction on: [__init__] ends with
    [refresh_usb_list] and [go_to_stage1]; then the events arrive.  An
    exception that leaves a slot ends the program. *)
Definition run (py_repr : json -> string) (format_2f : float -> string)
    (host : win32.Host) (answer : string + requests.Response) (events : list event)
    : M t unit :=
  refresh_usb_list format_2f host ;;
  go_to_stage1 py_repr answer ;;
  for_each events (handle py_repr format_2f).

(** [l[k] = x], for [k] within the list. *)
Fixpoint set_nth {A : Type} (k : nat) (x : A) (l : list A) : list A :=
  match k, l with
  | _, [] => []
  | O, _ :: l' => x :: l'
  | S k', y :: l' => y :: set_nth k' x l'
  end.

(** What reaches the slots of the window: an event above, or a progress
    signal of the [k]-th worker of the pool with the two amounts and the
    file name it carries. *)
Inductive signal : Type :=
| Event (e : event)
| Worker_progress (k : nat) (downloaded_mb total_mb : float) (file_name : json).

(** The slot of a progress signal of the [k]-th worker of the pool:
    [update_progress], bound to the bar index of the worker, runs on the
    bar the worker holds.  Nothing happens when the pool has no such
    worker. *)
Definition worker_progress (k : nat) (downloaded_mb total_mb : float) (file_name : json)
    : M t unit :=
  fun self =>
    match nth_error (USBSelectorApp.threadpool (app self)) k with
    | None => (Ok tt, self)
    | Some w =>
        match nth_error (USBSelectorApp.progress_bars (app self))
                (DownloadWorker.progress_bar w) with
        | None => (Ok tt, self)
        | Some bar =>
            match update_progress (DownloadWorker.signal w) downloaded_mb total_mb
                    file_name bar with
            | (r, bar') =>
                (r,
                 set_app
                   (USBSelectorApp.set_progress_bars
                      (set_nth (DownloadWorker.progress_bar w) bar'
                         (USBSelectorApp.progress_bars (app self)))
                      (app self))
                   self)
            end
        end
    end.

(** The slot a signal reaches. *)
Definition deliver (py_repr : json -> string) (format_2f : float -> string)
    (s : signal) : M t unit :=
  match s with
  | Event e => handle py_repr format_2f e
  | Worker_progress k downloaded_mb total_mb file_name =>
      worker_progress k downloaded_mb total_mb file_name
  end.

(** The window from its construction on, with the progress signals among
    what arrives.  An exception that leaves a slot ends the program. *)
Definition run_signals (py_repr : json -> string) (format_2f : float -> string)
    (host : win32.Host) (answer : string + requests.Response) (signals : list signal)
    : M t unit :=
  refresh_usb_list format_2f host ;;
  go_to_stage1 py_repr answer ;;
  for_each signals (deliver py_repr format_2f).

End Window.

(** ** What holds all along a run of the window *)

(** The combo box shows the devices of the last scan, or the placeholder
    when there was none, and has a current item. *)
Definition combo_ok (self : Window.t) : Prop :=
  Window.comboBox self
  = match Window.usb_devices self with
    | [] => [no_usb_devices_found]
    | _ :: _ => map device_label (Window.usb_devices self)
    end
  /\ 0 <= Window.comboBox_index self < len (Window.comboBox self)
  /\ Forall (fun d => device_label d <> no_usb_devices_found) (Window.usb_devices self).

(** Nothing of the download engine has been started, and the slider is
    within its range. *)
Definition idle (self : Window.t) : Prop :=
  let app := Window.app self in
  1 <= USBSelectorApp.concurrent_downloads app <= 15
  /\ USBSelectorApp.threadpool app = []
  /\ USBSelectorApp.progress_bars app = []
  /\ USBSelectorApp.timers app = [].

(** The device of the current item of the combo box. *)
Definition shown_drive (self : Window.t) : option device :=
  nth_error (Window.usb_devices self) (Z.to_nat (Window.comboBox_index self)).

(** The categories whose box is checked, in the order [go_to_stage3] asks. *)
Definition ticked_categories (self : Window.t) : list string :=
  (if Window.movies_checkbox self then ["Movies"] else [])
  ++ (if Window.music_checkbox self then ["Music"] else [])
  ++ (if Window.gaming_checkbox self then ["Gaming"] else []).

(** The items the catalog has for these categories. *)
Definition catalog_items (data : dict (list ProcessedItem)) (categories : list string)
    : list ProcessedItem :=
  List.concat (map (fun category => dict_get data category []) categories).

(** The items whose box is checked on the content page. *)
Definition ticked_items (self : Window.t) : list ProcessedItem :=
  map snd (filter fst (Window.content_checkboxes self)).

(** The summary of the selection can be computed and the total it finds is
    not above the free space of the selected drive. *)
Definition fits (py_repr : json -> string) (self : Window.t) : Prop :=
  exists usb totals,
    Window.selected_usb self = Some usb
    /\ Window.summarize py_repr (USBSelectorApp.selected_content_items (Window.app self))
         PrimFloat.zero [] = Ok totals
    /\ PrimFloat.ltb (device_free_gb usb) (fst totals) = false.

(** The download engine once the fifth page was entered: nothing was
    started because the cache folders could not be made; or the downloads of
    the selection run under the invariants of a session, on as many bars as
    the slider and the selection allow, and the sixth page is shown exactly
    when every download is counted; or the timer of the sixth page has
    expired and the seventh is shown. *)
Definition engine_ok (py_repr : json -> string) (self : Window.t) : Prop :=
  let app := Window.app self in
  let items := USBSelectorApp.selected_content_items app in
  (Window.page self = 4
   /\ USBSelectorApp.threadpool app = []
   /\ USBSelectorApp.progress_bars app = []
   /\ USBSelectorApp.timers app = [])
  \/ (session_inv (map (download_of py_repr) items) app
      /\ List.length (USBSelectorApp.progress_bars app)
         = Z.to_nat (Z.min (USBSelectorApp.concurrent_downloads app) (len items))
      /\ Window.page self
         = (if len items <=? USBSelectorApp.completed_downloads app then 5 else 4))
  \/ (Window.page self = 6
      /\ USBSelectorApp.threadpool app = []
      /\ USBSelectorApp.download_queue app = []
      /\ USBSelectorApp.timers app = []
      /\ map DownloadWorker.task (USBSelectorApp.active_downloads app)
         = map (download_of py_repr) items
      /\ USBSelectorApp.completed_downloads app = len items).

(** What holds of the window after [__init__] and any number of events: the
    combo box agrees with the last scan; the slider is within its range; the
    catalog is there and, from the content page on, the rows are its items
    for the ticked categories; past the first page the selected drive is the
    one shown; nothing of the engine runs before the download page; from the
    confirmation page on the selection is what is ticked; the download page
    is entered only after a summary that fits. *)
Definition wizard_inv (py_repr : json -> string) (self : Window.t) : Prop :=
  let app := Window.app self in
  combo_ok self
  /\ 0 <= Window.page self <= 6
  /\ 1 <= USBSelectorApp.concurrent_downloads app <= 15
  /\ (exists data, Window.data self = Some data
        /\ (2 <= Window.page self ->
            map snd (Window.content_checkboxes self)
            = catalog_items data (ticked_categories self)))
  /\ (1 <= Window.page self ->
      Window.selected_usb self <> None /\ Window.selected_usb self = shown_drive self)
  /\ (Window.page self <= 3 ->
      USBSelectorApp.threadpool app = []
      /\ USBSelectorApp.progress_bars app = []
      /\ USBSelectorApp.timers app = [])
  /\ (3 <= Window.page self ->
      USBSelectorApp.selected_content_items app = ticked_items self
      /\ USBSelectorApp.selected_content_items app <> [])
  /\ (Window.page self = 3 /\ Window.stage4_continue self = true \/ 4 <= Window.page self ->
      fits py_repr self)
  /\ (4 <= Window.page self -> engine_ok py_repr self).

(** The events whose slot reads the catalog: fetching it, laying out the
    content page, adding up the summary. *)
Definition reads_catalog (e : Window.event) : bool :=
  match e with
  | Window.Stage2_back _ | Window.Stage2_continue
  | Window.Stage3_continue | Window.Stage4_back => true
  | _ => false
  end.




(** ** Sample surroundings of the window *)

Definition sample_format (x : float) : string := "?".

(** Drives D: and E: are removable sticks called DEMO, 16 GiB with 8 GiB
    free; C: is a fixed disk. *)
Definition sample_host : win32.Host :=
  {| win32.GetLogicalDrives := 28;
     win32.GetDriveType := fun drive => if String.eqb drive "C:\" then 3 else 2;
     win32.GetVolumeInformation := fun _ => inr "DEMO";
     win32.disk_usage := fun _ => inr (17179869184, 8589934592, 8589934592) |}.

(** The user keeps drive D:, ticks Movies, keeps both films ticked and
    arrives on the confirmation page. *)
Definition to_confirmation : list Window.event :=
  [Window.Stage1_continue sample_host; Window.Toggle_movies; Window.Stage2_continue;
   Window.Stage3_continue].

(** From there the downloads are started and both workers end, then the
    timer of the sixth page expires. *)
Definition to_the_end : list Window.event :=
  to_confirmation
  ++ [Window.Stage4_continue None;
      Window.Worker_finished 0 "Finished downloading A";
      Window.Worker_finished 0 "Finished downloading B";
      Window.Timeout].

(** The same up to the content page. *)
Definition to_content : list Window.event :=
  [Window.Stage1_continue sample_host; Window.Toggle_movies; Window.Stage2_continue].

(** The window such a run arrives at. *)
Definition sample_window (events : list Window.event) : Window.t :=
  snd (Window.run sample_repr sample_format sample_host (inr (catalog_response 200))
         events (Window.init [])).

(** The total and the lines of the two films. *)
Definition sample_totals : float * dict (list string) :=
  match Window.summarize sample_repr (ticked_items (sample_window to_content))
          PrimFloat.zero [] with
  | Ok totals => totals
  | Raise _ => (PrimFloat.zero, [])
  end.

(** ** Vocabulary for the content page and the summary *)

(** [QLabel] takes the value: it is a text or [None]. *)
Definition labelable (item : ProcessedItem) : Prop :=
  QLabel (item_title item) = Ok tt /\ QLabel (item_duration item) = Ok tt.

(** The line of an item in the summary. *)
Definition summary_line (py_repr : json -> string) (item : ProcessedItem) : string :=
  py_format py_repr (item_title item) +s+ " (" +s+ item_size item +s+ ")".

(** The names of [l] in the order of their first occurrence, after [keys]. *)
Definition first_seen_after (keys : list string) (l : list string) : list string :=
  fold_left
    (fun keys name => if existsb (String.eqb name) keys then keys else keys ++ [name])
    l keys.

Definition first_seen (l : list string) : list string := first_seen_after [] l.

(** The items of category [category]. *)
Definition of_category (category : string) (items : list ProcessedItem)
    : list ProcessedItem :=
  filter (fun item => String.eqb (item_category item) category) items.

(** A catalog whose only film gives its size as a text. *)
Definition text_size_response : requests.Response :=
  {| requests.status_code := 200;
     requests.content_length := None;
     requests.chunks := [];
     requests.stream_error := None;
     requests.json_value :=
       Ok (JDict [("movies",
                   JList [JDict [("title", JStr "A"); ("size_gb", JStr "2")]])]) |}.

(** The window on the content page of that catalog. *)
Definition text_size_window : Window.t :=
  snd (Window.run sample_repr sample_format sample_host (inr text_size_response)
         to_content (Window.init [])).

(** The catalog as the sample window holds it. *)
Definition sample_data : dict (list ProcessedItem) :=
  match Window.data (sample_window to_content) with
  | Some fetched => fetched
  | None => []
  end.

(** The total and the lines of the five sample items. *)
Definition five_totals : float * dict (list string) :=
  match Window.summarize sample_repr five_items PrimFloat.zero [] with
  | Ok totals => totals
  | Raise _ => (PrimFloat.zero, [])
  end.


(** * Properties of the scheduler *)

Section Scheduler.

Import USBSelectorApp.

Lemma start_next_download_ok (bar_index : nat) (self : t) :
  (bar_index < List.length (progress_bars self))%nat ->
  start_next_download bar_index self = (Ok tt, started bar_index self).
Proof.
  intros Hbar. unfold start_next_download, started, bind, get.
  destruct (download_queue self) as [|[[u p] n] rest] eqn:Hq; [reflexivity|].
  cbn. destruct (nth_error (progress_bars self) bar_index) eqn:Hnth.
  - reflexivity.
  - apply nth_error_None in Hnth. lia.
Qed.

Lemma started_progress_bars i self :
  progress_bars (started i self) = progress_bars self.
Proof. unfold started. destruct (download_queue self) as [|[[u p] n] rest]; reflexivity. Qed.

Lemma started_selected i self :
  selected_content_items (started i self) = selected_content_items self.
Proof. unfold started. destruct (download_queue self) as [|[[u p] n] rest]; reflexivity. Qed.

Lemma started_completed i self :
  completed_downloads (started i self) = completed_downloads self.
Proof. unfold started. destruct (download_queue self) as [|[[u p] n] rest]; reflexivity. Qed.

Lemma started_timers i self : timers (started i self) = timers self.
Proof. unfold started. destruct (download_queue self) as [|[[u p] n] rest]; reflexivity. Qed.

Lemma started_max i self :
  threadpool_max_thread_count (started i self) = threadpool_max_thread_count self.
Proof. unfold started. destruct (download_queue self) as [|[[u p] n] rest]; reflexivity. Qed.

Lemma started_concurrent i self :
  concurrent_downloads (started i self) = concurrent_downloads self.
Proof. unfold started. destruct (download_queue self) as [|[[u p] n] rest]; reflexivity. Qed.

Lemma on_download_complete_ok (bar_index : nat) (message : string) (self : t) :
  (bar_index < List.length (progress_bars self))%nat ->
  on_download_complete bar_index message self
  = (Ok tt, completed_one bar_index message self).
Proof.
  intros Hbar. unfold on_download_complete, completed_one, bind at 1.
  cbn [print modify]. unfold bind at 1.
  rewrite start_next_download_ok by exact Hbar.
  unfold bind, modify, get, go_to_stage6, ret. cbn.
  match goal with |- context [if ?b then _ else _] => destruct b end; reflexivity.
Qed.

Lemma completed_one_progress_bars i m self :
  progress_bars (completed_one i m self) = progress_bars self.
Proof.
  unfold completed_one. cbn.
  match goal with |- context [if ?b then _ else _] => destruct b end;
    cbn; rewrite started_progress_bars; reflexivity.
Qed.

Lemma completed_one_selected i m self :
  selected_content_items (completed_one i m self) = selected_content_items self.
Proof.
  unfold completed_one. cbn.
  match goal with |- context [if ?b then _ else _] => destruct b end;
    cbn; rewrite started_selected; reflexivity.
Qed.

Lemma completed_one_completed i m self :
  completed_downloads (completed_one i m self) = completed_downloads self + 1.
Proof.
  unfold completed_one. cbn.
  match goal with |- context [if ?b then _ else _] => destruct b end;
    cbn; rewrite started_completed; reflexivity.
Qed.

Lemma completed_one_timers i m self :
  timers (completed_one i m self)
  = timers self ++
    (if completed_downloads self + 1 =? len (selected_content_items self)
     then [(2000, Go_to_stage7)] else []).
Proof.
  unfold completed_one. cbn.
  rewrite started_completed, started_selected. cbn.
  destruct (completed_downloads self + 1 =? len (selected_content_items self));
    cbn; rewrite started_timers; cbn; [reflexivity | now rewrite app_nil_r].
Qed.

Lemma len_cons {A : Type} (x : A) (l : list A) : len (x :: l) = 1 + len l.
Proof. unfold len. cbn [List.length]. lia. Qed.

Lemma deliver_results_cons bar message events self :
  (bar < List.length (progress_bars self))%nat ->
  deliver_results ((bar, message) :: events) self
  = deliver_results events (completed_one bar message self).
Proof.
  intros Hbar. unfold deliver_results. cbn [for_each]. unfold bind at 1.
  cbn [fst snd]. rewrite on_download_complete_ok by exact Hbar. reflexivity.
Qed.

(** C1 (as amended).  Result signals delivered to [on_download_complete],
    successes and failures alike and repeated ones included, are each
    counted once per delivery; stage 6 is entered exactly when the count
    reaches the number of selected items, so once if at least that many
    results arrive and not before. *)
Theorem batch_complete_at_Nth_result (events : list (nat * string)) (self : t) :
  Forall (fun event => (fst event < List.length (progress_bars self))%nat) events ->
  fst (deliver_results events self) = Ok tt
  /\ completed_downloads (snd (deliver_results events self))
     = completed_downloads self + len events
  /\ timers (snd (deliver_results events self))
     = timers self ++
       (if (completed_downloads self <? len (selected_content_items self))
           && (len (selected_content_items self)
               <=? completed_downloads self + len events)
        then [(2000, Go_to_stage7)] else []).
Proof.
  revert self. induction events as [|[bar message] events IH]; intros self Hbars.
  - assert (Hlen : len (@nil (nat * string)) = 0) by reflexivity.
    cbn [deliver_results for_each ret fst snd]. rewrite Hlen, Z.add_0_r.
    split; [reflexivity | split; [reflexivity |]].
    destruct (Z.ltb_spec (completed_downloads self) (len (selected_content_items self)));
      destruct (Z.leb_spec (len (selected_content_items self)) (completed_downloads self));
      cbn [andb]; try lia; now rewrite app_nil_r.
  - inversion Hbars as [|? ? Hbar Hrest]; subst. cbn [fst] in Hbar.
    rewrite deliver_results_cons by exact Hbar.
    specialize (IH (completed_one bar message self)).
    rewrite completed_one_progress_bars, completed_one_selected,
      completed_one_completed, completed_one_timers in IH.
    destruct (IH Hrest) as (Hok & Hcount & Htimers).
    rewrite len_cons. repeat split.
    + exact Hok.
    + rewrite Hcount. lia.
    + rewrite Htimers, <- app_assoc. f_equal.
      set (c := completed_downloads self) in *.
      set (N := len (selected_content_items self)) in *.
      assert (0 <= len events) by (unfold len; lia).
      destruct (Z.eqb_spec (c + 1) N);
        destruct (Z.ltb_spec (c + 1) N);
        destruct (Z.ltb_spec c N);
        destruct (Z.leb_spec N (c + 1 + len events));
        destruct (Z.leb_spec N (c + (1 + len events)));
        cbn; try lia; reflexivity.
Qed.

Lemma batch_complete_at_Nth_result_witness :
  Forall (fun event => (fst event < List.length (progress_bars two_started))%nat)
    [(0%nat, "Finished downloading A"); (1%nat, "Error downloading B: timed out")]
  /\ (fst (deliver_results
             [(0%nat, "Finished downloading A"); (1%nat, "Error downloading B: timed out")]
             two_started) = Ok tt
      /\ completed_downloads
           (snd (deliver_results
                   [(0%nat, "Finished downloading A");
                    (1%nat, "Error downloading B: timed out")] two_started))
         = completed_downloads two_started
           + len [(0%nat, "Finished downloading A");
                  (1%nat, "Error downloading B: timed out")]
      /\ timers
           (snd (deliver_results
                   [(0%nat, "Finished downloading A");
                    (1%nat, "Error downloading B: timed out")] two_started))
         = timers two_started ++
           (if (completed_downloads two_started
                <? len (selected_content_items two_started))
               && (len (selected_content_items two_started)
                   <=? completed_downloads two_started
                       + len [(0%nat, "Finished downloading A");
                              (1%nat, "Error downloading B: timed out")])
            then [(2000, Go_to_stage7)] else [])).
Proof.
  assert (H : Forall
                (fun event : nat * string =>
                   (fst event < List.length (progress_bars two_started))%nat)
                [(0%nat, "Finished downloading A");
                 (1%nat, "Error downloading B: timed out")]).
  { repeat constructor. }
  split; [exact H |].
  exact (batch_complete_at_Nth_result _ two_started H).
Defined.

(** C1 (as stated) fails.  Two items A and B are selected and started; A's
    worker ends and its result is then delivered a second time.  The
    repeated result is counted: the count is 2, stage 6 is entered, and
    B's worker is still in the pool. *)
Lemma repeated_result_counted_twice :
  completed_downloads
    (snd ((worker_finished (0%nat, "Finished downloading A") ;;
           deliver_results [(0%nat, "Finished downloading A")]) two_started)) = 2
  /\ timers
       (snd ((worker_finished (0%nat, "Finished downloading A") ;;
              deliver_results [(0%nat, "Finished downloading A")]) two_started))
     = [(2000, Go_to_stage7)]
  /\ map DownloadWorker.file_name
       (threadpool
          (snd ((worker_finished (0%nat, "Finished downloading A") ;;
                 deliver_results [(0%nat, "Finished downloading A")]) two_started)))
     = [JStr "B"].
Proof. vm_compute. repeat split. Qed.

(** ** The pool stays within the bars *)

Lemma started_threadpool i self :
  threadpool (started i self)
  = threadpool self ++
    match download_queue self with
    | [] => []
    | (url, file_path, file_name) :: _ =>
        [DownloadWorker.init url file_path file_name i i]
    end.
Proof.
  unfold started. destruct (download_queue self) as [|[[u p] n] rest]; cbn.
  - now rewrite app_nil_r.
  - reflexivity.
Qed.

Lemma started_download_queue i self :
  download_queue (started i self) = tl (download_queue self).
Proof.
  unfold started. destruct (download_queue self) as [|[[u p] n] rest] eqn:Hq.
  - now rewrite Hq.
  - reflexivity.
Qed.

Lemma started_active_downloads i self :
  active_downloads (started i self)
  = active_downloads self ++
    match download_queue self with
    | [] => []
    | (url, file_path, file_name) :: _ =>
        [DownloadWorker.init url file_path file_name i i]
    end.
Proof.
  unfold started. destruct (download_queue self) as [|[[u p] n] rest]; cbn.
  - now rewrite app_nil_r.
  - reflexivity.
Qed.

Lemma completed_one_threadpool i m self :
  threadpool (completed_one i m self) = threadpool (started i self).
Proof.
  unfold completed_one. cbn.
  match goal with |- context [if ?b then _ else _] => destruct b end;
    cbn; rewrite !started_threadpool; reflexivity.
Qed.

Lemma completed_one_download_queue i m self :
  download_queue (completed_one i m self) = tl (download_queue self).
Proof.
  unfold completed_one. cbn.
  match goal with |- context [if ?b then _ else _] => destruct b end;
    cbn; rewrite !started_download_queue; reflexivity.
Qed.

Lemma completed_one_active_downloads i m self :
  active_downloads (completed_one i m self) = active_downloads (started i self).
Proof.
  unfold completed_one. cbn.
  match goal with |- context [if ?b then _ else _] => destruct b end;
    cbn; rewrite !started_active_downloads; reflexivity.
Qed.

Lemma completed_one_max i m self :
  threadpool_max_thread_count (completed_one i m self)
  = threadpool_max_thread_count self.
Proof.
  unfold completed_one. cbn.
  match goal with |- context [if ?b then _ else _] => destruct b end;
    cbn; rewrite started_max; reflexivity.
Qed.

Lemma remove_nth_length {A : Type} (k : nat) (l : list A) :
  (k < List.length l)%nat -> List.length (remove_nth k l) = pred (List.length l).
Proof.
  revert k. induction l as [|x l IH]; intros [|k] Hk; cbn in *; try lia.
  rewrite IH by lia. destruct l; cbn in *; lia.
Qed.

Lemma remove_nth_Forall {A : Type} (P : A -> Prop) (k : nat) (l : list A) :
  Forall P l -> Forall P (remove_nth k l).
Proof.
  revert k. induction l as [|x l IH]; intros [|k] H; cbn; try exact H.
  - now inversion H.
  - inversion H; subst. constructor; auto.
Qed.

Lemma started_pool_ok i self :
  Forall (fun w => (DownloadWorker.signal w < List.length (progress_bars self))%nat)
    (threadpool self) ->
  (i < List.length (progress_bars self))%nat ->
  (S (List.length (threadpool self)) <= List.length (progress_bars self))%nat ->
  pool_ok (started i self).
Proof.
  intros Hall Hi Hlen. unfold pool_ok.
  rewrite started_progress_bars, started_threadpool.
  destruct (download_queue self) as [|[[u p] n] rest].
  - rewrite app_nil_r. split; [exact Hall | lia].
  - split.
    + apply Forall_app. split; [exact Hall |]. repeat constructor. exact Hi.
    + rewrite length_app. cbn. lia.
Qed.

Lemma worker_finished_eq (k : nat) (message : string) (self : t) :
  worker_finished (k, message) self
  = match nth_error (threadpool self) k with
    | None => (Ok tt, self)
    | Some w =>
        on_download_complete (DownloadWorker.signal w) message
          (set_threadpool (remove_nth k (threadpool self)) self)
    end.
Proof.
  unfold worker_finished, bind, get, modify.
  destruct (nth_error (threadpool self) k); reflexivity.
Qed.

Lemma worker_finished_ok (event : nat * string) (self : t) :
  pool_ok self ->
  fst (worker_finished event self) = Ok tt
  /\ pool_ok (snd (worker_finished event self))
  /\ progress_bars (snd (worker_finished event self)) = progress_bars self
  /\ threadpool_max_thread_count (snd (worker_finished event self))
     = threadpool_max_thread_count self.
Proof.
  intros [Hall Hlen]. destruct event as [k message].
  rewrite worker_finished_eq.
  destruct (nth_error (threadpool self) k) as [w|] eqn:Hk.
  - assert (Hin : In w (threadpool self)) by (eapply nth_error_In; eassumption).
    assert (Hklt : (k < List.length (threadpool self))%nat)
      by (apply nth_error_Some; congruence).
    assert (Hw : (DownloadWorker.signal w < List.length (progress_bars self))%nat)
      by (rewrite Forall_forall in Hall; auto).
    rewrite on_download_complete_ok by exact Hw.
    cbn [fst snd]. split; [reflexivity |].
    rewrite completed_one_progress_bars, completed_one_max.
    split; [| split; reflexivity].
    assert (Hp : pool_ok (started (DownloadWorker.signal w)
                            (set_threadpool (remove_nth k (threadpool self)) self))).
    { apply started_pool_ok; cbn.
      - apply remove_nth_Forall. exact Hall.
      - exact Hw.
      - rewrite remove_nth_length by exact Hklt. lia. }
    unfold pool_ok in *.
    rewrite completed_one_progress_bars, completed_one_threadpool.
    rewrite started_progress_bars in Hp. exact Hp.
  - cbn. repeat split; assumption.
Qed.

Lemma worker_finished_all_ok (events : list (nat * string)) (self : t) :
  pool_ok self ->
  fst (for_each events worker_finished self) = Ok tt
  /\ pool_ok (snd (for_each events worker_finished self))
  /\ progress_bars (snd (for_each events worker_finished self)) = progress_bars self
  /\ threadpool_max_thread_count (snd (for_each events worker_finished self))
     = threadpool_max_thread_count self.
Proof.
  revert self. induction events as [|event events IH]; intros self Hpool.
  - cbn. repeat split; try apply Hpool.
  - destruct (worker_finished_ok event self Hpool) as (Hok & Hpool' & Hbars & Hmax).
    cbn [for_each]. unfold bind.
    destruct (worker_finished event self) as [r self'] eqn:Hstep.
    cbn [fst snd] in *. subst r.
    destruct (IH self' Hpool') as (Hok2 & Hpool2 & Hbars2 & Hmax2).
    repeat split; try apply Hpool2; try congruence.
Qed.

Lemma started_tasks i self :
  map DownloadWorker.task (threadpool (started i self)) ++ download_queue (started i self)
  = map DownloadWorker.task (threadpool self) ++ download_queue self.
Proof.
  rewrite started_threadpool, started_download_queue.
  destruct (download_queue self) as [|[[u p] n] rest]; cbn [tl].
  - rewrite !app_nil_r. reflexivity.
  - rewrite map_app, <- app_assoc. reflexivity.
Qed.

(** The loop of [start_downloads], entered at turn [a] with at least [a]
    bars: every turn adds a bar and starts the head of the queue on it. *)
Lemma start_loop_ok (n a : nat) (self : t) :
  (a <= List.length (progress_bars self))%nat ->
  pool_ok self ->
  let loop :=
    for_each (seq a n)
      (fun i =>
         modify (fun self =>
           set_progress_bars (progress_bars self ++ [new_progress_bar]) self) ;;
         start_next_download i) in
  fst (loop self) = Ok tt
  /\ pool_ok (snd (loop self))
  /\ List.length (progress_bars (snd (loop self)))
     = (List.length (progress_bars self) + n)%nat
  /\ threadpool_max_thread_count (snd (loop self)) = threadpool_max_thread_count self
  /\ map DownloadWorker.task (threadpool (snd (loop self)))
       ++ download_queue (snd (loop self))
     = map DownloadWorker.task (threadpool self) ++ download_queue self.
Proof.
  revert a self. induction n as [|n IH]; intros a self Ha Hpool; cbn zeta.
  - cbn. rewrite Nat.add_0_r. repeat split; try apply Hpool.
  - set (body := fun i : nat =>
                   modify (fun self : t =>
                     set_progress_bars (progress_bars self ++ [new_progress_bar]) self) ;;
                   start_next_download i) in *.
    set (self1 := set_progress_bars (progress_bars self ++ [new_progress_bar]) self).
    assert (Hbars1 : List.length (progress_bars self1)
                     = S (List.length (progress_bars self))).
    { subst self1. cbn. rewrite length_app. cbn. lia. }
    assert (Hstep : for_each (seq a (S n)) body self
                    = for_each (seq (S a) n) body (started a self1)).
    { cbn [seq for_each]. unfold bind at 1. unfold body at 1.
      unfold bind at 1, modify at 1. fold self1.
      rewrite start_next_download_ok by (rewrite Hbars1; lia). reflexivity. }
    rewrite Hstep.
    destruct Hpool as [Hall Hlen].
    assert (Hpool1 : pool_ok (started a self1)).
    { apply started_pool_ok.
      - subst self1. cbn. rewrite length_app. cbn.
        eapply Forall_impl; [| exact Hall]. cbn. intros w Hw. lia.
      - rewrite Hbars1. lia.
      - rewrite Hbars1. subst self1. cbn. lia. }
    assert (Hlen1 : (S a <= List.length (progress_bars (started a self1)))%nat)
      by (rewrite started_progress_bars, Hbars1; lia).
    destruct (IH (S a) (started a self1) Hlen1 Hpool1) as (Hok & Hp & Hb & Hm & Ht).
    cbn zeta in Hok, Hp, Hb, Hm, Ht. fold body in Hok, Hp, Hb, Hm, Ht.
    repeat split; try apply Hp.
    + exact Hok.
    + rewrite Hb, started_progress_bars, Hbars1. lia.
    + rewrite Hm, started_max. reflexivity.
    + rewrite Ht, started_tasks. subst self1. reflexivity.
Qed.

Lemma start_downloads_eq (download_urls : list download) (self : t) :
  start_downloads download_urls self
  = for_each (range (Z.min (concurrent_downloads self) (len download_urls)))
      (fun i =>
         modify (fun self =>
           set_progress_bars (progress_bars self ++ [new_progress_bar]) self) ;;
         start_next_download i)
      (set_completed_downloads 0
         (set_active_downloads [] (set_download_queue download_urls self))).
Proof. reflexivity. Qed.

Lemma session_eq c items download_urls events self :
  session c items download_urls events self
  = match start_downloads download_urls
            (set_selected_content_items items (set_concurrency c self)) with
    | (Ok _, self') => for_each events worker_finished self'
    | (Raise e, self') => (Raise e, self')
    end.
Proof. reflexivity. Qed.

Lemma start_next_download_pool_length (i : nat) (self : t) :
  (List.length (threadpool (snd (start_next_download i self)))
   <= S (List.length (threadpool self)))%nat.
Proof.
  unfold start_next_download, bind, get, modify, raise, ret.
  destruct (download_queue self) as [|[[u p] n] rest]; cbn; [lia |].
  destruct (nth_error (progress_bars self) i); cbn; rewrite ?length_app; cbn; lia.
Qed.

Lemma on_download_complete_threadpool (i : nat) (message : string) (self : t) :
  threadpool (snd (on_download_complete i message self))
  = threadpool (snd (start_next_download i (set_stdout (stdout self ++ [message]) self))).
Proof.
  unfold on_download_complete, bind at 1. cbn [print modify]. unfold bind at 1.
  destruct (start_next_download i (set_stdout (stdout self ++ [message]) self))
    as [[[]|e] self'].
  - unfold bind, modify, get, go_to_stage6, ret. cbn.
    match goal with |- context [if ?b then _ else _] => destruct b end; reflexivity.
  - reflexivity.
Qed.

Lemma worker_finished_pool_length (event : nat * string) (self : t) :
  (List.length (threadpool (snd (worker_finished event self)))
   <= List.length (threadpool self))%nat.
Proof.
  destruct event as [k message]. rewrite worker_finished_eq.
  destruct (nth_error (threadpool self) k) as [w|] eqn:Hk; [| cbn; lia].
  assert (Hklt : (k < List.length (threadpool self))%nat)
    by (apply nth_error_Some; congruence).
  rewrite on_download_complete_threadpool.
  etransitivity; [apply start_next_download_pool_length |].
  cbn [threadpool set_stdout set_threadpool].
  rewrite remove_nth_length by exact Hklt. lia.
Qed.

(** C2.  With the slider at [c] between 1 and 15 and [download_urls] to
    fetch, however the workers finish: no handler raises, the workers
    started and not yet finished never outnumber [min c (len download_urls)],
    that many bars (slots) exist, the thread pool allows [c] threads, and a
    worker that finishes is replaced by at most one new worker. *)
Theorem active_transfers_bounded (c : Z) (items : list ProcessedItem)
    (download_urls : list download) (events : list (nat * string)) (disk : Disk) :
  1 <= c <= 15 ->
  fst (session c items download_urls events (init disk)) = Ok tt
  /\ len (threadpool (snd (session c items download_urls events (init disk))))
     <= Z.min c (len download_urls)
  /\ len (progress_bars (snd (session c items download_urls events (init disk))))
     = Z.min c (len download_urls)
  /\ threadpool_max_thread_count
       (snd (session c items download_urls events (init disk))) = c
  /\ forall event,
       (List.length
          (threadpool
             (snd (worker_finished event
                     (snd (session c items download_urls events (init disk))))))
        <= List.length
             (threadpool (snd (session c items download_urls events (init disk)))))%nat.
Proof.
  intros Hc. rewrite session_eq, start_downloads_eq.
  cbn [concurrent_downloads set_selected_content_items set_concurrency].
  set (self0 := set_completed_downloads 0 _).
  assert (Hpool0 : pool_ok self0) by (split; [constructor | cbn; lia]).
  destruct (start_loop_ok (Z.to_nat (Z.min c (len download_urls))) 0 self0
              (Nat.le_0_l _) Hpool0) as (Hok & Hpool & Hbars & Hmax & _).
  cbn zeta in Hok, Hpool, Hbars, Hmax. unfold range.
  destruct (for_each (seq 0 (Z.to_nat (Z.min c (len download_urls)))) _ self0)
    as [r self1] eqn:Hloop.
  cbn [fst snd] in Hok, Hpool, Hbars, Hmax. subst r.
  change (List.length (progress_bars self0)) with 0%nat in Hbars.
  destruct (worker_finished_all_ok events self1 Hpool) as (Hok2 & Hpool2 & Hbars2 & Hmax2).
  assert (Hmin : 0 <= Z.min c (len download_urls)) by (unfold len; lia).
  split; [exact Hok2 |]. split; [| split; [| split]].
  - destruct Hpool2 as [_ Hle]. rewrite Hbars2, Hbars in Hle. unfold len at 1. lia.
  - unfold len at 1. rewrite Hbars2, Hbars. lia.
  - rewrite Hmax2, Hmax. reflexivity.
  - intros event. apply worker_finished_pool_length.
Qed.

Lemma active_transfers_bounded_witness :
  1 <= 3 <= 15
  /\ len (threadpool
            (snd (session 3 five_items five_downloads
                    [(1%nat, "Finished downloading B"); (7%nat, "none");
                     (0%nat, "Error downloading A: timed out")] (init []))))
     <= Z.min 3 (len five_downloads).
Proof.
  split; [lia |].
  exact (proj1 (proj2 (active_transfers_bounded 3 five_items five_downloads
                         [(1%nat, "Finished downloading B"); (7%nat, "none");
                          (0%nat, "Error downloading A: timed out")] []
                         ltac:(lia)))).
Defined.

(** ** Refilling a freed slot *)

(** C4.  When a result arrives for a slot that has a bar, the handler takes
    the head of the queue, and nothing else, and starts it bound to that
    slot, at the end of the pool; with an empty queue it starts nothing and
    the slot stays without a worker. *)
Theorem freed_slot_takes_queue_head (bar_index : nat) (message : string) (self : t) :
  (bar_index < List.length (progress_bars self))%nat ->
  fst (on_download_complete bar_index message self) = Ok tt
  /\ match download_queue self with
     | [] =>
         download_queue (snd (on_download_complete bar_index message self)) = []
         /\ threadpool (snd (on_download_complete bar_index message self))
            = threadpool self
         /\ active_downloads (snd (on_download_complete bar_index message self))
            = active_downloads self
     | (url, file_path, file_name) :: rest =>
         download_queue (snd (on_download_complete bar_index message self)) = rest
         /\ threadpool (snd (on_download_complete bar_index message self))
            = threadpool self
              ++ [DownloadWorker.init url file_path file_name bar_index bar_index]
         /\ active_downloads (snd (on_download_complete bar_index message self))
            = active_downloads self
              ++ [DownloadWorker.init url file_path file_name bar_index bar_index]
     end.
Proof.
  intros Hbar. rewrite on_download_complete_ok by exact Hbar. cbn [fst snd].
  split; [reflexivity |].
  rewrite completed_one_download_queue, completed_one_threadpool,
    completed_one_active_downloads, started_threadpool, started_active_downloads.
  destruct (download_queue self) as [|[[u p] n] rest]; cbn [tl].
  - rewrite !app_nil_r. repeat split.
  - repeat split.
Qed.

(** Concurrency 3 and A, B, C, D, E queued: A, B and C run on slots 0, 1
    and 2; when the result of slot 0 arrives, D is started on slot 0 and E
    alone stays queued. *)
Lemma freed_slot_takes_queue_head_witness :
  (0 < List.length (progress_bars five_started))%nat
  /\ map DownloadWorker.file_name (threadpool five_started)
     = [JStr "A"; JStr "B"; JStr "C"]
  /\ map snd (download_queue five_started) = [JStr "D"; JStr "E"]
  /\ threadpool (snd (on_download_complete 0 "Finished downloading A" five_started))
     = threadpool five_started
       ++ [DownloadWorker.init "https://cdn.skyy.cc/d.mp3" "cache/Music/D.mp4"
             (JStr "D") 0 0]
  /\ map snd (download_queue
                (snd (on_download_complete 0 "Finished downloading A" five_started)))
     = [JStr "E"].
Proof.
  assert (Hbar : (0 < List.length (progress_bars five_started))%nat)
    by (vm_compute; lia).
  pose proof (freed_slot_takes_queue_head 0 "Finished downloading A" five_started Hbar)
    as [_ Hhead].
  change (download_queue five_started)
    with [("https://cdn.skyy.cc/d.mp3", "cache/Music/D.mp4", JStr "D");
          ("https://cdn.skyy.cc/e.mp4", "cache/Gaming/E.mp4", JStr "E")] in Hhead.
  cbv iota beta in Hhead. destruct Hhead as (Hqueue & Hpool & _).
  split; [exact Hbar |]. split; [reflexivity |]. split; [reflexivity |].
  split; [exact Hpool |]. rewrite Hqueue. reflexivity.
Defined.

(** Whichever of the three slots reports first, D is the task it gets. *)
Lemma first_freed_slot_gets_D (k : nat) (message : string) :
  (k < 3)%nat ->
  map (fun w => (DownloadWorker.file_name w, DownloadWorker.signal w))
    (threadpool
       (snd (session 3 five_items five_downloads [(k, message)] (init []))))
  = remove_nth k [(JStr "A", 0%nat); (JStr "B", 1%nat); (JStr "C", 2%nat)]
    ++ [(JStr "D", k)].
Proof.
  intros Hk. destruct k as [|[|[|k]]]; try lia; reflexivity.
Qed.

(** ** Starting with nothing to do *)

(** C7 (as amended).  Started with a concurrency below 1 or with an empty
    list, [start_downloads] returns normally and schedules nothing: no bar
    is added, no worker started, the queue is the list it was given. *)
Theorem start_downloads_without_work (download_urls : list download) (self : t) :
  concurrent_downloads self < 1 \/ download_urls = [] ->
  fst (start_downloads download_urls self) = Ok tt
  /\ threadpool (snd (start_downloads download_urls self)) = threadpool self
  /\ progress_bars (snd (start_downloads download_urls self)) = progress_bars self
  /\ active_downloads (snd (start_downloads download_urls self)) = []
  /\ download_queue (snd (start_downloads download_urls self)) = download_urls
  /\ completed_downloads (snd (start_downloads download_urls self)) = 0
  /\ timers (snd (start_downloads download_urls self)) = timers self.
Proof.
  intros Hnone. rewrite start_downloads_eq.
  assert (Hrange : range (Z.min (concurrent_downloads self) (len download_urls)) = []).
  { unfold range.
    replace (Z.to_nat (Z.min (concurrent_downloads self) (len download_urls)))
      with 0%nat; [reflexivity |].
    destruct Hnone as [Hc | Hempty]; [lia | subst; unfold len; cbn; lia]. }
  rewrite Hrange. cbn. repeat split.
Qed.

Lemma start_downloads_without_work_witness :
  (concurrent_downloads (snd (update_concurrent_downloads 0 (init [])))  < 1
   \/ five_downloads = [])
  /\ fst (start_downloads five_downloads
            (snd (update_concurrent_downloads 0 (init [])))) = Ok tt
  /\ threadpool (snd (start_downloads five_downloads
                        (snd (update_concurrent_downloads 0 (init []))))) = [].
Proof.
  assert (H : concurrent_downloads (snd (update_concurrent_downloads 0 (init []))) < 1
              \/ five_downloads = []) by (left; cbn; lia).
  split; [exact H |].
  pose proof (start_downloads_without_work five_downloads
                (snd (update_concurrent_downloads 0 (init []))) H)
    as (Hok & Hpool & _).
  split; [exact Hok | exact Hpool].
Defined.

(** C7 (as stated) fails: no call of [start_downloads] with an empty list
    raises a [ConfigError]; the call returns normally. *)
Lemma start_downloads_raises_no_ConfigError :
  ~ (forall (download_urls : list download) (self : t),
       concurrent_downloads self < 1 \/ download_urls = [] ->
       exists detail,
         fst (start_downloads download_urls self)
         = Raise (Exception "ConfigError" detail)).
Proof.
  intros Hclaim.
  destruct (Hclaim [] (init []) (or_intror eq_refl)) as [detail Hraise].
  cbn in Hraise. discriminate Hraise.
Qed.

End Scheduler.

(** * Properties of the worker *)

Lemma dict_lookup_set_same {V : Type} (k : string) (v : V) (d : dict V) :
  dict_lookup k (dict_set k v d) = Some v.
Proof.
  induction d as [|[k' v'] d IH]; cbn.
  - now rewrite String.eqb_refl.
  - destruct (String.eqb k k') eqn:Hk; cbn.
    + now rewrite String.eqb_refl.
    + now rewrite Hk.
Qed.

Lemma dict_lookup_set_other {V : Type} (k k' : string) (v : V) (d : dict V) :
  k <> k' -> dict_lookup k' (dict_set k v d) = dict_lookup k' d.
Proof.
  intros Hne. induction d as [|[k0 v0] d IH]; cbn.
  - destruct (String.eqb_spec k' k); [congruence | reflexivity].
  - destruct (String.eqb_spec k k0); cbn.
    + subst k0. destruct (String.eqb_spec k' k); [congruence | reflexivity].
    + destruct (String.eqb_spec k' k0); [reflexivity | exact IH].
Qed.

Lemma dict_set_keeps {V : Type} (k k' : string) (v : V) (d : dict V) :
  dict_lookup k' d <> None -> dict_lookup k' (dict_set k v d) <> None.
Proof.
  intros Hin. destruct (String.eqb_spec k k') as [-> | Hne].
  - rewrite dict_lookup_set_same. discriminate.
  - rewrite dict_lookup_set_other by exact Hne. exact Hin.
Qed.

(** ** The division by [1024 * 1024] *)

Lemma to_megabytes_raises (n : Z) (e : exn) :
  to_megabytes n = Raise e ->
  e = Exception "OverflowError" "integer division result too large for a float".
Proof.
  unfold to_megabytes, truediv_pow2.
  destruct (SpecFloat.binary_normalize _ _ _ _ _);
    intros H; inversion H; reflexivity.
Qed.

Lemma to_megabytes_caught (n : Z) : caught (to_megabytes n).
Proof.
  destruct (to_megabytes n) as [x | e] eqn:H; [exact I |].
  rewrite (to_megabytes_raises n e H). exact I.
Qed.

Lemma to_megabytes_megabytes (n : Z) (x : float) : to_megabytes n = Ok x -> megabytes n = x.
Proof. intros H. unfold megabytes. rewrite H. reflexivity. Qed.

(** ** Steps that only report progress *)

Lemma only_progress_refl (w w' : World) : emitted w' = emitted w -> only_progress w w'.
Proof. intros H. exists []. split; [constructor | now rewrite app_nil_r]. Qed.

Lemma only_progress_trans (w1 w2 w3 : World) :
  only_progress w1 w2 -> only_progress w2 w3 -> only_progress w1 w3.
Proof.
  intros (p1 & Hp1 & H1) (p2 & Hp2 & H2). exists (p1 ++ p2). split.
  - apply Forall_app. now split.
  - now rewrite H2, H1, app_assoc.
Qed.

Lemma no_deletion_trans (w1 w2 w3 : World) :
  no_deletion w1 w2 -> no_deletion w2 w3 -> no_deletion w1 w3.
Proof. unfold no_deletion. auto. Qed.

Lemma tame_ret {A : Type} (a : A) : tame (ret a).
Proof.
  intros w. cbn. repeat split; [now apply only_progress_refl | now intros path H].
Qed.

Lemma tame_lift_result {A : Type} (r : result A) : caught r -> tame (lift_result r).
Proof.
  intros Hr w. cbn. repeat split;
    [now apply only_progress_refl | now intros path H | exact Hr].
Qed.

Lemma tame_raise {A : Type} (cls detail : string) :
  tame (@raise World A (Exception cls detail)).
Proof.
  intros w. cbn. repeat split; [now apply only_progress_refl | now intros path H].
Qed.

Lemma tame_bind {A B : Type} (m : M World A) (k : A -> M World B) :
  tame m -> (forall a, tame (k a)) -> tame (bind m k).
Proof.
  intros Hm Hk w. destruct (Hm w) as (Hp & Hd & Hc). unfold bind.
  destruct (m w) as [[a | e] w1]; cbn [fst snd] in *.
  - destruct (Hk a w1) as (Hp2 & Hd2 & Hc2). repeat split.
    + eapply only_progress_trans; eassumption.
    + eapply no_deletion_trans; eassumption.
    + exact Hc2.
  - repeat split; assumption.
Qed.

Lemma tame_emit_progress env dl total name bar : tame (emit_progress env dl total name bar).
Proof.
  unfold emit_progress. destruct (is_str name); [| apply tame_raise].
  intros w. cbn. repeat split.
  - exists [Progress dl total name bar]. split; [repeat constructor | reflexivity].
  - now intros path H.
Qed.

Lemma tame_open_wb env path : tame (open_wb env path).
Proof.
  unfold open_wb. destruct (open_error env); [apply tame_raise |].
  intros w. cbn. repeat split.
  - now apply only_progress_refl.
  - intros p H. now apply dict_set_keeps.
Qed.

Lemma tame_file_write env data : tame (file_write env data).
Proof.
  intros w. unfold file_write, bind, get, modify, raise, ret.
  destruct (write_fails env (writes w)); cbn; repeat split;
    try (now apply only_progress_refl); now intros p H.
Qed.

Lemma tame_file_close env path opened_at : tame (file_close env path opened_at).
Proof.
  intros w. unfold file_close, bind, modify, raise, ret.
  destruct (close_error env); cbn; repeat split;
    try (now apply only_progress_refl); intros p H; now apply dict_set_keeps.
Qed.

Lemma tame_with_open_wb env path body : tame body -> tame (with_open_wb env path body).
Proof.
  intros Hbody. unfold with_open_wb.
  apply tame_bind; [apply tame_open_wb | intros _].
  intros w. unfold bind, get.
  destruct (Hbody w) as (Hp & Hd & Hc).
  destruct (body w) as [[[] | e] w1]; cbn [fst snd] in *.
  - destruct (tame_file_close env path (writes w) w1) as (Hp2 & Hd2 & Hc2).
    repeat split.
    + eapply only_progress_trans; eassumption.
    + eapply no_deletion_trans; eassumption.
    + exact Hc2.
  - destruct (tame_file_close env path (writes w) w1) as (Hp2 & Hd2 & Hc2).
    destruct (file_close env path (writes w) w1) as [[[] | e'] w2]; cbn [fst snd] in *.
    + repeat split.
      * eapply only_progress_trans; eassumption.
      * eapply no_deletion_trans; eassumption.
      * exact Hc.
    + repeat split.
      * eapply only_progress_trans; eassumption.
      * eapply no_deletion_trans; eassumption.
      * exact Hc2.
Qed.

Lemma reports_bind {A B : Type} (message : string) (m : M World A) (k : A -> M World B) :
  tame m -> (forall a, reports message (k a)) -> reports message (bind m k).
Proof.
  intros Hm Hk w. destruct (Hm w) as (Hp & Hd & Hc). unfold bind.
  destruct (m w) as [[a | [cls detail | cls detail]] w1]; cbn [fst snd] in *.
  - destruct (Hk a w1) as (Hd2 & Hr). split.
    + eapply no_deletion_trans; eassumption.
    + destruct (fst (k a w1)) as [b | [c d | c d]].
      * destruct Hr as (p2 & Hp2 & He2). destruct Hp as (p1 & Hp1 & He1).
        exists (p1 ++ p2). split; [apply Forall_app; now split |].
        now rewrite He2, He1, <- !app_assoc.
      * eapply only_progress_trans; eassumption.
      * exact Hr.
  - split; assumption.
  - contradiction.
Qed.

Lemma reports_emit_result (message : string) : reports message (emit (Result message)).
Proof.
  intros w. cbn. split; [now intros path H |].
  exists []. split; [constructor | reflexivity].
Qed.

(** ** The file object *)

Lemma file_write_eq env data w :
  file_write env data w
  = (match write_fails env (writes w) with
     | Some detail => Raise (Exception "OSError" detail)
     | None => Ok tt
     end,
     {| emitted := emitted w; disk := disk w; writes := S (writes w);
        handed := handed w ++ data |}).
Proof.
  unfold file_write, bind, get, modify, raise, ret.
  destruct (write_fails env (writes w)); reflexivity.
Qed.

Lemma with_open_wb_eq env path body w :
  with_open_wb env path body w
  = match open_error env with
    | Some detail => (Raise (Exception "OSError" detail), w)
    | None =>
        (after_close_result env (fst (body (opened path w))),
         closed env path (writes w) (snd (body (opened path w))))
    end.
Proof.
  unfold with_open_wb, open_wb, file_close, after_close_result, bind, get, modify,
    raise, ret.
  destruct (open_error env) as [detail |]; [reflexivity |].
  fold (opened path w).
  destruct (body (opened path w)) as [[[] | e] w1]; cbn [fst snd];
    destruct (close_error env); reflexivity.
Qed.

(** What is on the disk of the bytes handed over is a prefix of them. *)
Lemma on_disk_prefix env opened_at w :
  exists n, on_disk env opened_at w = firstn n (handed w).
Proof.
  unfold on_disk.
  destruct (write_raised env opened_at w); [eexists; reflexivity |].
  destruct (close_error env); [eexists; reflexivity |].
  exists (List.length (handed w)). now rewrite firstn_all.
Qed.

Lemma concat_firstn_prefix {A : Type} (m : nat) (l : list (list A)) :
  List.concat (firstn m l) = firstn (List.length (List.concat (firstn m l))) (List.concat l).
Proof.
  revert m. induction l as [|x l IH]; intros [|m]; cbn [firstn List.concat]; try reflexivity.
  rewrite length_app, firstn_app.
  rewrite (firstn_all2 (n := List.length x + List.length (List.concat (firstn m l))) x) by lia.
  replace (List.length x + List.length (List.concat (firstn m l)) - List.length x)%nat
    with (List.length (List.concat (firstn m l))) by lia.
  now rewrite <- IH.
Qed.

Lemma bind_ext {S A B : Type} (m m' : M S A) (k k' : A -> M S B) (s : S) :
  m s = m' s -> (forall a s1, k a s1 = k' a s1) -> bind m k s = bind m' k' s.
Proof.
  intros Hm Hk. unfold bind. rewrite Hm.
  destruct (m' s) as [[a | e] s1]; [apply Hk | reflexivity].
Qed.

Lemma bind_ret {S A B : Type} (a : A) (k : A -> M S B) (s : S) :
  bind (ret a) k s = k a s.
Proof. reflexivity. Qed.

Section Worker.

Variable py_repr : json -> string.
Variable py_int : string -> option Z.

Lemma tame_stream env self total_mb pieces stream_error dl :
  tame (stream env self total_mb pieces stream_error dl).
Proof.
  revert dl. induction pieces as [|data rest IH]; intros dl; cbn [stream].
  - destruct stream_error; [apply tame_raise | apply tame_ret].
  - apply tame_bind; [apply tame_file_write | intros _].
    apply tame_bind; [apply tame_lift_result, to_megabytes_caught | intros downloaded_mb].
    apply tame_bind; [apply tame_emit_progress | intros _]. apply IH.
Qed.

Lemma tame_requests_get env url : tame (requests_get env url).
Proof.
  unfold requests_get. destruct (http_get env url); [apply tame_raise | apply tame_ret].
Qed.

Lemma run_body_reports env self :
  reports ("Finished downloading " +s+ py_format py_repr (DownloadWorker.file_name self))
    (run_body py_repr py_int env self).
Proof.
  unfold run_body.
  apply reports_bind; [apply tame_requests_get | intros response].
  apply reports_bind; [| intros _; apply reports_emit_result].
  destruct (requests.content_length response) as [header |].
  - apply tame_bind.
    + apply tame_lift_result. unfold int. now destruct (py_int header).
    + intros total.
      apply tame_bind; [apply tame_lift_result, to_megabytes_caught | intros total_mb].
      apply tame_with_open_wb, tame_stream.
  - apply tame_bind.
    + apply tame_lift_result. unfold requests.content.
      now destruct (requests.stream_error response).
    + intros content.
      apply tame_bind; [apply tame_lift_result, to_megabytes_caught | intros dl].
      apply tame_bind; [apply tame_with_open_wb, tame_file_write | intros _].
      apply tame_emit_progress.
Qed.

Lemma run_eq env self w :
  run py_repr py_int env self w
  = match run_body py_repr py_int env self w with
    | (Ok a, w') => (Ok a, w')
    | (Raise (Exception cls detail), w') =>
        (Ok tt,
         {| emitted :=
              emitted w'
              ++ [Result ("Error downloading "
                          +s+ py_format py_repr (DownloadWorker.file_name self)
                          +s+ ": " +s+ detail)];
            disk := disk w';
            writes := writes w';
            handed := handed w' |})
    | (Raise (BaseException cls detail), w') => (Raise (BaseException cls detail), w')
    end.
Proof.
  unfold run, try_except_Exception.
  destruct (run_body py_repr py_int env self w) as [[a | [cls detail | cls detail]] w'];
    reflexivity.
Qed.

Lemma run_disk env self w :
  disk (snd (run py_repr py_int env self w))
  = disk (snd (run_body py_repr py_int env self w)).
Proof.
  rewrite run_eq.
  destruct (run_body py_repr py_int env self w) as [[[] | [c d | c d]] w']; reflexivity.
Qed.

(** One turn of the loop. *)
Lemma stream_cons_eq env self total_mb data rest stream_error dl w :
  stream env self total_mb (data :: rest) stream_error dl w
  = let w1 := {| emitted := emitted w; disk := disk w; writes := S (writes w);
                 handed := handed w ++ data |} in
    match write_fails env (writes w) with
    | Some detail => (Raise (Exception "OSError" detail), w1)
    | None =>
        match to_megabytes (dl + len data) with
        | Raise e => (Raise e, w1)
        | Ok downloaded_mb =>
            if is_str (DownloadWorker.file_name self)
            then
              stream env self total_mb rest stream_error (dl + len data)
                {| emitted :=
                     emitted w
                     ++ [Progress downloaded_mb total_mb (DownloadWorker.file_name self)
                           (DownloadWorker.progress_bar self)];
                   disk := disk w;
                   writes := S (writes w);
                   handed := handed w ++ data |}
            else
              (Raise (Exception "TypeError"
                        (signal_type_error env (DownloadWorker.file_name self))), w1)
        end
    end.
Proof.
  cbn [stream]. unfold bind at 1. rewrite file_write_eq.
  destruct (write_fails env (writes w)) as [detail |]; [reflexivity |].
  unfold bind at 1, lift_result at 1.
  destruct (to_megabytes (dl + len data)) as [downloaded_mb | e]; [| reflexivity].
  unfold bind at 1, emit_progress, emit, modify, raise.
  destruct (is_str (DownloadWorker.file_name self)); reflexivity.
Qed.

Lemma len_app {A : Type} (l1 l2 : list A) : len (l1 ++ l2) = len l1 + len l2.
Proof. unfold len. rewrite length_app. lia. Qed.

(** What the loop, started with [dl] bytes counted, leaves: [n] progress
    signals, one per piece counted, and [m] pieces handed to the file, the
    last of which is not reported when the step after its write fails; the
    loop raises what [stream_failure] tells. *)
Lemma stream_trace env self total_mb pieces stream_error dl w :
  exists n m,
    (n <= m <= List.length pieces)%nat
    /\ (m <= S n)%nat
    /\ snd (stream env self total_mb pieces stream_error dl w)
       = {| emitted :=
              emitted w
              ++ map (fun k =>
                        Progress (megabytes (dl + len (List.concat (firstn k pieces))))
                          total_mb (DownloadWorker.file_name self)
                          (DownloadWorker.progress_bar self))
                   (seq 1 n);
            disk := disk w;
            writes := writes w + m;
            handed := handed w ++ List.concat (firstn m pieces) |}
    /\ match stream_failure env (DownloadWorker.file_name self) pieces stream_error
               (writes w) dl with
       | None =>
           fst (stream env self total_mb pieces stream_error dl w) = Ok tt
           /\ n = List.length pieces /\ m = List.length pieces
       | Some detail =>
           exists cls,
             fst (stream env self total_mb pieces stream_error dl w)
             = Raise (Exception cls detail)
       end.
Proof.
  revert dl w. induction pieces as [|data rest IH]; intros dl w.
  - exists 0%nat, 0%nat. cbn. rewrite !app_nil_r, Nat.add_0_r.
    split; [lia |]. split; [lia |]. split; [destruct w, stream_error; reflexivity |].
    destruct stream_error; cbn; [eexists; reflexivity | repeat split].
  - rewrite stream_cons_eq. cbn zeta. cbn [stream_failure].
    destruct (write_fails env (writes w)) as [detail |].
    { exists 0%nat, 1%nat. cbn [List.length firstn List.concat seq map fst snd].
      rewrite !app_nil_r, Nat.add_1_r.
      split; [lia |]. split; [lia |]. split; [reflexivity | eexists; reflexivity]. }
    destruct (to_megabytes (dl + len data)) as [downloaded_mb | e] eqn:Hmb.
    2: { exists 0%nat, 1%nat. cbn [List.length firstn List.concat seq map fst snd].
         rewrite !app_nil_r, Nat.add_1_r.
         split; [lia |]. split; [lia |]. split; [reflexivity |].
         rewrite (to_megabytes_raises _ _ Hmb). eexists; reflexivity. }
    destruct (is_str (DownloadWorker.file_name self)).
    2: { exists 0%nat, 1%nat. cbn [List.length firstn List.concat seq map fst snd].
         rewrite !app_nil_r, Nat.add_1_r.
         split; [lia |]. split; [lia |]. split; [reflexivity | eexists; reflexivity]. }
    match goal with
    | |- context [stream env self total_mb rest stream_error ?d ?w1] =>
        destruct (IH d w1) as (n & m & Hnm & Hm & Hsnd & Hfst)
    end.
    cbn [emitted disk writes handed] in Hsnd, Hfst.
    exists (S n), (S m). cbn [List.length]. split; [lia |]. split; [lia |]. split.
    + rewrite Hsnd. f_equal.
      * rewrite <- app_assoc. f_equal. cbn [seq map app]. f_equal.
        -- cbn [firstn List.concat]. rewrite app_nil_r.
           now rewrite (to_megabytes_megabytes _ _ Hmb).
        -- rewrite <- (seq_shift n 1), map_map. apply map_ext. intros k.
           cbn [firstn List.concat]. rewrite len_app, Z.add_assoc. reflexivity.
      * lia.
      * cbn [firstn List.concat]. now rewrite app_assoc.
    + destruct (stream_failure env (DownloadWorker.file_name self) rest stream_error
                  (S (writes w)) (dl + len data)) as [detail |].
      * exact Hfst.
      * destruct Hfst as (Hok & -> & ->). repeat split. exact Hok.
Qed.

(** A loop that returns made no write that raises. *)
Lemma stream_failure_writes env name pieces stream_error k dl :
  stream_failure env name pieces stream_error k dl = None ->
  forall j, (k <= j < k + List.length pieces)%nat -> write_fails env j = None.
Proof.
  revert k dl. induction pieces as [|data rest IH]; intros k dl Hnone j Hj;
    cbn [List.length] in Hj; [lia |].
  cbn [stream_failure] in Hnone.
  destruct (write_fails env k) as [detail |] eqn:Hk; [discriminate |].
  destruct (to_megabytes (dl + len data)); [| discriminate].
  destruct (is_str name); [| discriminate].
  destruct (Nat.eq_dec j k) as [-> | Hne]; [exact Hk |].
  apply (IH (S k) _ Hnone). lia.
Qed.

Lemma write_raised_false env opened_at w :
  (forall j, (opened_at <= j < writes w)%nat -> write_fails env j = None) ->
  write_raised env opened_at w = false.
Proof.
  intros Hnone. unfold write_raised.
  destruct (write_error env) as [[k detail] |] eqn:Hw; [| reflexivity].
  destruct (Nat.leb_spec opened_at k) as [Hlo |]; [| reflexivity].
  destruct (Nat.ltb_spec k (writes w)) as [Hhi |]; [| reflexivity].
  exfalso. specialize (Hnone k (conj Hlo Hhi)).
  unfold write_fails in Hnone. rewrite Hw, Nat.eqb_refl in Hnone. discriminate.
Qed.

(** [run_body] on an answer with a content-length header that is an integer
    within the floats once divided, when the destination can be opened. *)
Lemma run_body_streamed env self w response header total total_mb :
  http_get env (DownloadWorker.url self) = inr response ->
  requests.content_length response = Some header ->
  py_int header = Some total ->
  to_megabytes total = Ok total_mb ->
  open_error env = None ->
  run_body py_repr py_int env self w
  = let after :=
        stream env self total_mb (requests.chunks response)
          (requests.stream_error response) 0
          (opened (DownloadWorker.file_path self) w) in
    let w' := closed env (DownloadWorker.file_path self) (writes w) (snd after) in
    match after_close_result env (fst after) with
    | Ok _ =>
        (Ok tt,
         {| emitted :=
              emitted w'
              ++ [Result ("Finished downloading "
                          +s+ py_format py_repr (DownloadWorker.file_name self))];
            disk := disk w';
            writes := writes w';
            handed := handed w' |})
    | Raise e => (Raise e, w')
    end.
Proof.
  intros Hget Hheader Hint Hmb Hopen.
  unfold run_body, requests_get. rewrite Hget, bind_ret, Hheader.
  unfold bind at 1. unfold bind at 1, lift_result at 1, int. rewrite Hint.
  unfold bind at 1, lift_result at 1. rewrite Hmb.
  rewrite with_open_wb_eq, Hopen. cbn zeta. unfold after_close_result.
  destruct (close_error env) as [detail |]; [reflexivity |].
  match goal with
  | |- context [stream ?e ?s ?t ?p ?se ?d ?w1] =>
      destruct (stream e s t p se d w1) as [[[] | e1] w2]
  end; reflexivity.
Qed.

(** [run_body] on an answer without content-length header whose body can be
    read at once and counted, when the destination can be opened. *)
Lemma run_body_whole env self w response dl :
  http_get env (DownloadWorker.url self) = inr response ->
  requests.content_length response = None ->
  requests.stream_error response = None ->
  to_megabytes (len (List.concat (requests.chunks response))) = Ok dl ->
  open_error env = None ->
  run_body py_repr py_int env self w
  = let w' :=
        closed env (DownloadWorker.file_path self) (writes w)
          {| emitted := emitted w;
             disk := dict_set (DownloadWorker.file_path self) [] (disk w);
             writes := S (writes w);
             handed := List.concat (requests.chunks response) |} in
    match after_close env (write_fails env (writes w)) with
    | Some detail => (Raise (Exception "OSError" detail), w')
    | None =>
        if is_str (DownloadWorker.file_name self)
        then
          (Ok tt,
           {| emitted :=
                emitted w
                ++ [Progress dl dl (DownloadWorker.file_name self)
                      (DownloadWorker.progress_bar self);
                    Result ("Finished downloading "
                            +s+ py_format py_repr (DownloadWorker.file_name self))];
              disk := disk w';
              writes := writes w';
              handed := handed w' |})
        else
          (Raise (Exception "TypeError"
                    (signal_type_error env (DownloadWorker.file_name self))), w')
    end.
Proof.
  intros Hget Hheader Hstream Hmb Hopen.
  unfold run_body, requests_get. rewrite Hget, bind_ret, Hheader.
  unfold bind at 1. unfold bind at 1, lift_result at 1, requests.content.
  rewrite Hstream. unfold bind at 1, lift_result at 1. rewrite Hmb.
  unfold bind at 1. rewrite with_open_wb_eq, Hopen, file_write_eq.
  cbn [fst snd]. unfold opened, after_close, after_close_result.
  cbn [emitted disk writes handed app].
  destruct (close_error env) as [detail |]; [reflexivity |].
  destruct (write_fails env (writes w)) as [detail |]; [reflexivity |].
  unfold emit_progress, emit, modify, raise.
  destruct (is_str (DownloadWorker.file_name self)); cbn; [| reflexivity].
  rewrite <- app_assoc. reflexivity.
Qed.

(** A run that fails early changes nothing but the signals. *)
Lemma early_failure_eq (env : Environment) (self : DownloadWorker.t) (w : World)
    (detail : string) :
  early_failure py_repr py_int env self = Some detail ->
  exists cls, run_body py_repr py_int env self w = (Raise (Exception cls detail), w).
Proof.
  unfold early_failure. intros Hearly.
  unfold run_body, requests_get.
  destruct (http_get env (DownloadWorker.url self)) as [d | response].
  - inversion Hearly; subst. eexists. reflexivity.
  - rewrite bind_ret. unfold bind at 1.
    destruct (requests.content_length response) as [header |].
    + unfold bind at 1, lift_result at 1. unfold int in *.
      destruct (py_int header) as [total |].
      * unfold bind at 1, lift_result at 1.
        destruct (to_megabytes total) as [total_mb | e] eqn:Hmb.
        -- rewrite with_open_wb_eq, Hearly. eexists. reflexivity.
        -- rewrite (to_megabytes_raises _ _ Hmb) in *. cbn in Hearly.
           inversion Hearly; subst. eexists. reflexivity.
      * cbn in Hearly. inversion Hearly; subst. eexists. reflexivity.
    + unfold bind at 1, lift_result at 1. unfold requests.content in *.
      destruct (requests.stream_error response) as [d |].
      * cbn in Hearly. inversion Hearly; subst. eexists. reflexivity.
      * unfold bind at 1, lift_result at 1.
        destruct (to_megabytes (len (List.concat (requests.chunks response))))
          as [dl | e] eqn:Hmb.
        -- unfold bind at 1. rewrite with_open_wb_eq, Hearly. eexists. reflexivity.
        -- rewrite (to_megabytes_raises _ _ Hmb) in *. cbn in Hearly.
           inversion Hearly; subst. eexists. reflexivity.
Qed.

(** What the destination can be opened for. *)
Lemma early_failure_none env self response :
  http_get env (DownloadWorker.url self) = inr response ->
  early_failure py_repr py_int env self = None ->
  open_error env = None
  /\ match requests.content_length response with
     | Some header =>
         exists total total_mb,
           py_int header = Some total /\ to_megabytes total = Ok total_mb
     | None =>
         requests.stream_error response = None
         /\ exists dl, to_megabytes (len (List.concat (requests.chunks response))) = Ok dl
     end.
Proof.
  intros Hget. unfold early_failure. rewrite Hget.
  destruct (requests.content_length response) as [header |].
  - unfold int. destruct (py_int header) as [total |]; [| discriminate].
    destruct (to_megabytes total) as [total_mb |] eqn:Hmb; [| discriminate].
    intros Hopen. split; [exact Hopen |]. exists total, total_mb.
    split; [reflexivity | first [exact Hmb | reflexivity]].
  - unfold requests.content. destruct (requests.stream_error response); [discriminate |].
    destruct (to_megabytes (len (List.concat (requests.chunks response)))) as [dl |]
      eqn:Hmb; [| discriminate].
    intros Hopen. split; [exact Hopen |]. split; [reflexivity |]. exists dl.
    first [exact Hmb | reflexivity].
Qed.

(** The body of the [try] raises what [run_failure] tells, and nothing
    when it tells nothing. *)
Lemma run_body_outcome env self w :
  match run_failure py_repr py_int env self (writes w) with
  | None => fst (run_body py_repr py_int env self w) = Ok tt
  | Some detail =>
      exists cls, fst (run_body py_repr py_int env self w) = Raise (Exception cls detail)
  end.
Proof.
  unfold run_failure.
  destruct (early_failure py_repr py_int env self) as [detail |] eqn:Hearly.
  { destruct (early_failure_eq env self w detail Hearly) as (cls & ->).
    exists cls. reflexivity. }
  destruct (http_get env (DownloadWorker.url self)) as [detail | response] eqn:Hget.
  { unfold early_failure in Hearly. rewrite Hget in Hearly. discriminate. }
  destruct (early_failure_none env self response Hget Hearly) as (Hopen & Hhead).
  destruct (requests.content_length response) as [header |] eqn:Hheader.
  - destruct Hhead as (total & total_mb & Hint & Hmb).
    rewrite (run_body_streamed env self w response header total total_mb) by assumption.
    cbn zeta. unfold after_close_result, after_close.
    match goal with
    | |- context [stream ?e ?s ?t ?p ?se ?d ?w1] =>
        destruct (stream_trace e s t p se d w1) as (n & m & _ & _ & _ & Hfst)
    end.
    cbn [opened writes] in Hfst.
    destruct (close_error env) as [detail |]; [eexists; reflexivity |].
    destruct (stream_failure env (DownloadWorker.file_name self) (requests.chunks response)
                (requests.stream_error response) (writes w) 0) as [detail |].
    + destruct Hfst as (cls & ->). exists cls. reflexivity.
    + destruct Hfst as (-> & _). reflexivity.
  - destruct Hhead as (Hstream & dl & Hmb).
    rewrite (run_body_whole env self w response dl) by assumption. cbn zeta.
    destruct (after_close env (write_fails env (writes w))) as [detail |];
      [eexists; reflexivity |].
    destruct (is_str (DownloadWorker.file_name self)); [reflexivity | eexists; reflexivity].
Qed.

(** The signals of a run: progress, then the one result that tells what
    failed, if anything did. *)
Lemma run_emits_result env self w :
  fst (run py_repr py_int env self w) = Ok tt
  /\ exists progress,
       Forall is_progress progress
       /\ emitted (snd (run py_repr py_int env self w))
          = emitted w ++ progress
            ++ [Result (result_message py_repr py_int env self (writes w))].
Proof.
  rewrite run_eq. unfold result_message.
  destruct (run_body_reports env self w) as [_ Hr].
  pose proof (run_body_outcome env self w) as Hout.
  destruct (run_body py_repr py_int env self w) as [[[] | [c d | c d]] w'];
    cbn [fst snd] in *.
  - split; [reflexivity |].
    destruct (run_failure py_repr py_int env self (writes w)) as [detail |].
    + destruct Hout as (cls & Hout). discriminate.
    + exact Hr.
  - split; [reflexivity |].
    destruct (run_failure py_repr py_int env self (writes w)) as [detail |];
      [| discriminate].
    destruct Hout as (cls & Hout). inversion Hout; subst.
    destruct Hr as (progress & Hp & He). exists progress. split; [exact Hp |].
    cbn [emitted]. now rewrite He, <- app_assoc.
  - contradiction.
Qed.

(** Once the destination is opened, the run leaves in it a prefix of the
    body: all of it when nothing fails. *)
Lemma run_file env self w response :
  http_get env (DownloadWorker.url self) = inr response ->
  early_failure py_repr py_int env self = None ->
  (exists n,
     dict_lookup (DownloadWorker.file_path self)
       (disk (snd (run py_repr py_int env self w)))
     = Some (firstn n (List.concat (requests.chunks response))))
  /\ (run_failure py_repr py_int env self (writes w) = None ->
      dict_lookup (DownloadWorker.file_path self)
        (disk (snd (run py_repr py_int env self w)))
      = Some (List.concat (requests.chunks response))).
Proof.
  intros Hget Hearly. rewrite run_disk.
  unfold run_failure. rewrite Hearly, Hget.
  destruct (early_failure_none env self response Hget Hearly) as (Hopen & Hhead).
  destruct (requests.content_length response) as [header |] eqn:Hheader.
  - destruct Hhead as (total & total_mb & Hint & Hmb).
    rewrite (run_body_streamed env self w response header total total_mb) by assumption.
    cbn zeta.
    match goal with
    | |- context [stream ?e ?s ?t ?p ?se ?d ?w1] =>
        destruct (stream_trace e s t p se d w1) as (n & m & Hnm & _ & Hsnd & Hfst);
          set (after := stream e s t p se d w1) in *
    end.
    cbn [opened emitted disk writes handed app] in Hsnd, Hfst.
    assert (Hdisk : forall r : result unit * World,
               disk (snd (match after_close_result env (fst after) with
                          | Ok _ =>
                              (Ok tt,
                               {| emitted :=
                                    emitted (closed env (DownloadWorker.file_path self)
                                               (writes w) (snd after))
                                    ++ [Result ("Finished downloading "
                                                +s+ py_format py_repr
                                                      (DownloadWorker.file_name self))];
                                  disk := disk (closed env (DownloadWorker.file_path self)
                                                  (writes w) (snd after));
                                  writes := writes (closed env (DownloadWorker.file_path self)
                                                      (writes w) (snd after));
                                  handed := handed (closed env (DownloadWorker.file_path self)
                                                      (writes w) (snd after)) |})
                          | Raise e =>
                              (Raise e,
                               closed env (DownloadWorker.file_path self) (writes w)
                                 (snd after))
                          end))
               = disk (closed env (DownloadWorker.file_path self) (writes w) (snd after))).
    { intros _. destruct (after_close_result env (fst after)); reflexivity. }
    rewrite (Hdisk after). clear Hdisk.
    unfold closed. cbn [disk]. rewrite dict_lookup_set_same. split.
    + destruct (on_disk_prefix env (writes w) (snd after)) as (b & ->).
      rewrite Hsnd. cbn [handed].
      exists (Nat.min b (List.length (List.concat (firstn m (requests.chunks response))))).
      rewrite <- firstn_firstn. do 2 f_equal. apply concat_firstn_prefix.
    + unfold after_close. intros Hnone.
      destruct (close_error env) as [detail |] eqn:Hclose; [discriminate |].
      rewrite Hnone in Hfst. destruct Hfst as (_ & _ & ->).
      rewrite firstn_all in Hsnd.
      unfold on_disk. rewrite Hclose, write_raised_false.
      * rewrite Hsnd. reflexivity.
      * rewrite Hsnd. cbn [writes]. intros j Hj.
        apply (stream_failure_writes _ _ _ _ _ _ Hnone). lia.
  - destruct Hhead as (Hstream & dl & Hmb).
    rewrite (run_body_whole env self w response dl) by assumption. cbn zeta.
    set (w' := closed env _ _ _).
    assert (Hdisk : disk (snd (match after_close env (write_fails env (writes w)) with
                               | Some detail => (Raise (Exception "OSError" detail), w')
                               | None =>
                                   if is_str (DownloadWorker.file_name self)
                                   then
                                     (Ok tt,
                                      {| emitted :=
                                           emitted w
                                           ++ [Progress dl dl (DownloadWorker.file_name self)
                                                 (DownloadWorker.progress_bar self);
                                               Result ("Finished downloading "
                                                       +s+ py_format py_repr
                                                             (DownloadWorker.file_name self))];
                                         disk := disk w';
                                         writes := writes w';
                                         handed := handed w' |})
                                   else
                                     (Raise (Exception "TypeError"
                                               (signal_type_error env
                                                  (DownloadWorker.file_name self))), w')
                               end))
                    = disk w').
    { destruct (after_close env (write_fails env (writes w))); [reflexivity |].
      destruct (is_str (DownloadWorker.file_name self)); reflexivity. }
    rewrite Hdisk. clear Hdisk. subst w'.
    unfold closed. cbn [disk]. rewrite dict_lookup_set_same. split.
    + match goal with
      | |- context [on_disk env ?k ?w1] => destruct (on_disk_prefix env k w1) as (b & ->)
      end.
      cbn [handed]. eexists. reflexivity.
    + unfold after_close.
      destruct (close_error env) as [detail |] eqn:Hclose; [discriminate |].
      destruct (write_fails env (writes w)) as [detail |] eqn:Hwrite; [discriminate |].
      intros _. unfold on_disk. rewrite Hclose, write_raised_false; [reflexivity |].
      cbn [writes]. intros j Hj. replace j with (writes w) by lia. exact Hwrite.
Qed.

(** C3.  [run] never raises: whatever fails in the request, the header,
    the file or the stream, the worker returns normally having emitted
    progress signals and then exactly one result signal, which carries the
    text of the failure when there is one; it deletes no file, and once the
    destination is opened the file stays, holding a prefix of the body
    received (all of it, if nothing fails). *)
Theorem run_never_raises (env : Environment) (self : DownloadWorker.t) (w : World) :
  fst (run py_repr py_int env self w) = Ok tt
  /\ (exists progress,
        Forall is_progress progress
        /\ emitted (snd (run py_repr py_int env self w))
           = emitted w ++ progress ++
             [Result
                match run_failure py_repr py_int env self (writes w) with
                | None =>
                    "Finished downloading "
                    +s+ py_format py_repr (DownloadWorker.file_name self)
                | Some detail =>
                    "Error downloading "
                    +s+ py_format py_repr (DownloadWorker.file_name self)
                    +s+ ": " +s+ detail
                end])
  /\ no_deletion w (snd (run py_repr py_int env self w))
  /\ (forall response,
        http_get env (DownloadWorker.url self) = inr response ->
        early_failure py_repr py_int env self = None ->
        (exists n,
           dict_lookup (DownloadWorker.file_path self)
             (disk (snd (run py_repr py_int env self w)))
           = Some (firstn n (List.concat (requests.chunks response))))
        /\ (run_failure py_repr py_int env self (writes w) = None ->
            dict_lookup (DownloadWorker.file_path self)
              (disk (snd (run py_repr py_int env self w)))
            = Some (List.concat (requests.chunks response)))).
Proof.
  split; [apply run_emits_result |]. split; [apply run_emits_result |]. split.
  - rewrite run_eq. destruct (run_body_reports env self w) as [Hd _].
    destruct (run_body py_repr py_int env self w) as [[[] | [c d | c d]] w'];
      cbn [fst snd] in *; exact Hd.
  - intros response Hget Hearly. now apply run_file.
Qed.

End Worker.

Lemma run_never_raises_witness :
  (http_get disk_full (DownloadWorker.url sample_worker)
   = inr (sample_response 200 (Some "12")
            [piece Byte.x61; piece Byte.x62; piece Byte.x63])
   /\ early_failure sample_repr sample_int disk_full sample_worker = None)
  /\ fst (run sample_repr sample_int disk_full sample_worker (fresh_world [])) = Ok tt
  /\ exists n,
       dict_lookup "cache/Movies/A.mp4"
         (disk (snd (run sample_repr sample_int disk_full sample_worker (fresh_world []))))
       = Some (firstn n (List.concat [piece Byte.x61; piece Byte.x62; piece Byte.x63])).
Proof.
  assert (Hget : http_get disk_full (DownloadWorker.url sample_worker)
                 = inr (sample_response 200 (Some "12")
                          [piece Byte.x61; piece Byte.x62; piece Byte.x63]))
    by reflexivity.
  assert (Hearly : early_failure sample_repr sample_int disk_full sample_worker = None)
    by (vm_compute; reflexivity).
  split; [split; assumption |].
  destruct (run_never_raises sample_repr sample_int disk_full sample_worker (fresh_world []))
    as (Hok & _ & _ & Hfile).
  split; [exact Hok |].
  exact (proj1 (Hfile _ Hget Hearly)).
Defined.

(** The same run, evaluated: three pieces are handed to the file and two
    reported, the third write fails, the error is reported and eight bytes
    are on the disk. *)
Lemma disk_full_run :
  run sample_repr sample_int disk_full sample_worker (fresh_world [])
  = (Ok tt,
     {| emitted :=
          [Progress (megabytes 4) (megabytes 12) (JStr "A") 0;
           Progress (megabytes 8) (megabytes 12) (JStr "A") 0;
           Result "Error downloading A: No space left on device"];
        disk := [("cache/Movies/A.mp4", piece Byte.x61 ++ piece Byte.x62)];
        writes := 3;
        handed := piece Byte.x61 ++ piece Byte.x62 ++ piece Byte.x63 |}).
Proof. vm_compute. reflexivity. Qed.

(** ** The status code *)

Lemma stream_same_files env g self total_mb pieces stream_error dl w :
  stream (set_http_get g env) self total_mb pieces stream_error dl w
  = stream env self total_mb pieces stream_error dl w.
Proof.
  revert dl w. induction pieces as [|data rest IH]; intros dl w.
  - reflexivity.
  - rewrite !stream_cons_eq. cbn zeta.
    change (write_fails (set_http_get g env) (writes w))
      with (write_fails env (writes w)).
    destruct (write_fails env (writes w)); [reflexivity |].
    destruct (to_megabytes (dl + len data)); [| reflexivity].
    destruct (is_str (DownloadWorker.file_name self)); [apply IH | reflexivity].
Qed.

Lemma stream_failure_same_files env g name pieces stream_error k dl :
  stream_failure (set_http_get g env) name pieces stream_error k dl
  = stream_failure env name pieces stream_error k dl.
Proof.
  revert k dl. induction pieces as [|data rest IH]; intros k dl; [reflexivity |].
  cbn [stream_failure].
  change (write_fails (set_http_get g env) k) with (write_fails env k).
  destruct (write_fails env k); [reflexivity |].
  destruct (to_megabytes (dl + len data)); [| reflexivity].
  destruct (is_str name); [apply IH | reflexivity].
Qed.

Lemma run_body_same_status py_repr py_int recode env self w :
  run_body py_repr py_int (recode_status recode env) self w
  = run_body py_repr py_int env self w.
Proof.
  unfold run_body, requests_get, recode_status.
  cbn [http_get set_http_get].
  destruct (http_get env (DownloadWorker.url self)) as [detail | response];
    [reflexivity |].
  rewrite !bind_ret. cbn [requests.content_length requests.set_status_code].
  apply bind_ext; [| reflexivity].
  destruct (requests.content_length response) as [header |].
  - apply bind_ext; [reflexivity | intros total w1].
    apply bind_ext; [reflexivity | intros total_mb w2].
    rewrite !with_open_wb_eq.
    cbn [requests.chunks requests.stream_error requests.set_status_code].
    rewrite stream_same_files. reflexivity.
  - apply bind_ext; [reflexivity | intros content w1].
    apply bind_ext; [reflexivity | intros dl w2].
    apply bind_ext; [| reflexivity].
    rewrite !with_open_wb_eq, !file_write_eq. reflexivity.
Qed.

Lemma run_failure_same_status py_repr py_int recode env self k :
  run_failure py_repr py_int (recode_status recode env) self k
  = run_failure py_repr py_int env self k.
Proof.
  unfold run_failure, early_failure, recode_status.
  cbn [http_get set_http_get].
  destruct (http_get env (DownloadWorker.url self)) as [detail | response];
    [reflexivity |].
  cbn [requests.content_length requests.set_status_code].
  destruct (requests.content_length response) as [header |].
  - destruct (int py_repr py_int header) as [total | e]; [| reflexivity].
    destruct (to_megabytes total); [| reflexivity].
    change (open_error (set_http_get _ env)) with (open_error env).
    destruct (open_error env); [reflexivity |].
    cbn [requests.chunks requests.stream_error requests.set_status_code].
    unfold after_close.
    change (close_error (set_http_get _ env)) with (close_error env).
    rewrite stream_failure_same_files. reflexivity.
  - reflexivity.
Qed.

(** C6 (as amended).  [run] does not read the status code: with every status
    code replaced by another, it returns the same outcome, the same signals
    and the same files, and what fails is the same.  Whether the answer has
    a content-length header or not, the result signal is "Finished
    downloading ..." when nothing fails, whatever the status code, and
    "Error downloading ..." with the text of the exception exactly when the
    body of the [try] raises one. *)
Theorem run_ignores_status_code (py_repr : json -> string) (py_int : string -> option Z)
    (env : Environment) (self : DownloadWorker.t) (w : World) :
  (forall recode,
     run py_repr py_int (recode_status recode env) self w = run py_repr py_int env self w)
  /\ (forall recode,
        run_failure py_repr py_int (recode_status recode env) self (writes w)
        = run_failure py_repr py_int env self (writes w))
  /\ match run_failure py_repr py_int env self (writes w) with
     | None =>
         fst (run_body py_repr py_int env self w) = Ok tt
         /\ exists progress,
              Forall is_progress progress
              /\ emitted (snd (run py_repr py_int env self w))
                 = emitted w ++ progress
                   ++ [Result ("Finished downloading "
                               +s+ py_format py_repr (DownloadWorker.file_name self))]
     | Some detail =>
         (exists cls,
            fst (run_body py_repr py_int env self w) = Raise (Exception cls detail))
         /\ exists progress,
              Forall is_progress progress
              /\ emitted (snd (run py_repr py_int env self w))
                 = emitted w ++ progress
                   ++ [Result ("Error downloading "
                               +s+ py_format py_repr (DownloadWorker.file_name self)
                               +s+ ": " +s+ detail)]
     end.
Proof.
  split; [| split].
  - intros recode. rewrite !run_eq, run_body_same_status. reflexivity.
  - intros recode. apply run_failure_same_status.
  - pose proof (run_body_outcome py_repr py_int env self w) as Hout.
    destruct (run_emits_result py_repr py_int env self w) as (_ & Hsig).
    unfold result_message in Hsig.
    destruct (run_failure py_repr py_int env self (writes w)) as [detail |];
      split; assumption.
Qed.

Lemma run_ignores_status_code_witness :
  run_failure sample_repr sample_int not_found sample_worker 0 = None
  /\ exists progress,
       emitted (snd (run sample_repr sample_int not_found sample_worker (fresh_world [])))
       = emitted (fresh_world []) ++ progress ++ [Result "Finished downloading A"].
Proof.
  split; [reflexivity |].
  destruct (run_ignores_status_code sample_repr sample_int not_found sample_worker
              (fresh_world [])) as (_ & _ & Hresult).
  change (run_failure sample_repr sample_int not_found sample_worker
            (writes (fresh_world [])))
    with (@None string) in Hresult.
  destruct Hresult as (_ & progress & _ & Hemit).
  exists progress. exact Hemit.
Defined.

(** C6 (as stated) fails: the answer has status 404, and the worker writes
    its body to the destination and reports the download as finished. *)
Lemma not_found_reported_as_finished :
  (forall url, exists response,
      http_get not_found url = inr response /\ requests.status_code response = 404)
  /\ run sample_repr sample_int not_found sample_worker (fresh_world [])
     = (Ok tt,
        {| emitted :=
             [Progress (megabytes 8) (megabytes 8) (JStr "A") 0;
              Result "Finished downloading A"];
           disk := [("cache/Movies/A.mp4", piece Byte.x34 ++ piece Byte.x30)];
           writes := 1;
           handed := piece Byte.x34 ++ piece Byte.x30 |}).
Proof.
  split.
  - intros url. eexists. split; reflexivity.
  - vm_compute. reflexivity.
Qed.

(** * Properties of the progress report *)


(** 29 bytes of 100: the quotient rounds below 0.29 and the bar shows 28. *)
Lemma update_progress_29_of_100 :
  bar_value (snd (update_progress 0 (megabytes 29) (megabytes 100) (JStr "A")
                    USBSelectorApp.new_progress_bar)) = 28.
Proof. vm_compute. reflexivity. Qed.

(** A total of one byte and 2 GiB downloaded: the percentage is beyond the
    C [int] that [setValue] takes, and the slot raises. *)
Lemma update_progress_beyond_int :
  update_progress 0 (megabytes 2147483648) (megabytes 1) (JStr "A")
    USBSelectorApp.new_progress_bar
  = (Raise (Exception "OverflowError"
              "argument 1 overflowed: value must be in the range -2147483648 to 2147483647"),
     USBSelectorApp.new_progress_bar).
Proof. vm_compute. reflexivity. Qed.

(** C5 (the code fails it).  A 200 answer with an empty body and no
    content-length header makes the worker emit a progress signal with both
    amounts zero, and [update_progress] has no guard for a zero total: for
    every progress signal whose total is zero the division raises
    [ZeroDivisionError] and the bar is left as it was. *)
Theorem update_progress_zero_total_raises :
  emitted (snd (run sample_repr sample_int empty_body sample_worker (fresh_world [])))
  = [Progress (megabytes 0) (megabytes 0) (JStr "A") 0; Result "Finished downloading A"]
  /\ forall (bar_index : nat) (downloaded_mb : float) (file_name : json)
       (bar : QProgressBar),
       update_progress bar_index downloaded_mb (megabytes 0) file_name bar
       = (Raise (Exception "ZeroDivisionError" "float division by zero"), bar).
Proof.
  split.
  - vm_compute. reflexivity.
  - intros bar_index downloaded_mb file_name bar. reflexivity.
Qed.

(** * Properties of the catalog *)

Section Catalog.

Variable py_repr : json -> string.

Lemma process_item_ok (category_name : string) (entry : json) (item : ProcessedItem) :
  process_item py_repr category_name entry = Ok item ->
  exists d,
    entry = JDict d
    /\ item_category item = category_name
    /\ item_title item = dict_get d "title" (JStr "")
    /\ item_duration item = dict_get d "duration" (JStr "")
    /\ (exists filetype,
          dict_get d "filetype" (JStr "") = JStr filetype
          /\ item_filetype item = upper filetype)
    /\ item_size item = py_format py_repr (dict_get d "size_gb" (JInt 0)) +s+ "GB"
    /\ item_size_gb item = dict_get d "size_gb" (JInt 0)
    /\ item_url item = dict_get d "url" (JStr "").
Proof.
  unfold process_item. destruct entry as [| | | | |l|d]; try discriminate.
  unfold py_upper.
  destruct (dict_get d "filetype" (JStr "")) as [| | | |filetype| |] eqn:Hft;
    try discriminate.
  intros Hitem. inversion Hitem; subst; clear Hitem. cbn.
  exists d. do 4 (split; [reflexivity |]).
  split; [| repeat split].
  exists filetype. split; [first [exact Hft | reflexivity] | reflexivity].
Qed.

Lemma process_items_In (category_name : string) (entries : list json)
    (processed_items result_items : list ProcessedItem) :
  process_items py_repr category_name entries processed_items = Ok result_items ->
  forall item, In item result_items ->
    In item processed_items
    \/ exists entry, In entry entries
                     /\ process_item py_repr category_name entry = Ok item.
Proof.
  revert processed_items. induction entries as [|entry rest IH];
    intros processed_items Hrun item Hin; cbn in Hrun.
  - inversion Hrun; subst. now left.
  - destruct (process_item py_repr category_name entry) as [p | e] eqn:Hp;
      [| discriminate].
    destruct (IH _ Hrun item Hin) as [Hacc | (entry' & Hin' & Hp')].
    + apply in_app_or in Hacc. destruct Hacc as [Hacc | [Heq | []]].
      * now left.
      * subst p. right. exists entry. split; [now left | exact Hp].
    + right. exists entry'. split; [now right | exact Hp'].
Qed.

Lemma dict_set_In {V : Type} (k k' : string) (v v' : V) (d : dict V) :
  In (k', v') (dict_set k v d) -> (k' = k /\ v' = v) \/ In (k', v') d.
Proof.
  induction d as [|[k0 v0] d IH]; cbn.
  - intros [Heq | []]. inversion Heq. now left.
  - destruct (String.eqb k k0).
    + intros [Heq | Hin]; [inversion Heq; now left | right; now right].
    + intros [Heq | Hin]; [right; now left |].
      destruct (IH Hin) as [Hnew | Hold]; [now left | right; now right].
Qed.

Lemma process_category_ok (data category_key : json)
    (processed_data result_data : dict (list ProcessedItem)) :
  process_category py_repr data category_key processed_data = Ok result_data ->
  forall category_name items, In (category_name, items) result_data ->
    In (category_name, items) processed_data
    \/ forall item, In item items -> item_from_catalog py_repr data category_name item.
Proof.
  unfold process_category.
  destruct category_key as [| | | |key| |]; try discriminate.
  destruct (py_getitem data key) as [raw_items | e] eqn:Hget; [| discriminate].
  destruct (py_iter raw_items) as [entries | e] eqn:Hiter; [| discriminate].
  destruct (process_items py_repr (capitalize key) entries []) as [items0 | e] eqn:Hitems;
    [| discriminate].
  intros Hres category_name items Hin. inversion Hres; subst; clear Hres.
  apply dict_set_In in Hin. destruct Hin as [[-> ->] | Hold]; [right | now left].
  intros item Hitem.
  destruct (process_items_In _ _ _ _ Hitems item Hitem) as [[] | (entry & Hentry & Hp)].
  destruct (process_item_ok _ _ _ Hp) as (d & -> & Hfields).
  exists key, raw_items, entries, d. repeat split; try assumption; apply Hfields.
Qed.

Lemma process_categories_ok (data : json) (category_keys : list json)
    (processed_data result_data : dict (list ProcessedItem)) :
  process_categories py_repr data category_keys processed_data = Ok result_data ->
  (forall category_name items, In (category_name, items) processed_data ->
     forall item, In item items -> item_from_catalog py_repr data category_name item) ->
  forall category_name items, In (category_name, items) result_data ->
    forall item, In item items -> item_from_catalog py_repr data category_name item.
Proof.
  revert processed_data. induction category_keys as [|category_key rest IH];
    intros processed_data Hrun Hinv; cbn in Hrun.
  - inversion Hrun; subst. exact Hinv.
  - destruct (process_category py_repr data category_key processed_data)
      as [next | e] eqn:Hcat; [| discriminate].
    apply (IH next Hrun). intros category_name items Hin item Hitem.
    destruct (process_category_ok _ _ _ _ Hcat _ _ Hin) as [Hold | Hnew].
    + exact (Hinv _ _ Hold _ Hitem).
    + exact (Hnew _ Hitem).
Qed.

Lemma process_items_Forall2 (category_name : string) (entries : list json)
    (processed_items result_items : list ProcessedItem) :
  process_items py_repr category_name entries processed_items = Ok result_items ->
  exists items,
    result_items = processed_items ++ items
    /\ Forall2 (built_from py_repr category_name) entries items.
Proof.
  revert processed_items. induction entries as [|entry rest IH];
    intros processed_items Hrun; cbn in Hrun.
  - inversion Hrun; subst. exists []. split; [now rewrite app_nil_r | constructor].
  - destruct (process_item py_repr category_name entry) as [item | e] eqn:Hitem;
      [| discriminate].
    destruct (IH _ Hrun) as (items & -> & Hall).
    exists (item :: items). split; [now rewrite <- app_assoc |].
    constructor; [| exact Hall].
    destruct (process_item_ok _ _ _ Hitem) as (d & -> & Hfields).
    exists d. split; [reflexivity | exact Hfields].
Qed.

Lemma process_categories_app (data : json) (keys1 keys2 : list json)
    (processed_data result_data : dict (list ProcessedItem)) :
  process_categories py_repr data (keys1 ++ keys2) processed_data = Ok result_data ->
  exists middle,
    process_categories py_repr data keys1 processed_data = Ok middle
    /\ process_categories py_repr data keys2 middle = Ok result_data.
Proof.
  revert processed_data. induction keys1 as [|key rest IH]; intros processed_data Hrun.
  - exists processed_data. split; [reflexivity | exact Hrun].
  - cbn in Hrun |- *.
    destruct (process_category py_repr data key processed_data) as [next | e];
      [| discriminate].
    apply IH. exact Hrun.
Qed.

Lemma process_categories_keeps (data : json) (name : string) (keys : list json)
    (processed_data result_data : dict (list ProcessedItem)) :
  process_categories py_repr data keys processed_data = Ok result_data ->
  (forall key, In (JStr key) keys -> capitalize key <> name) ->
  dict_lookup name result_data = dict_lookup name processed_data.
Proof.
  revert processed_data. induction keys as [|key rest IH]; intros processed_data Hrun Hother;
    cbn in Hrun.
  - inversion Hrun; subst. reflexivity.
  - destruct (process_category py_repr data key processed_data) as [next | e] eqn:Hcat;
      [| discriminate].
    rewrite (IH next Hrun) by (intros k Hk; apply Hother; now right).
    unfold process_category in Hcat.
    destruct key as [| | | |k| |]; try discriminate.
    destruct (py_getitem data k) as [raw | e]; [| discriminate].
    destruct (py_iter raw) as [entries | e]; [| discriminate].
    destruct (process_items py_repr (capitalize k) entries []) as [items | e];
      [| discriminate].
    inversion Hcat; subst. apply dict_lookup_set_other. apply Hother. now left.
Qed.

Lemma dict_lookup_app_fresh {V : Type} (k : string) (v : V) (before after : dict V) :
  ~ In k (map fst before) ->
  dict_lookup k (before ++ (k, v) :: after) = Some v.
Proof.
  induction before as [|[k0 v0] before IH]; intros Hfresh; cbn.
  - now rewrite String.eqb_refl.
  - destruct (String.eqb_spec k k0) as [-> | Hne].
    + exfalso. apply Hfresh. now left.
    + apply IH. intros Hin. apply Hfresh. now right.
Qed.

Lemma dict_lookup_In {V : Type} (k : string) (v : V) (d : dict V) :
  dict_lookup k d = Some v -> In (k, v) d.
Proof.
  induction d as [|[k0 v0] d IH]; cbn; [discriminate |].
  destruct (String.eqb_spec k k0) as [-> | Hne].
  - intros Hv. inversion Hv; subst. now left.
  - intros Hv. right. now apply IH.
Qed.

Lemma dict_lookup_key {V : Type} (k : string) (d : dict V) :
  In k (map fst d) -> dict_lookup k d <> None.
Proof.
  induction d as [|[k0 v0] d IH]; cbn; [contradiction |].
  intros [Heq | Hin]; destruct (String.eqb_spec k k0); try discriminate; try congruence.
  now apply IH.
Qed.

Lemma process_items_total (category_name : string) (entries : list json)
    (processed_items : list ProcessedItem) :
  Forall well_formed_entry entries ->
  exists result_items,
    process_items py_repr category_name entries processed_items = Ok result_items.
Proof.
  intros Hall. revert processed_items.
  induction Hall as [|entry rest (d & filetype & -> & Hft) _ IH]; intros processed_items.
  - eexists. reflexivity.
  - cbn. unfold py_upper. rewrite Hft. apply IH.
Qed.

Lemma process_categories_total (d : dict json) (keys : list string)
    (processed_data : dict (list ProcessedItem)) :
  well_formed_catalog d ->
  (forall key, In key keys -> In key (map fst d)) ->
  exists result_data,
    process_categories py_repr (JDict d) (map JStr keys) processed_data = Ok result_data
    /\ (forall name, dict_lookup name processed_data <> None ->
                     dict_lookup name result_data <> None)
    /\ (forall key, In key keys -> dict_lookup (capitalize key) result_data <> None).
Proof.
  intros Hwf. revert processed_data. induction keys as [|key keys IH];
    intros processed_data Hkeys.
  - exists processed_data. cbn. split; [reflexivity |]. split; [auto | intros key []].
  - cbn [map process_categories]. unfold process_category. cbn [py_getitem].
    destruct (dict_lookup key d) as [raw |] eqn:Hraw.
    2: { exfalso. apply (dict_lookup_key key d); [apply Hkeys; now left | exact Hraw]. }
    apply dict_lookup_In in Hraw.
    unfold well_formed_catalog in Hwf. rewrite Forall_forall in Hwf.
    destruct (Hwf _ Hraw) as (entries & Hlist & Hentries). cbn in Hlist. subst raw.
    cbn [py_iter].
    destruct (process_items_total (capitalize key) entries [] Hentries) as (items & Hitems).
    rewrite Hitems.
    destruct (IH (dict_set (capitalize key) items processed_data))
      as (result & Hrun & Hkeep & Hnew); [intros k Hk; apply Hkeys; now right |].
    exists result. split; [exact Hrun |]. split.
    + intros name Hname. apply Hkeep. now apply dict_set_keeps.
    + intros k [<- | Hk]; [| now apply Hnew].
      apply Hkeep. rewrite dict_lookup_set_same. discriminate.
Qed.

(** On status 200, what the mapping returned holds for a key of the catalog
    that no later key equals once capitalized. *)
Lemma fetch_data_at_key (response : requests.Response) (out : list string)
    (before after : dict json) (key : string) (entries : list json)
    (processed_data : dict (list ProcessedItem)) :
  requests.status_code response = 200 ->
  requests.json_value response = Ok (JDict (before ++ (key, JList entries) :: after)) ->
  ~ In key (map fst before) ->
  (forall later, In later (map fst after) -> capitalize later <> capitalize key) ->
  fst (fetch_data py_repr (inr response) out) = Ok processed_data ->
  exists items,
    dict_lookup (capitalize key) processed_data = Some items
    /\ Forall2 (built_from py_repr (capitalize key)) entries items.
Proof.
  intros Hcode Hjson Hfresh Hlater. unfold fetch_data.
  rewrite bind_ret, Hcode. cbn [Z.eqb Pos.eqb]. unfold bind, lift_result. rewrite Hjson.
  cbn [fst snd py_iter]. rewrite map_app. cbn [map fst].
  set (data := JDict (before ++ (key, JList entries) :: after)).
  destruct (process_categories py_repr data _ []) as [result | e] eqn:Hrun;
    [| discriminate].
  cbn [fst]. intros Hres. inversion Hres; subst processed_data. clear Hres.
  apply process_categories_app in Hrun. destruct Hrun as (middle & _ & Hrun).
  cbn [process_categories] in Hrun.
  destruct (process_category py_repr data (JStr key) middle) as [next | e] eqn:Hcat;
    [| discriminate].
  unfold process_category in Hcat.
  assert (Hget : py_getitem data key = Ok (JList entries)).
  { subst data. cbn [py_getitem]. now rewrite dict_lookup_app_fresh. }
  rewrite Hget in Hcat. cbn [py_iter] in Hcat.
  destruct (process_items py_repr (capitalize key) entries []) as [items | e] eqn:Hitems;
    [| discriminate].
  inversion Hcat; subst next. clear Hcat.
  destruct (process_items_Forall2 _ _ _ _ Hitems) as (items' & Heq & Hall).
  cbn [app] in Heq. subst items'.
  exists items. split; [| exact Hall].
  rewrite (process_categories_keeps _ (capitalize key) _ _ _ Hrun).
  - apply dict_lookup_set_same.
  - intros later Hin. apply Hlater. apply in_map_iff in Hin.
    destruct Hin as ([k v] & Hk & Hin). cbn in Hk. inversion Hk; subst.
    apply in_map_iff. exists (later, v). split; [reflexivity | exact Hin].
Qed.

(** On status 200 and a well-formed catalog [fetch_data] returns, having
    printed nothing, a mapping with a category for each key. *)
Lemma fetch_data_total (response : requests.Response) (out : list string) (d : dict json) :
  requests.status_code response = 200 ->
  requests.json_value response = Ok (JDict d) ->
  well_formed_catalog d ->
  exists processed_data,
    fetch_data py_repr (inr response) out = (Ok processed_data, out)
    /\ forall key, In key (map fst d) ->
         dict_lookup (capitalize key) processed_data <> None.
Proof.
  intros Hcode Hjson Hwf. unfold fetch_data.
  rewrite bind_ret, Hcode. cbn [Z.eqb Pos.eqb]. unfold bind, lift_result. rewrite Hjson.
  cbn [fst snd py_iter].
  destruct (process_categories_total d (map fst d) [] Hwf (fun _ H => H))
    as (result & Hrun & _ & Hnew).
  rewrite map_map in Hrun. rewrite Hrun. exists result. split; [reflexivity | exact Hnew].
Qed.

(** C10.  On a status other than 200 [fetch_data] prints the status and
    returns the empty mapping without raising.  On status 200 and a catalog
    whose keys and file types are ASCII text, every item of every category
    of the mapping it returns stems from an entry of the catalog: its
    category is the capitalized raw key, its file type the upper-cased
    entry's, its size the text of [size_gb] followed by GB; title,
    duration, file type and url missing from the entry are the empty
    string, a missing [size_gb] is 0.  And the mapping is not short of the
    catalog: for a dict of lists of dicts it is returned, and it holds for
    each key that no later key equals once capitalized one item per entry
    of that key, in order, built from it in this way. *)
Theorem fetch_data_items (response : requests.Response) (out : list string) :
  (requests.status_code response <> 200 ->
   fetch_data py_repr (inr response) out
   = (Ok [],
      out ++ ["Error fetching data: " +s+ str_of_int (requests.status_code response)]))
  /\ (requests.status_code response = 200 ->
      forall data,
        requests.json_value response = Ok data ->
        ascii_catalog data ->
        (forall processed_data,
           fst (fetch_data py_repr (inr response) out) = Ok processed_data ->
           forall category_name items item,
             In (category_name, items) processed_data ->
             In item items ->
             item_from_catalog py_repr data category_name item)
        /\ (forall d,
              data = JDict d ->
              NoDup (map fst d) ->
              well_formed_catalog d ->
              exists processed_data,
                fetch_data py_repr (inr response) out = (Ok processed_data, out)
                /\ forall before key entries after,
                     d = before ++ (key, JList entries) :: after ->
                     (forall later, In later (map fst after) ->
                                    capitalize later <> capitalize key) ->
                     exists items,
                       dict_lookup (capitalize key) processed_data = Some items
                       /\ Forall2 (built_from py_repr (capitalize key)) entries items)).
Proof.
  split.
  - intros Hcode. unfold fetch_data. rewrite bind_ret.
    destruct (Z.eqb_spec (requests.status_code response) 200); [contradiction |].
    reflexivity.
  - intros Hcode data Hjson _. split.
    + intros processed_data. unfold fetch_data. rewrite bind_ret, Hcode.
      cbn [Z.eqb Pos.eqb]. unfold bind, lift_result. rewrite Hjson. cbn [fst snd].
      destruct (py_iter data) as [category_keys | e]; [| discriminate]. cbn [fst].
      intros Hrun category_name items item Hin Hitem.
      eapply process_categories_ok; try eassumption.
      intros ? ? [].
    + intros d -> Hnodup Hwf.
      destruct (fetch_data_total response out d Hcode Hjson Hwf)
        as (processed_data & Hrun & _).
      exists processed_data. split; [exact Hrun |].
      intros before key entries after -> Hlater.
      apply (fetch_data_at_key response out before after key entries processed_data
               Hcode Hjson); [| exact Hlater | now rewrite Hrun].
      rewrite map_app in Hnodup. cbn [map fst] in Hnodup.
      apply NoDup_remove_2 in Hnodup. intros Hin. apply Hnodup.
      apply in_or_app. now left.
Qed.

End Catalog.

Lemma sample_catalog_ascii : ascii_catalog sample_catalog.
Proof. repeat constructor. Qed.

Lemma sample_catalog_well_formed :
  match sample_catalog with
  | JDict d => NoDup (map fst d) /\ well_formed_catalog d
  | _ => False
  end.
Proof.
  split.
  - repeat constructor; cbn; intuition discriminate.
  - repeat constructor; eexists; (split; [reflexivity |]);
      repeat constructor; eexists; eexists; split; reflexivity.
Qed.

Lemma fetch_data_items_witness :
  (requests.status_code (catalog_response 200) = 200
   /\ requests.json_value (catalog_response 200) = Ok sample_catalog
   /\ ascii_catalog sample_catalog)
  /\ exists processed_data items,
       fetch_data sample_repr (inr (catalog_response 200)) [] = (Ok processed_data, [])
       /\ dict_lookup "Movies" processed_data = Some items
       /\ map item_title items = [JStr "A"; JStr "B"]
       /\ item_from_catalog sample_repr sample_catalog "Movies"
            {| item_category := "Movies"; item_title := JStr "B";
               item_duration := JStr ""; item_filetype := "";
               item_size := "0GB"; item_size_gb := JInt 0; item_url := JStr "" |}.
Proof.
  assert (Hcode : requests.status_code (catalog_response 200) = 200) by reflexivity.
  assert (Hjson : requests.json_value (catalog_response 200) = Ok sample_catalog)
    by reflexivity.
  split; [split; [exact Hcode | split; [exact Hjson | exact sample_catalog_ascii]] |].
  destruct (proj2 (fetch_data_items sample_repr (catalog_response 200) []) Hcode
              sample_catalog Hjson sample_catalog_ascii) as (Hsound & Hcomplete).
  destruct (Hcomplete _ eq_refl (proj1 sample_catalog_well_formed)
              (proj2 sample_catalog_well_formed))
    as (processed_data & Hrun & Hkeys).
  destruct (Hkeys [] "movies" _ _ eq_refl) as (items & Hlookup & Hall).
  { intros later [<- | []]. cbn. discriminate. }
  exists processed_data, items. split; [exact Hrun |]. split; [exact Hlookup |].
  vm_compute in Hrun. injection Hrun as Hrun. subst processed_data. split.
  - vm_compute in Hlookup. injection Hlookup as Hlookup. subst items. reflexivity.
  - apply (Hsound _ eq_refl "Movies" _ _ (or_introl eq_refl)). right. left. reflexivity.
Defined.

(** * Properties of the download list *)

Section Stage5.

Import USBSelectorApp.

Lemma go_to_stage5_eq (py_repr : json -> string) (self : t) :
  go_to_stage5 py_repr None self
  = start_downloads (map (download_of py_repr) (selected_content_items self))
      (set_files (rmtree cache_folder (files self)) (set_current_index 4 self)).
Proof. reflexivity. Qed.

(** C9 (as amended).  When the cache folders can be created,
    [go_to_stage5] returns normally, and the tasks then running or queued
    are, in order, one per selected item: the URL is the CDN base, a slash
    and the item's url; the path is the cache folder, the category, and the
    title followed by ".mp4", whatever the item's file type; the name is
    the title. *)
Theorem stage5_download_list (py_repr : json -> string) (self : t) :
  pool_ok self ->
  fst (go_to_stage5 py_repr None self) = Ok tt
  /\ map DownloadWorker.task (threadpool (snd (go_to_stage5 py_repr None self)))
       ++ download_queue (snd (go_to_stage5 py_repr None self))
     = map DownloadWorker.task (threadpool self)
       ++ map (fun item =>
                 ("https://cdn.skyy.cc/" +s+ py_format py_repr (item_url item),
                  "cache/" +s+ item_category item +s+ "/"
                    +s+ py_format py_repr (item_title item) +s+ ".mp4",
                  item_title item))
            (selected_content_items self)
  /\ forall item url title,
       item_url item = JStr url ->
       item_title item = JStr title ->
       download_of py_repr item
       = ("https://cdn.skyy.cc/" +s+ url,
          "cache/" +s+ item_category item +s+ "/" +s+ title +s+ ".mp4",
          JStr title).
Proof.
  intros Hpool. rewrite go_to_stage5_eq, start_downloads_eq.
  set (self0 := set_completed_downloads 0 _). unfold range.
  set (n := Z.to_nat _).
  assert (Hpool0 : pool_ok self0) by exact Hpool.
  destruct (start_loop_ok n 0 self0 (Nat.le_0_l _) Hpool0) as (Hok & _ & _ & _ & Htasks).
  cbn zeta in Hok, Htasks.
  split; [exact Hok |]. split.
  - rewrite Htasks. reflexivity.
  - intros item url title Hurl Htitle. unfold download_of. rewrite Hurl, Htitle.
    reflexivity.
Qed.

Lemma stage5_download_list_witness :
  pool_ok five_selected
  /\ map DownloadWorker.task
       (threadpool (snd (go_to_stage5 sample_repr None five_selected)))
       ++ download_queue (snd (go_to_stage5 sample_repr None five_selected))
     = [("https://cdn.skyy.cc/a.mp4", "cache/Movies/A.mp4", JStr "A");
        ("https://cdn.skyy.cc/b.mp4", "cache/Movies/B.mp4", JStr "B");
        ("https://cdn.skyy.cc/c.mp4", "cache/Movies/C.mp4", JStr "C");
        ("https://cdn.skyy.cc/d.mp3", "cache/Music/D.mp4", JStr "D");
        ("https://cdn.skyy.cc/e.mp4", "cache/Gaming/E.mp4", JStr "E")].
Proof.
  assert (Hpool : pool_ok five_selected) by (split; [constructor | cbn; lia]).
  split; [exact Hpool |].
  destruct (stage5_download_list sample_repr five_selected Hpool) as (_ & Htasks & _).
  rewrite Htasks. reflexivity.
Defined.

(** C9 (as stated) fails: the item's file type is MP3, and the destination
    ends in ".mp4", not in the file type. *)
Lemma music_item_saved_as_mp4 :
  item_filetype (sample_item "Music" "D" "MP3" "d.mp3") = "MP3"
  /\ download_of sample_repr (sample_item "Music" "D" "MP3" "d.mp3")
     = ("https://cdn.skyy.cc/d.mp3", "cache/Music/D.mp4", JStr "D")
  /\ snd (fst (download_of sample_repr (sample_item "Music" "D" "MP3" "d.mp3")))
     <> "cache/Music/D." +s+ item_filetype (sample_item "Music" "D" "MP3" "d.mp3")
  /\ snd (fst (download_of sample_repr (sample_item "Music" "D" "MP3" "d.mp3")))
     <> "cache/Music/D.mp3".
Proof. repeat split; cbn; discriminate. Qed.

(** C8 (the code fails it).  The box "Use Cache" is checked and A's file is
    in the cache folder; [go_to_stage5] removes the file with the rest of
    the folder and starts a worker that requests A's URL, and nothing has
    been counted as completed.  The box makes no difference to the workers
    started. *)
Theorem go_to_stage5_downloads_cached_file :
  use_cache cached_app = true
  /\ dict_lookup "cache/Movies/A.mp4" (files cached_app) = Some (piece Byte.x61)
  /\ fst (go_to_stage5 sample_repr None cached_app) = Ok tt
  /\ threadpool (snd (go_to_stage5 sample_repr None cached_app))
     = [DownloadWorker.init "https://cdn.skyy.cc/a.mp4" "cache/Movies/A.mp4"
          (JStr "A") 0 0]
  /\ completed_downloads (snd (go_to_stage5 sample_repr None cached_app)) = 0
  /\ dict_lookup "cache/Movies/A.mp4"
       (files (snd (go_to_stage5 sample_repr None cached_app))) = None
  /\ forall flag,
       threadpool (snd (go_to_stage5 sample_repr None (set_use_cache flag cached_app)))
       = threadpool (snd (go_to_stage5 sample_repr None cached_app)).
Proof.
  repeat split; try reflexivity; intros flag; destruct flag; reflexivity.
Qed.

End Stage5.

(** * Further properties of the scheduler *)

Section SessionInvariants.

Import USBSelectorApp.

Lemma started_current_index i self : current_index (started i self) = current_index self.
Proof. unfold started. destruct (download_queue self) as [|[[u p] n] rest]; reflexivity. Qed.

Lemma completed_one_current_index i m self :
  current_index (completed_one i m self)
  = if completed_downloads self + 1 =? len (selected_content_items self)
    then 5 else current_index self.
Proof.
  unfold completed_one. cbn.
  rewrite started_completed, started_selected. cbn.
  destruct (completed_downloads self + 1 =? len (selected_content_items self));
    cbn; [reflexivity | rewrite started_current_index; reflexivity].
Qed.

Lemma started_active_tasks i self :
  map DownloadWorker.task (active_downloads (started i self))
    ++ download_queue (started i self)
  = map DownloadWorker.task (active_downloads self) ++ download_queue self.
Proof.
  rewrite started_active_downloads, started_download_queue.
  destruct (download_queue self) as [|[[u p] n] rest]; cbn [tl].
  - rewrite !app_nil_r. reflexivity.
  - rewrite map_app, <- app_assoc. reflexivity.
Qed.

Lemma remove_nth_fresh {A B : Type} (f : A -> B) (k : nat) (l : list A) (x : A) :
  NoDup (map f l) -> nth_error l k = Some x ->
  NoDup (map f (remove_nth k l)) /\ ~ In (f x) (map f (remove_nth k l)).
Proof.
  revert k. induction l as [|y l IH]; intros [|k] Hnd Hk; cbn in *; try discriminate.
  - inversion Hk; subst. inversion Hnd; subst. split; assumption.
  - inversion Hnd as [|? ? Hnotin Hnd']; subst.
    destruct (IH k Hnd' Hk) as [Hnd2 Hfresh]. split.
    + constructor; [| exact Hnd2].
      intros Hin. apply Hnotin.
      clear - Hin. revert k Hin. induction l as [|z l IHl]; intros [|k] Hin; cbn in *;
        try contradiction.
      * now right.
      * destruct Hin as [Heq | Hin]; [now left | right; eapply IHl; eassumption].
    + intros [Heq | Hin]; [| now apply Hfresh].
      apply Hnotin. rewrite Heq. apply in_map. eapply nth_error_In. eassumption.
Qed.

(** One more worker bound to a bar that no worker of the pool is bound to. *)
Lemma started_NoDup i self :
  NoDup (map DownloadWorker.signal (threadpool self)) ->
  ~ In i (map DownloadWorker.signal (threadpool self)) ->
  NoDup (map DownloadWorker.signal (threadpool (started i self))).
Proof.
  intros Hnd Hfresh. rewrite started_threadpool.
  destruct (download_queue self) as [|[[u p] n] rest].
  - now rewrite app_nil_r.
  - rewrite map_app. cbn.
    apply (NoDup_Add (a := i) (l := map DownloadWorker.signal (threadpool self))).
    + clear. induction (map DownloadWorker.signal (threadpool self)) as [|x l IH]; cbn.
      * constructor.
      * constructor. exact IH.
    + split; assumption.
Qed.


Lemma started_held i self :
  Forall (fun w => DownloadWorker.progress_bar w = DownloadWorker.signal w)
    (threadpool self) ->
  Forall (fun w => DownloadWorker.progress_bar w = DownloadWorker.signal w)
    (threadpool (started i self)).
Proof.
  intros Hheld. rewrite started_threadpool.
  destruct (download_queue self) as [|[[u p] n] rest].
  - now rewrite app_nil_r.
  - apply Forall_app. split; [exact Hheld |]. repeat constructor.
Qed.

(** A turn of the loop of [start_downloads]: a bar is added and the head of
    the queue started on it. *)
Lemma start_turn_inv (download_urls : list download) (self : t) :
  session_inv download_urls self ->
  session_inv download_urls
    (started (List.length (progress_bars self))
       (set_progress_bars (progress_bars self ++ [new_progress_bar]) self)).
Proof.
  intros ([Hall Hlen] & Hheld & Hnd & Htasks & Hpos & Hcount & Hbusy & Htimers & Hindex).
  set (self1 := set_progress_bars (progress_bars self ++ [new_progress_bar]) self).
  assert (Hbars1 : List.length (progress_bars self1) = S (List.length (progress_bars self))).
  { subst self1. cbn. rewrite length_app. cbn. lia. }
  assert (Hfresh : ~ In (List.length (progress_bars self))
                        (map DownloadWorker.signal (threadpool self1))).
  { subst self1. cbn. intros Hin. apply in_map_iff in Hin. destruct Hin as (w & Hw & Hin).
    rewrite Forall_forall in Hall. specialize (Hall w Hin). lia. }
  unfold session_inv.
  rewrite started_selected, started_completed, started_timers, started_current_index,
    started_active_tasks, started_progress_bars.
  split; [| split; [| split; [| split; [| split; [| split; [| split; [| split]]]]]]].
  - apply started_pool_ok.
    + subst self1. cbn. rewrite length_app. cbn.
      eapply Forall_impl; [| exact Hall]. cbn. intros w Hw. lia.
    + rewrite Hbars1. lia.
    + rewrite Hbars1. subst self1. cbn. lia.
  - apply started_held. exact Hheld.
  - apply started_NoDup; [exact Hnd | exact Hfresh].
  - exact Htasks.
  - exact Hpos.
  - rewrite started_threadpool, started_active_downloads. subst self1.
    cbn [threadpool active_downloads download_queue completed_downloads set_progress_bars].
    unfold len in *. rewrite !length_app.
    destruct (download_queue self) as [|[[u p] n] rest]; cbn [List.length]; lia.
  - rewrite started_threadpool, started_download_queue, Hbars1. subst self1.
    cbn [threadpool download_queue set_progress_bars]. rewrite length_app.
    destruct (download_queue self) as [|[[u p] n] rest]; cbn [tl List.length].
    + intros Hne. now contradiction Hne.
    + intros _. rewrite Hbusy by discriminate. lia.
  - exact Htimers.
  - exact Hindex.
Qed.

Lemma start_loop_step (n a : nat) (self : t) :
  (a <= List.length (progress_bars self))%nat ->
  for_each (seq a (S n))
    (fun i =>
       modify (fun self =>
         set_progress_bars (progress_bars self ++ [new_progress_bar]) self) ;;
       start_next_download i) self
  = for_each (seq (S a) n)
      (fun i =>
         modify (fun self =>
           set_progress_bars (progress_bars self ++ [new_progress_bar]) self) ;;
         start_next_download i)
      (started a (set_progress_bars (progress_bars self ++ [new_progress_bar]) self)).
Proof.
  intros Ha. cbn [seq for_each]. unfold bind at 1. unfold bind at 1, modify at 1.
  rewrite start_next_download_ok; [reflexivity |].
  cbn. rewrite length_app. cbn. lia.
Qed.

Lemma start_loop_inv (download_urls : list download) (n : nat) (self : t) :
  session_inv download_urls self ->
  fst (for_each (seq (List.length (progress_bars self)) n)
         (fun i =>
            modify (fun self =>
              set_progress_bars (progress_bars self ++ [new_progress_bar]) self) ;;
            start_next_download i) self) = Ok tt
  /\ session_inv download_urls
       (snd (for_each (seq (List.length (progress_bars self)) n)
               (fun i =>
                  modify (fun self =>
                    set_progress_bars (progress_bars self ++ [new_progress_bar]) self) ;;
                  start_next_download i) self))
  /\ List.length
       (progress_bars
          (snd (for_each (seq (List.length (progress_bars self)) n)
                  (fun i =>
                     modify (fun self =>
                       set_progress_bars (progress_bars self ++ [new_progress_bar]) self) ;;
                     start_next_download i) self)))
     = (List.length (progress_bars self) + n)%nat
  /\ selected_content_items
       (snd (for_each (seq (List.length (progress_bars self)) n)
               (fun i =>
                  modify (fun self =>
                    set_progress_bars (progress_bars self ++ [new_progress_bar]) self) ;;
                  start_next_download i) self))
     = selected_content_items self.
Proof.
  revert self. induction n as [|n IH]; intros self Hinv.
  - cbn. rewrite Nat.add_0_r. repeat split; try apply Hinv.
  - rewrite start_loop_step by lia.
    pose proof (start_turn_inv download_urls self Hinv) as Hinv1.
    set (self1 := started (List.length (progress_bars self)) _) in *.
    assert (Hbars1 : List.length (progress_bars self1) = S (List.length (progress_bars self))).
    { subst self1. rewrite started_progress_bars. cbn. rewrite length_app. cbn. lia. }
    specialize (IH self1 Hinv1). rewrite Hbars1 in IH.
    destruct IH as (Hok & Hinv2 & Hbars2 & Hsel).
    repeat split; try apply Hinv2.
    + exact Hok.
    + rewrite Hbars2. lia.
    + rewrite Hsel. subst self1. rewrite started_selected. reflexivity.
Qed.

(** A worker of the pool finishes. *)
Lemma worker_finished_inv (download_urls : list download) (event : nat * string) (self : t) :
  session_inv download_urls self ->
  fst (worker_finished event self) = Ok tt
  /\ session_inv download_urls (snd (worker_finished event self))
  /\ progress_bars (snd (worker_finished event self)) = progress_bars self
  /\ selected_content_items (snd (worker_finished event self))
     = selected_content_items self.
Proof.
  intros Hinv. destruct event as [k message]. rewrite worker_finished_eq.
  destruct (nth_error (threadpool self) k) as [w |] eqn:Hk;
    [| cbn; repeat split; apply Hinv].
  destruct Hinv
    as ([Hall Hlen] & Hheld & Hnd & Htasks & Hpos & Hcount & Hbusy & Htimers & Hindex).
  assert (Hklt : (k < List.length (threadpool self))%nat)
    by (apply nth_error_Some; congruence).
  assert (Hw : (DownloadWorker.signal w < List.length (progress_bars self))%nat).
  { rewrite Forall_forall in Hall. apply Hall. eapply nth_error_In. eassumption. }
  destruct (remove_nth_fresh DownloadWorker.signal k _ w Hnd Hk) as [Hnd1 Hfresh].
  set (self1 := set_threadpool (remove_nth k (threadpool self)) self).
  rewrite on_download_complete_ok by exact Hw. cbn [fst snd].
  split; [reflexivity |].
  rewrite completed_one_progress_bars, completed_one_selected.
  split; [| split; reflexivity].
  unfold session_inv, pool_ok.
  rewrite completed_one_progress_bars, completed_one_selected, completed_one_completed,
    completed_one_timers, completed_one_current_index, completed_one_threadpool,
    completed_one_active_downloads, completed_one_download_queue.
  assert (Hlen1 : List.length (threadpool self1) = pred (List.length (threadpool self)))
    by (subst self1; cbn; apply remove_nth_length; exact Hklt).
  assert (Hpool : pool_ok (started (DownloadWorker.signal w) self1)).
  { apply started_pool_ok.
    - subst self1. cbn. apply remove_nth_Forall. exact Hall.
    - exact Hw.
    - rewrite Hlen1. subst self1. cbn. lia. }
  unfold pool_ok in Hpool. rewrite started_progress_bars in Hpool.
  subst self1.
  cbn [progress_bars selected_content_items completed_downloads timers current_index
       download_queue active_downloads threadpool set_threadpool] in *.
  split; [exact Hpool |].
  split; [| split; [| split; [| split; [| split; [| split; [| split]]]]]].
  - apply started_held. cbn [threadpool set_threadpool].
    apply remove_nth_Forall. exact Hheld.
  - apply started_NoDup; [exact Hnd1 | exact Hfresh].
  - rewrite <- Htasks. rewrite started_active_downloads.
    cbn [active_downloads download_queue set_threadpool].
    destruct (download_queue self) as [|[[u p] n] rest]; cbn [tl].
    + rewrite !app_nil_r. reflexivity.
    + rewrite map_app, <- app_assoc. reflexivity.
  - lia.
  - rewrite started_threadpool, started_active_downloads. unfold len in *.
    cbn [active_downloads download_queue threadpool set_threadpool].
    rewrite !length_app, Hlen1.
    destruct (download_queue self) as [|[[u p] n] rest]; cbn [List.length]; lia.
  - rewrite started_threadpool.
    cbn [download_queue threadpool set_threadpool]. rewrite length_app, Hlen1.
    destruct (download_queue self) as [|[[u p] n] rest]; cbn [tl List.length].
    + intros Hne. now contradiction Hne.
    + intros _. rewrite <- Hbusy by discriminate. lia.
  - rewrite Htimers.
    set (c := completed_downloads self) in *.
    set (N := len (selected_content_items self)) in *.
    destruct (Z.eqb_spec (c + 1) N); destruct (Z.leb_spec 1 N);
      destruct (Z.leb_spec N c); destruct (Z.leb_spec N (c + 1));
      cbn; try lia; reflexivity.
  - destruct (completed_downloads self + 1 =? len (selected_content_items self)).
    + intros _. reflexivity.
    + rewrite app_nil_r. exact Hindex.
Qed.

Lemma worker_finished_all_inv (download_urls : list download)
    (events : list (nat * string)) (self : t) :
  session_inv download_urls self ->
  fst (for_each events worker_finished self) = Ok tt
  /\ session_inv download_urls (snd (for_each events worker_finished self))
  /\ progress_bars (snd (for_each events worker_finished self)) = progress_bars self
  /\ selected_content_items (snd (for_each events worker_finished self))
     = selected_content_items self.
Proof.
  revert self. induction events as [|event events IH]; intros self Hinv.
  - cbn. repeat split; apply Hinv.
  - destruct (worker_finished_inv download_urls event self Hinv) as (Hok & Hinv1 & Hb & Hs).
    cbn [for_each]. unfold bind.
    destruct (worker_finished event self) as [r self1]. cbn [fst snd] in *. subst r.
    destruct (IH self1 Hinv1) as (Hok2 & Hinv2 & Hb2 & Hs2).
    repeat split; try apply Hinv2; congruence.
Qed.

(** The invariants hold all along a session. *)
Lemma session_invariants (c : Z) (items : list ProcessedItem)
    (download_urls : list download) (events : list (nat * string)) (disk : Disk) :
  fst (session c items download_urls events (init disk)) = Ok tt
  /\ session_inv download_urls (snd (session c items download_urls events (init disk)))
  /\ List.length (progress_bars (snd (session c items download_urls events (init disk))))
     = Z.to_nat (Z.min c (len download_urls))
  /\ selected_content_items (snd (session c items download_urls events (init disk)))
     = items.
Proof.
  rewrite session_eq, start_downloads_eq.
  cbn [concurrent_downloads set_selected_content_items set_concurrency].
  set (self0 := set_completed_downloads 0 _). unfold range.
  assert (Hinv0 : session_inv download_urls self0).
  { unfold session_inv, pool_ok. subst self0. cbn.
    repeat split; try constructor; try lia; try reflexivity.
    - destruct (Z.leb_spec 1 (len items)); destruct (Z.leb_spec (len items) 0);
        cbn; try lia; reflexivity.
    - intros H. now contradiction H. }
  destruct (start_loop_inv download_urls (Z.to_nat (Z.min c (len download_urls))) self0 Hinv0)
    as (Hok & Hinv1 & Hbars & Hsel).
  change (List.length (progress_bars self0)) with 0%nat in Hok, Hinv1, Hbars, Hsel.
  destruct (for_each (seq 0 (Z.to_nat (Z.min c (len download_urls)))) _ self0)
    as [r self1]. cbn [fst snd] in *. subst r.
  destruct (worker_finished_all_inv download_urls events self1 Hinv1)
    as (Hok2 & Hinv2 & Hb2 & Hs2).
  repeat split; try apply Hinv2.
  - exact Hok2.
  - rewrite Hb2, Hbars. reflexivity.
  - rewrite Hs2, Hsel. reflexivity.
Qed.

(** X1.  All along a session, the workers started and not yet finished are
    bound to pairwise distinct bars, each holds the bar its signals are bound
    to, and that bar exists: a bar is never updated by two running
    downloads. *)
Theorem running_workers_on_distinct_bars (c : Z) (items : list ProcessedItem)
    (download_urls : list download) (events : list (nat * string)) (disk : Disk) :
  NoDup (map DownloadWorker.progress_bar
           (threadpool (snd (session c items download_urls events (init disk)))))
  /\ Forall
       (fun w =>
          DownloadWorker.progress_bar w = DownloadWorker.signal w
          /\ (DownloadWorker.progress_bar w
              < List.length
                  (progress_bars (snd (session c items download_urls events (init disk)))))%nat)
       (threadpool (snd (session c items download_urls events (init disk)))).
Proof.
  destruct (session_invariants c items download_urls events disk)
    as (_ & ([Hall _] & Hheld & Hnd & _) & _).
  set (self := snd (session c items download_urls events (init disk))) in *.
  assert (Hmap : map DownloadWorker.progress_bar (threadpool self)
                 = map DownloadWorker.signal (threadpool self)).
  { apply map_ext_in. intros w Hw. rewrite Forall_forall in Hheld. now apply Hheld. }
  split; [rewrite Hmap; exact Hnd |].
  rewrite Forall_forall in *. intros w Hw. split; [now apply Hheld |].
  rewrite (Hheld w Hw). now apply Hall.
Qed.

(** X2.  All along a session, the tasks of the workers started so far, in
    the order they were started, followed by the tasks still queued, are the
    list [start_downloads] was given: downloads start in list order, each at
    most once, and none is dropped. *)
Theorem downloads_start_in_list_order (c : Z) (items : list ProcessedItem)
    (download_urls : list download) (events : list (nat * string)) (disk : Disk) :
  map DownloadWorker.task
    (active_downloads (snd (session c items download_urls events (init disk))))
    ++ download_queue (snd (session c items download_urls events (init disk)))
  = download_urls.
Proof.
  destruct (session_invariants c items download_urls events disk)
    as (_ & (_ & _ & _ & Htasks & _) & _).
  exact Htasks.
Qed.

(** X3.  All along a session, [completed_downloads] is the number of workers
    started less the number still running; it is never negative and never
    exceeds the number of downloads. *)
Theorem completed_downloads_counts_finished_workers (c : Z) (items : list ProcessedItem)
    (download_urls : list download) (events : list (nat * string)) (disk : Disk) :
  completed_downloads (snd (session c items download_urls events (init disk)))
  = len (active_downloads (snd (session c items download_urls events (init disk))))
    - len (threadpool (snd (session c items download_urls events (init disk))))
  /\ 0 <= completed_downloads (snd (session c items download_urls events (init disk)))
       <= len download_urls.
Proof.
  destruct (session_invariants c items download_urls events disk)
    as (_ & (_ & _ & _ & Htasks & Hpos & Hcount & _) & _).
  set (self := snd (session c items download_urls events (init disk))) in *.
  assert (Hlen : len (active_downloads self) <= len download_urls).
  { rewrite <- Htasks. unfold len. rewrite length_app, length_map. lia. }
  unfold len in *. lia.
Qed.

(** X4.  While a download is still queued no bar is without a worker: the
    pool then holds exactly [min c L] workers (none when [c] is below 1). *)
Theorem no_idle_bar_while_queued (c : Z) (items : list ProcessedItem)
    (download_urls : list download) (events : list (nat * string)) (disk : Disk) :
  download_queue (snd (session c items download_urls events (init disk))) <> [] ->
  List.length (threadpool (snd (session c items download_urls events (init disk))))
  = Z.to_nat (Z.min c (len download_urls)).
Proof.
  intros Hqueue.
  destruct (session_invariants c items download_urls events disk)
    as (_ & (_ & _ & _ & _ & _ & _ & Hbusy & _) & Hbars & _).
  rewrite <- Hbars. apply Hbusy. exact Hqueue.
Qed.

Lemma no_idle_bar_while_queued_witness :
  download_queue
    (snd (session 3 five_items five_downloads [(1%nat, "Finished downloading B")]
            (init []))) <> []
  /\ List.length
       (threadpool
          (snd (session 3 five_items five_downloads [(1%nat, "Finished downloading B")]
                  (init []))))
     = Z.to_nat (Z.min 3 (len five_downloads)).
Proof.
  assert (H : download_queue
                (snd (session 3 five_items five_downloads
                        [(1%nat, "Finished downloading B")] (init []))) <> [])
    by (vm_compute; discriminate).
  split; [exact H |].
  exact (no_idle_bar_while_queued 3 five_items five_downloads
           [(1%nat, "Finished downloading B")] [] H).
Defined.

(** X5.  With a concurrency of at least 1 and as many selected items as
    downloads, at least one: stage 6 has been entered exactly when no worker
    is running any more, and it is entered at most once; at that point the
    queue is empty, every download has been started and counted, and the
    page shown is stage 6. *)
Theorem stage6_when_last_worker_finished (c : Z) (items : list ProcessedItem)
    (download_urls : list download) (events : list (nat * string)) (disk : Disk) :
  1 <= c ->
  len items = len download_urls ->
  1 <= len download_urls ->
  (threadpool (snd (session c items download_urls events (init disk))) = []
   <-> timers (snd (session c items download_urls events (init disk)))
       = [(2000, Go_to_stage7)])
  /\ (timers (snd (session c items download_urls events (init disk))) = []
      \/ timers (snd (session c items download_urls events (init disk)))
         = [(2000, Go_to_stage7)])
  /\ (threadpool (snd (session c items download_urls events (init disk))) = [] ->
      download_queue (snd (session c items download_urls events (init disk))) = []
      /\ map DownloadWorker.task
           (active_downloads (snd (session c items download_urls events (init disk))))
         = download_urls
      /\ completed_downloads (snd (session c items download_urls events (init disk)))
         = len download_urls
      /\ current_index (snd (session c items download_urls events (init disk))) = 5).
Proof.
  intros Hc Hsame Hsome.
  destruct (session_invariants c items download_urls events disk)
    as (_ & (_ & _ & _ & Htasks & Hpos & Hcount & Hbusy & Htimers & Hindex) & Hbars & Hsel).
  set (self := snd (session c items download_urls events (init disk))) in *.
  rewrite Hsel, Hsame in Htimers.
  assert (Hactive : len (active_downloads self) + len (download_queue self)
                    = len download_urls).
  { rewrite <- Htasks. unfold len. rewrite length_app, length_map. lia. }
  assert (Hdrained : threadpool self = [] -> download_queue self = []).
  { intros Hpool. destruct (download_queue self) as [|d q] eqn:Hq; [reflexivity |].
    assert (Hne : d :: q <> []) by discriminate.
    specialize (Hbusy Hne). rewrite Hpool, Hbars in Hbusy. cbn in Hbusy. lia. }
  assert (Hfired : threadpool self = [] <-> timers self = [(2000, Go_to_stage7)]).
  { rewrite Htimers. split.
    - intros Hpool. pose proof (Hdrained Hpool) as Hq.
      rewrite Hpool in Hcount. rewrite Hq in Hactive. unfold len in *. cbn in *.
      destruct (Z.leb_spec 1 (Z.of_nat (List.length download_urls)));
        destruct (Z.leb_spec (Z.of_nat (List.length download_urls))
                    (completed_downloads self)); cbn; try lia; reflexivity.
    - destruct (Z.leb_spec 1 (len download_urls));
        destruct (Z.leb_spec (len download_urls) (completed_downloads self));
        cbn; try discriminate.
      intros _. assert (Hzero : len (threadpool self) = 0).
      { assert (0 <= len (download_queue self)) by (unfold len; lia).
        assert (0 <= len (threadpool self)) by (unfold len; lia). lia. }
      unfold len in Hzero. destruct (threadpool self); [reflexivity | cbn in Hzero; lia]. }
  split; [exact Hfired |]. split.
  - rewrite Htimers. destruct ((1 <=? len download_urls)
                               && (len download_urls <=? completed_downloads self));
      [now right | now left].
  - intros Hpool. pose proof (Hdrained Hpool) as Hq. rewrite Hq, app_nil_r in Htasks.
    repeat split.
    + exact Hq.
    + exact Htasks.
    + rewrite Hpool in Hcount. rewrite Hq in Hactive. unfold len in *. cbn in *. lia.
    + apply Hindex. rewrite (proj1 Hfired Hpool). discriminate.
Qed.

Lemma stage6_when_last_worker_finished_witness :
  (1 <= 3 /\ len five_items = len five_downloads /\ 1 <= len five_downloads)
  /\ (threadpool
        (snd (session 3 five_items five_downloads
                [(0%nat, "a"); (0%nat, "b"); (0%nat, "c"); (0%nat, "d"); (0%nat, "e")]
                (init []))) = []
      <-> timers
            (snd (session 3 five_items five_downloads
                    [(0%nat, "a"); (0%nat, "b"); (0%nat, "c"); (0%nat, "d"); (0%nat, "e")]
                    (init []))) = [(2000, Go_to_stage7)]).
Proof.
  assert (H1 : 1 <= 3) by lia.
  assert (H2 : len five_items = len five_downloads) by reflexivity.
  assert (H3 : 1 <= len five_downloads) by (vm_compute; discriminate).
  split; [repeat split; assumption |].
  exact (proj1 (stage6_when_last_worker_finished 3 five_items five_downloads
                  [(0%nat, "a"); (0%nat, "b"); (0%nat, "c"); (0%nat, "d"); (0%nat, "e")]
                  [] H1 H2 H3)).
Defined.

End SessionInvariants.

(** * Further properties of the worker *)

Section WorkerMore.

Variable py_repr : json -> string.
Variable py_int : string -> option Z.

Lemma bind_disk_elsewhere {A B : Type} (p : string) (m : M World A) (k : A -> M World B) :
  (forall w path, path <> p -> dict_lookup path (disk (snd (m w))) = dict_lookup path (disk w)) ->
  (forall a w path, path <> p ->
     dict_lookup path (disk (snd (k a w))) = dict_lookup path (disk w)) ->
  forall w path, path <> p ->
    dict_lookup path (disk (snd (bind m k w))) = dict_lookup path (disk w).
Proof.
  intros Hm Hk w path Hne. unfold bind. specialize (Hm w path Hne).
  destruct (m w) as [[a | e] w1]; cbn [snd] in *; [| exact Hm].
  rewrite Hk by exact Hne. exact Hm.
Qed.

Lemma file_write_disk env data w : disk (snd (file_write env data w)) = disk w.
Proof. rewrite file_write_eq. reflexivity. Qed.

Lemma stream_disk env self total_mb pieces stream_error dl w :
  disk (snd (stream env self total_mb pieces stream_error dl w)) = disk w.
Proof.
  destruct (stream_trace env self total_mb pieces stream_error dl w)
    as (n & m & _ & _ & -> & _).
  reflexivity.
Qed.

Lemma with_open_wb_elsewhere env p body :
  (forall w, disk (snd (body w)) = disk w) ->
  forall w path, path <> p ->
    dict_lookup path (disk (snd (with_open_wb env p body w))) = dict_lookup path (disk w).
Proof.
  intros Hbody w path Hne. rewrite with_open_wb_eq.
  destruct (open_error env); [reflexivity |].
  cbn [snd closed disk]. rewrite dict_lookup_set_other by congruence.
  rewrite Hbody. cbn [opened disk]. apply dict_lookup_set_other. congruence.
Qed.

Lemma run_body_elsewhere env self w path :
  path <> DownloadWorker.file_path self ->
  dict_lookup path (disk (snd (run_body py_repr py_int env self w)))
  = dict_lookup path (disk w).
Proof.
  revert w path. unfold run_body.
  apply bind_disk_elsewhere.
  - intros w path _. unfold requests_get.
    destruct (http_get env (DownloadWorker.url self)); reflexivity.
  - intros response. apply bind_disk_elsewhere; [| intros [] w path _; reflexivity].
    destruct (requests.content_length response) as [header |].
    + apply bind_disk_elsewhere; [intros w path _; reflexivity | intros total].
      apply bind_disk_elsewhere; [intros w path _; reflexivity | intros total_mb].
      apply with_open_wb_elsewhere. intros w. apply stream_disk.
    + apply bind_disk_elsewhere; [intros w path _; reflexivity | intros content].
      apply bind_disk_elsewhere; [intros w path _; reflexivity | intros dl].
      apply bind_disk_elsewhere.
      * apply with_open_wb_elsewhere. intros w. apply file_write_disk.
      * intros [] w path _. unfold emit_progress.
        destruct (is_str (DownloadWorker.file_name self)); reflexivity.
Qed.

(** X6.  [run] creates, empties or extends no file but its own destination:
    every other path holds after the run what it held before, whether the
    download succeeds or fails. *)
Theorem run_touches_only_its_destination (env : Environment) (self : DownloadWorker.t)
    (w : World) (path : string) :
  path <> DownloadWorker.file_path self ->
  dict_lookup path (disk (snd (run py_repr py_int env self w)))
  = dict_lookup path (disk w).
Proof.
  intros Hne. rewrite run_eq.
  pose proof (run_body_elsewhere env self w path Hne) as Hbody.
  destruct (run_body py_repr py_int env self w) as [[a | [c d | c d]] w']; exact Hbody.
Qed.

(** X7.  When the request fails, the content-length header is not an
    integer or is beyond the floats once divided by 1024 * 1024, the body
    cannot be read at once, or the destination cannot be opened, [run]
    leaves the disk exactly as it was (an earlier copy of the destination
    included), emits no progress signal, and emits the one result "Error
    downloading <name>: <error text>". *)
Theorem failure_before_first_write (env : Environment) (self : DownloadWorker.t)
    (w : World) (detail : string) :
  early_failure py_repr py_int env self = Some detail ->
  run py_repr py_int env self w
  = (Ok tt,
     {| emitted :=
          emitted w
          ++ [Result ("Error downloading "
                      +s+ py_format py_repr (DownloadWorker.file_name self)
                      +s+ ": " +s+ detail)];
        disk := disk w;
        writes := writes w;
        handed := handed w |}).
Proof.
  intros Hearly. rewrite run_eq.
  destruct (early_failure_eq py_repr py_int env self w detail Hearly) as (cls & ->).
  reflexivity.
Qed.

(** The world a streamed download leaves, from the one its loop leaves. *)
Lemma run_streamed_world env self w response header total total_mb :
  http_get env (DownloadWorker.url self) = inr response ->
  requests.content_length response = Some header ->
  py_int header = Some total ->
  to_megabytes total = Ok total_mb ->
  open_error env = None ->
  let after :=
    stream env self total_mb (requests.chunks response) (requests.stream_error response) 0
      (opened (DownloadWorker.file_path self) w) in
  snd (run py_repr py_int env self w)
  = {| emitted :=
         emitted (snd after)
         ++ [Result (result_message py_repr py_int env self (writes w))];
       disk :=
         dict_set (DownloadWorker.file_path self) (on_disk env (writes w) (snd after))
           (disk (snd after));
       writes := writes (snd after);
       handed := handed (snd after) |}.
Proof.
  intros Hget Hheader Hint Hmb Hopen after.
  pose proof (run_body_outcome py_repr py_int env self w) as Hout.
  rewrite run_eq. unfold result_message.
  rewrite (run_body_streamed py_repr py_int env self w response header total total_mb)
    in * by assumption.
  cbn zeta in *. fold after in Hout |- *.
  destruct (after_close_result env (fst after)) as [[] | [c d | c d]];
    cbn [fst snd] in *.
  - destruct (run_failure py_repr py_int env self (writes w)) as [detail |].
    + destruct Hout as (cls & Hout). discriminate.
    + reflexivity.
  - destruct (run_failure py_repr py_int env self (writes w)) as [detail |];
      [| discriminate].
    destruct Hout as (cls & Hout). inversion Hout; subst. reflexivity.
  - destruct (run_failure py_repr py_int env self (writes w)) as [detail |];
      [destruct Hout as (cls & Hout) |]; discriminate.
Qed.

Lemma run_failure_streamed env self k response header total total_mb :
  http_get env (DownloadWorker.url self) = inr response ->
  requests.content_length response = Some header ->
  py_int header = Some total ->
  to_megabytes total = Ok total_mb ->
  open_error env = None ->
  run_failure py_repr py_int env self k
  = after_close env
      (stream_failure env (DownloadWorker.file_name self) (requests.chunks response)
         (requests.stream_error response) k 0).
Proof.
  intros Hget Hheader Hint Hmb Hopen.
  unfold run_failure, early_failure, int. rewrite Hget, Hheader, Hint, Hmb, Hopen.
  reflexivity.
Qed.

(** X8.  A download with a content-length header that reaches its file emits
    one progress signal per piece counted, in order, each carrying the
    number of bytes handed to the file so far (in MB) and the declared
    total, and then the result that tells what failed, if anything did.  At
    most one piece handed to the file is not reported.  The file holds a
    prefix of the pieces handed over: all of them when no write and no
    closing raise, and the whole body when nothing fails. *)
Theorem streamed_progress_per_piece_handed (env : Environment) (self : DownloadWorker.t)
    (w : World) (response : requests.Response) (header : string) (total : Z)
    (total_mb : float) :
  http_get env (DownloadWorker.url self) = inr response ->
  requests.content_length response = Some header ->
  py_int header = Some total ->
  to_megabytes total = Ok total_mb ->
  open_error env = None ->
  exists n m,
    (n <= m <= List.length (requests.chunks response))%nat
    /\ (m <= S n)%nat
    /\ emitted (snd (run py_repr py_int env self w))
       = emitted w
         ++ streamed_progress self total_mb (requests.chunks response) n
         ++ [Result
               match run_failure py_repr py_int env self (writes w) with
               | None =>
                   "Finished downloading "
                   +s+ py_format py_repr (DownloadWorker.file_name self)
               | Some detail =>
                   "Error downloading "
                   +s+ py_format py_repr (DownloadWorker.file_name self)
                   +s+ ": " +s+ detail
               end]
    /\ handed (snd (run py_repr py_int env self w))
       = List.concat (firstn m (requests.chunks response))
    /\ (exists b,
          dict_lookup (DownloadWorker.file_path self)
            (disk (snd (run py_repr py_int env self w)))
          = Some (firstn b (List.concat (firstn m (requests.chunks response)))))
    /\ (write_error env = None -> close_error env = None ->
        dict_lookup (DownloadWorker.file_path self)
          (disk (snd (run py_repr py_int env self w)))
        = Some (List.concat (firstn m (requests.chunks response))))
    /\ (run_failure py_repr py_int env self (writes w) = None ->
        n = List.length (requests.chunks response)
        /\ dict_lookup (DownloadWorker.file_path self)
             (disk (snd (run py_repr py_int env self w)))
           = Some (List.concat (requests.chunks response))).
Proof.
  intros Hget Hheader Hint Hmb Hopen.
  rewrite (run_streamed_world env self w response header total total_mb) by assumption.
  rewrite (run_failure_streamed env self (writes w) response header total total_mb)
    by assumption.
  unfold result_message.
  rewrite (run_failure_streamed env self (writes w) response header total total_mb)
    by assumption.
  cbn zeta.
  match goal with
  | |- context [stream ?e ?s ?t ?p ?se ?d ?w1] =>
      destruct (stream_trace e s t p se d w1) as (n & m & Hnm & Hm & Hsnd & Hfst);
        set (after := stream e s t p se d w1) in *
  end.
  cbn [opened emitted disk writes handed app] in Hsnd, Hfst.
  exists n, m. cbn [emitted disk handed]. rewrite dict_lookup_set_same.
  split; [exact Hnm |]. split; [exact Hm |]. split; [| split; [| split; [| split]]].
  - rewrite Hsnd. cbn [emitted]. unfold streamed_progress. rewrite <- app_assoc.
    reflexivity.
  - rewrite Hsnd. reflexivity.
  - destruct (on_disk_prefix env (writes w) (snd after)) as (b & ->).
    exists b. rewrite Hsnd. reflexivity.
  - intros Hwrite Hclose. unfold on_disk, write_raised. rewrite Hwrite, Hclose, Hsnd.
    reflexivity.
  - unfold after_close. intros Hnone.
    destruct (close_error env) as [detail |] eqn:Hclose; [discriminate |].
    rewrite Hnone in Hfst. destruct Hfst as (_ & Hn & ->). split; [exact Hn |].
    rewrite firstn_all in Hsnd.
    unfold on_disk. rewrite Hclose, write_raised_false.
    + rewrite Hsnd. reflexivity.
    + rewrite Hsnd. cbn [writes]. intros j Hj.
      apply (stream_failure_writes _ _ _ _ _ _ Hnone). lia.
Qed.

(** X9.  The declared length is never compared with what arrives.  When a
    download has a content-length header that is an integer within the
    floats once divided, whatever its value, and neither the file nor the
    loop over the pieces fails, [run] reports it as finished, the file
    holds the whole body received, and there is one progress signal per
    piece. *)
Theorem declared_length_is_not_checked (env : Environment) (self : DownloadWorker.t)
    (w : World) (response : requests.Response) (header : string) (total : Z)
    (total_mb : float) :
  http_get env (DownloadWorker.url self) = inr response ->
  requests.content_length response = Some header ->
  py_int header = Some total ->
  to_megabytes total = Ok total_mb ->
  open_error env = None ->
  close_error env = None ->
  stream_failure env (DownloadWorker.file_name self) (requests.chunks response)
    (requests.stream_error response) (writes w) 0 = None ->
  fst (run py_repr py_int env self w) = Ok tt
  /\ emitted (snd (run py_repr py_int env self w))
     = emitted w
       ++ streamed_progress self total_mb (requests.chunks response)
            (List.length (requests.chunks response))
       ++ [Result ("Finished downloading "
                   +s+ py_format py_repr (DownloadWorker.file_name self))]
  /\ dict_lookup (DownloadWorker.file_path self)
       (disk (snd (run py_repr py_int env self w)))
     = Some (List.concat (requests.chunks response)).
Proof.
  intros Hget Hheader Hint Hmb Hopen Hclose Hnone.
  split; [apply run_emits_result |].
  rewrite (run_streamed_world env self w response header total total_mb) by assumption.
  unfold result_message.
  rewrite (run_failure_streamed env self (writes w) response header total total_mb)
    by assumption.
  unfold after_close. rewrite Hclose, Hnone. cbn zeta.
  match goal with
  | |- context [stream ?e ?s ?t ?p ?se ?d ?w1] =>
      destruct (stream_trace e s t p se d w1) as (n & m & Hnm & Hm & Hsnd & Hfst);
        set (after := stream e s t p se d w1) in *
  end.
  cbn [opened emitted disk writes handed app] in Hsnd, Hfst.
  rewrite Hnone in Hfst. destruct Hfst as (_ & -> & ->).
  rewrite firstn_all in Hsnd.
  cbn [emitted disk]. rewrite dict_lookup_set_same. split.
  - rewrite Hsnd. cbn [emitted]. unfold streamed_progress. rewrite <- app_assoc.
    reflexivity.
  - unfold on_disk. rewrite Hclose, write_raised_false.
    + rewrite Hsnd. reflexivity.
    + rewrite Hsnd. cbn [writes]. intros j Hj.
      apply (stream_failure_writes _ _ _ _ _ _ Hnone). lia.
Qed.

(** X10.  Without a content-length header [run] emits at most one progress
    signal, after the whole body is in the file and with the downloaded
    amount equal to the total; when anything fails it emits none. *)
Theorem unknown_length_one_progress (env : Environment) (self : DownloadWorker.t)
    (w : World) (response : requests.Response) :
  http_get env (DownloadWorker.url self) = inr response ->
  requests.content_length response = None ->
  (fst (run_body py_repr py_int env self w) = Ok tt
   /\ emitted (snd (run py_repr py_int env self w))
      = emitted w
        ++ [Progress (megabytes (len (List.concat (requests.chunks response))))
              (megabytes (len (List.concat (requests.chunks response))))
              (DownloadWorker.file_name self) (DownloadWorker.progress_bar self);
            Result ("Finished downloading "
                    +s+ py_format py_repr (DownloadWorker.file_name self))]
   /\ dict_lookup (DownloadWorker.file_path self)
        (disk (snd (run py_repr py_int env self w)))
      = Some (List.concat (requests.chunks response)))
  \/ (exists detail,
        emitted (snd (run py_repr py_int env self w))
        = emitted w
          ++ [Result ("Error downloading "
                      +s+ py_format py_repr (DownloadWorker.file_name self)
                      +s+ ": " +s+ detail)]).
Proof.
  intros Hget Hheader.
  destruct (early_failure py_repr py_int env self) as [d |] eqn:Hearly.
  { right. exists d. rewrite run_eq.
    destruct (early_failure_eq py_repr py_int env self w d Hearly) as (cls & ->).
    reflexivity. }
  destruct (early_failure_none py_repr py_int env self response Hget Hearly)
    as (Hopen & Hhead).
  rewrite Hheader in Hhead. destruct Hhead as (Hstream & dl & Hmb).
  rewrite run_eq, (run_body_whole py_repr py_int env self w response dl) by assumption.
  cbn zeta. unfold after_close.
  destruct (close_error env) as [d |] eqn:Hclose.
  { right. exists d. reflexivity. }
  destruct (write_fails env (writes w)) as [d |] eqn:Hwrite.
  { right. exists d. reflexivity. }
  destruct (is_str (DownloadWorker.file_name self)).
  - left. cbn [fst snd emitted disk closed]. rewrite dict_lookup_set_same.
    rewrite (to_megabytes_megabytes _ _ Hmb).
    split; [reflexivity |]. split; [reflexivity |].
    unfold on_disk. rewrite Hclose, write_raised_false; [reflexivity |].
    cbn [writes]. intros j Hj. replace j with (writes w) by lia. exact Hwrite.
  - right. eexists. reflexivity.
Qed.

End WorkerMore.

Lemma run_touches_only_its_destination_witness :
  "main.py" <> DownloadWorker.file_path sample_worker
  /\ dict_lookup "main.py"
       (disk (snd (run sample_repr sample_int disk_full sample_worker
                     (fresh_world [("main.py", piece Byte.x23)]))))
     = dict_lookup "main.py" (disk (fresh_world [("main.py", piece Byte.x23)])).
Proof.
  assert (H : "main.py" <> DownloadWorker.file_path sample_worker) by discriminate.
  split; [exact H |].
  exact (run_touches_only_its_destination sample_repr sample_int disk_full sample_worker
           (fresh_world [("main.py", piece Byte.x23)]) "main.py" H).
Defined.

Lemma failure_before_first_write_witness :
  early_failure sample_repr sample_int huge_header sample_worker
  = Some "integer division result too large for a float"
  /\ run sample_repr sample_int huge_header sample_worker
       (fresh_world [("cache/Movies/A.mp4", piece Byte.x61)])
     = (Ok tt,
        {| emitted :=
             [Result
                "Error downloading A: integer division result too large for a float"];
           disk := [("cache/Movies/A.mp4", piece Byte.x61)];
           writes := 0;
           handed := [] |}).
Proof.
  assert (H : early_failure sample_repr sample_int huge_header sample_worker
              = Some "integer division result too large for a float")
    by (vm_compute; reflexivity).
  split; [exact H |].
  exact (failure_before_first_write sample_repr sample_int huge_header sample_worker
           (fresh_world [("cache/Movies/A.mp4", piece Byte.x61)])
           "integer division result too large for a float" H).
Defined.

(** The request itself fails: the same, with the text of the connection
    error. *)
Lemma unreachable_run :
  run sample_repr sample_int unreachable sample_worker
    (fresh_world [("cache/Movies/A.mp4", piece Byte.x61)])
  = (Ok tt,
     {| emitted := [Result "Error downloading A: Connection refused"];
        disk := [("cache/Movies/A.mp4", piece Byte.x61)];
        writes := 0;
        handed := [] |}).
Proof. vm_compute. reflexivity. Qed.

Lemma streamed_progress_per_piece_handed_witness :
  (http_get full_at_close (DownloadWorker.url sample_worker)
   = inr (sample_response 200 (Some "12")
            [piece Byte.x61; piece Byte.x62; piece Byte.x63])
   /\ sample_int "12" = Some 12
   /\ to_megabytes 12 = Ok (megabytes 12)
   /\ open_error full_at_close = None)
  /\ exists n m,
       (n <= m)%nat
       /\ emitted (snd (run sample_repr sample_int full_at_close sample_worker
                          (fresh_world [])))
          = emitted (fresh_world [])
            ++ streamed_progress sample_worker (megabytes 12)
                 [piece Byte.x61; piece Byte.x62; piece Byte.x63] n
            ++ [Result "Error downloading A: No space left on device"]
       /\ exists b,
            dict_lookup (DownloadWorker.file_path sample_worker)
              (disk (snd (run sample_repr sample_int full_at_close sample_worker
                            (fresh_world []))))
            = Some (firstn b
                      (List.concat
                         (firstn m [piece Byte.x61; piece Byte.x62; piece Byte.x63]))).
Proof.
  assert (Hget : http_get full_at_close (DownloadWorker.url sample_worker)
                 = inr (sample_response 200 (Some "12")
                          [piece Byte.x61; piece Byte.x62; piece Byte.x63]))
    by reflexivity.
  assert (Hint : sample_int "12" = Some 12) by reflexivity.
  assert (Hmb : to_megabytes 12 = Ok (megabytes 12)) by (vm_compute; reflexivity).
  assert (Hopen : open_error full_at_close = None) by reflexivity.
  split; [repeat split; assumption |].
  destruct (streamed_progress_per_piece_handed sample_repr sample_int full_at_close
              sample_worker (fresh_world []) _ "12" 12 (megabytes 12)
              Hget eq_refl Hint Hmb Hopen)
    as (n & m & Hnm & _ & Hemit & _ & Hfile & _).
  exists n, m. split; [apply Hnm |]. split; [exact Hemit | exact Hfile].
Defined.

(** That run, evaluated: the three pieces are reported, the closing fails,
    the error is the result, and four of the twelve bytes are on the disk. *)
Lemma full_at_close_run :
  run sample_repr sample_int full_at_close sample_worker (fresh_world [])
  = (Ok tt,
     {| emitted :=
          [Progress (megabytes 4) (megabytes 12) (JStr "A") 0;
           Progress (megabytes 8) (megabytes 12) (JStr "A") 0;
           Progress (megabytes 12) (megabytes 12) (JStr "A") 0;
           Result "Error downloading A: No space left on device"];
        disk := [("cache/Movies/A.mp4", piece Byte.x61)];
        writes := 3;
        handed := piece Byte.x61 ++ piece Byte.x62 ++ piece Byte.x63 |}).
Proof. vm_compute. reflexivity. Qed.

(** A file name that is not a [str]: the first progress signal is refused,
    and the run ends with that error, the piece handed over in the file. *)
Lemma numbered_worker_run :
  run sample_repr sample_int compressed numbered_worker (fresh_world [])
  = (Ok tt,
     {| emitted :=
          [Result
             ("Error downloading 7: "
              +s+ "WorkerSignals.progress[float, float, str, QProgressBar].emit(): "
              +s+ "argument 3 has unexpected type 'int'")];
        disk := [("cache/Movies/7.mp4", piece Byte.x61 ++ piece Byte.x62 ++ piece Byte.x63)];
        writes := 1;
        handed := piece Byte.x61 ++ piece Byte.x62 ++ piece Byte.x63 |}).
Proof. vm_compute. reflexivity. Qed.

Lemma declared_length_is_not_checked_witness :
  (http_get compressed (DownloadWorker.url sample_worker)
   = inr (sample_response 200 (Some "8")
            [piece Byte.x61 ++ piece Byte.x62 ++ piece Byte.x63])
   /\ sample_int "8" = Some 8
   /\ to_megabytes 8 = Ok (megabytes 8)
   /\ stream_failure compressed (DownloadWorker.file_name sample_worker)
        [piece Byte.x61 ++ piece Byte.x62 ++ piece Byte.x63] None 0 0 = None
   /\ len (List.concat [piece Byte.x61 ++ piece Byte.x62 ++ piece Byte.x63]) = 12)
  /\ fst (run sample_repr sample_int compressed sample_worker (fresh_world [])) = Ok tt
  /\ dict_lookup (DownloadWorker.file_path sample_worker)
       (disk (snd (run sample_repr sample_int compressed sample_worker (fresh_world []))))
     = Some (List.concat [piece Byte.x61 ++ piece Byte.x62 ++ piece Byte.x63]).
Proof.
  assert (Hget : http_get compressed (DownloadWorker.url sample_worker)
                 = inr (sample_response 200 (Some "8")
                          [piece Byte.x61 ++ piece Byte.x62 ++ piece Byte.x63]))
    by reflexivity.
  assert (Hint : sample_int "8" = Some 8) by reflexivity.
  assert (Hmb : to_megabytes 8 = Ok (megabytes 8)) by (vm_compute; reflexivity).
  assert (Hnone : stream_failure compressed (DownloadWorker.file_name sample_worker)
                    [piece Byte.x61 ++ piece Byte.x62 ++ piece Byte.x63] None 0 0 = None)
    by (vm_compute; reflexivity).
  split; [repeat split; assumption |].
  destruct (declared_length_is_not_checked sample_repr sample_int compressed sample_worker
              (fresh_world []) _ "8" 8 (megabytes 8)
              Hget eq_refl Hint Hmb eq_refl eq_refl Hnone)
    as (Hok & _ & Hfile).
  split; [exact Hok | exact Hfile].
Defined.

Lemma unknown_length_one_progress_witness :
  http_get not_found (DownloadWorker.url sample_worker)
  = inr (sample_response 404 None [piece Byte.x34; piece Byte.x30])
  /\ (List.length
        (emitted (snd (run sample_repr sample_int not_found sample_worker (fresh_world []))))
      <= 2)%nat.
Proof.
  assert (Hget : http_get not_found (DownloadWorker.url sample_worker)
                 = inr (sample_response 404 None [piece Byte.x34; piece Byte.x30]))
    by reflexivity.
  split; [exact Hget |].
  destruct (unknown_length_one_progress sample_repr sample_int not_found sample_worker
              (fresh_world []) _ Hget eq_refl) as [(_ & Hemit & _) | (detail & Hemit)];
    rewrite Hemit; cbn; lia.
Defined.

(** * Further properties of the catalog *)

Section CatalogMore.

Variable py_repr : json -> string.

(** X11.  On status 200 and a catalog that is a dict whose keys and file
    types are ASCII text: for a key that no later key equals once
    capitalized, the mapping returned holds under the capitalized key one
    item per entry of that key's list, in the order of the list, each built
    from the entry at the same position.  Lists of earlier keys with the
    same capitalized form are replaced. *)
Theorem fetch_data_keeps_catalog_order (response : requests.Response) (out : list string)
    (before after : dict json) (key : string) (entries : list json)
    (processed_data : dict (list ProcessedItem)) :
  requests.status_code response = 200 ->
  requests.json_value response = Ok (JDict (before ++ (key, JList entries) :: after)) ->
  ascii_catalog (JDict (before ++ (key, JList entries) :: after)) ->
  ~ In key (map fst before) ->
  (forall later, In later (map fst after) -> capitalize later <> capitalize key) ->
  fst (fetch_data py_repr (inr response) out) = Ok processed_data ->
  exists items,
    dict_lookup (capitalize key) processed_data = Some items
    /\ Forall2 (built_from py_repr (capitalize key)) entries items.
Proof.
  intros Hcode Hjson _ Hfresh Hlater Hrun.
  exact (fetch_data_at_key py_repr response out before after key entries processed_data
           Hcode Hjson Hfresh Hlater Hrun).
Qed.

(** X12.  On status 200 and a catalog that is a dict whose values are lists
    of dicts whose file types are strings (or absent), keys and file types
    being ASCII text, [fetch_data] raises nothing and prints nothing, and
    the mapping it returns has a category for every key of the catalog. *)
Theorem fetch_data_succeeds_on_well_formed_catalog (response : requests.Response)
    (out : list string) (d : dict json) :
  requests.status_code response = 200 ->
  requests.json_value response = Ok (JDict d) ->
  ascii_catalog (JDict d) ->
  well_formed_catalog d ->
  exists processed_data,
    fetch_data py_repr (inr response) out = (Ok processed_data, out)
    /\ forall key, In key (map fst d) ->
         dict_lookup (capitalize key) processed_data <> None.
Proof.
  intros Hcode Hjson _ Hwf.
  exact (fetch_data_total py_repr response out d Hcode Hjson Hwf).
Qed.

End CatalogMore.

Lemma fetch_data_keeps_catalog_order_witness :
  (requests.status_code (catalog_response 200) = 200
   /\ ascii_catalog sample_catalog
   /\ ~ In "movies" (map fst (@nil (string * json)))
   /\ (forall later,
         In later (map fst [("mUSIC",
                             JList [JDict [("title", JStr "D"); ("filetype", JStr "mp3");
                                           ("size_gb", JInt 1); ("url", JStr "d.mp3")]])]) ->
         capitalize later <> capitalize "movies"))
  /\ exists items processed_data,
       fst (fetch_data sample_repr (inr (catalog_response 200)) []) = Ok processed_data
       /\ dict_lookup "Movies" processed_data = Some items
       /\ map item_title items = [JStr "A"; JStr "B"]
       /\ map item_filetype items = ["MP4"; ""].
Proof.
  assert (Hcode : requests.status_code (catalog_response 200) = 200) by reflexivity.
  assert (Hfresh : ~ In "movies" (map fst (@nil (string * json)))) by (intros []).
  assert (Hlater : forall later,
             In later (map fst [("mUSIC",
                                 JList [JDict [("title", JStr "D"); ("filetype", JStr "mp3");
                                               ("size_gb", JInt 1); ("url", JStr "d.mp3")]])]) ->
             capitalize later <> capitalize "movies").
  { intros later [<- | []]. cbn. discriminate. }
  split; [split; [exact Hcode | split; [exact sample_catalog_ascii | split; assumption]] |].
  destruct (fetch_data_keeps_catalog_order sample_repr (catalog_response 200) [] [] _
              "movies" _ _ Hcode eq_refl sample_catalog_ascii Hfresh Hlater eq_refl)
    as (items & Hlookup & Hall).
  exists items. eexists. split; [reflexivity |]. split; [exact Hlookup |].
  cbn in Hlookup. inversion Hlookup. split; reflexivity.
Defined.

Lemma fetch_data_succeeds_on_well_formed_catalog_witness :
  (requests.status_code (catalog_response 200) = 200
   /\ ascii_catalog sample_catalog
   /\ match sample_catalog with
      | JDict d => NoDup (map fst d) /\ well_formed_catalog d
      | _ => False
      end)
  /\ exists processed_data,
       fetch_data sample_repr (inr (catalog_response 200)) [] = (Ok processed_data, []).
Proof.
  assert (Hcode : requests.status_code (catalog_response 200) = 200) by reflexivity.
  split; [split; [exact Hcode |
                  split; [exact sample_catalog_ascii | exact sample_catalog_well_formed]] |].
  destruct (fetch_data_succeeds_on_well_formed_catalog sample_repr (catalog_response 200) []
              _ Hcode eq_refl sample_catalog_ascii (proj2 sample_catalog_well_formed))
    as (processed_data & Hrun & _).
  exists processed_data. exact Hrun.
Defined.

(** * Properties of the drive scan *)

Section Drives.

Variable format_2f : float -> string.

Lemma land_bit (a : Z) (n : nat) :
  (Z.land a (Z.shiftl 1 (Z.of_nat n)) =? 0) = negb (Z.testbit a (Z.of_nat n)).
Proof.
  destruct (Z.testbit a (Z.of_nat n)) eqn:Hbit; cbn.
  - apply Z.eqb_neq. intros Hzero.
    assert (Hb : Z.testbit (Z.land a (Z.shiftl 1 (Z.of_nat n))) (Z.of_nat n) = true).
    { rewrite Z.land_spec, Hbit, Z.shiftl_spec by lia.
      rewrite Z.sub_diag. reflexivity. }
    rewrite Hzero, Z.bits_0 in Hb. discriminate.
  - apply Z.eqb_eq. apply Z.bits_inj'. intros k Hk.
    rewrite Z.land_spec, Z.bits_0, Z.shiftl_spec by lia.
    destruct (Z.eq_dec k (Z.of_nat n)) as [-> | Hne].
    + rewrite Hbit. reflexivity.
    + destruct (Z.ltb_spec k (Z.of_nat n)).
      * rewrite (Z.testbit_neg_r 1) by lia. apply andb_false_r.
      * replace (k - Z.of_nat n) with (Z.succ (k - Z.of_nat n - 1)) by lia.
        assert (Hone : Z.testbit 1 (Z.succ (k - Z.of_nat n - 1)) = false).
        { apply Z.bits_above_log2; cbn; lia. }
        rewrite Hone. apply andb_false_r.
Qed.

Lemma last_char_append (a b : string) (c : ascii) :
  last_char b = Some c -> last_char (a +s+ b) = Some c.
Proof.
  intros Hb. induction a as [|x a IH]; cbn; [exact Hb |].
  destruct (a +s+ b) eqn:Hab; [| exact IH].
  cbn in IH. discriminate.
Qed.

Lemma drive_label_is_no_placeholder (usb_name drive : string) (free_gb total_gb : float) :
  drive_label format_2f usb_name drive free_gb total_gb <> no_usb_devices_found.
Proof.
  intros Heq.
  assert (Hlast : last_char (drive_label format_2f usb_name drive free_gb total_gb)
                  = Some "l"%char).
  { unfold drive_label. repeat apply last_char_append. reflexivity. }
  rewrite Heq in Hlast. discriminate.
Qed.

Lemma drive_path_injective (a b : nat) :
  (a < 26)%nat -> (b < 26)%nat -> drive_path a = drive_path b -> a = b.
Proof.
  intros Ha Hb Heq. unfold drive_path in Heq. inversion Heq as [Hascii].
  apply (f_equal nat_of_ascii) in Hascii.
  rewrite !nat_ascii_embedding in Hascii by lia. lia.
Qed.

(** One turn of the loop: nothing is raised; the drive is appended exactly
    when it is [listed], with a label that is not the placeholder. *)
Lemma scan_drive_spec (host : win32.Host) (drive_letter : nat) (s : Scan) :
  exists s',
    scan_drive format_2f host drive_letter s = (Ok tt, s')
    /\ exists added,
         drives_info s' = drives_info s ++ added
         /\ map device_drive added
            = (if listed host drive_letter then [drive_path drive_letter] else [])
         /\ Forall (fun d => device_label d <> no_usb_devices_found) added.
Proof.
  unfold scan_drive, listed. rewrite land_bit.
  destruct (Z.testbit (win32.GetLogicalDrives host) (Z.of_nat drive_letter)); cbn [negb andb].
  2: { eexists. split; [reflexivity |]. exists []. rewrite app_nil_r. repeat split. constructor. }
  destruct (win32.GetDriveType host (drive_path drive_letter) =? win32.DRIVE_REMOVABLE);
    cbn [andb].
  2: { eexists. split; [reflexivity |]. exists []. rewrite app_nil_r. repeat split. constructor. }
  unfold try_except_Exception, inspect_drive, bind, lift_result, raise, ret, modify.
  destruct (win32.GetVolumeInformation host (drive_path drive_letter)) as [detail | name].
  { eexists. split; [reflexivity |]. exists []. cbn. rewrite app_nil_r.
    repeat split. constructor. }
  destruct (win32.disk_usage host (drive_path drive_letter)) as [detail | [[total used] free]].
  { eexists. split; [reflexivity |]. exists []. cbn. rewrite app_nil_r.
    repeat split. constructor. }
  unfold truediv_pow2.
  destruct (SpecFloat.binary_normalize FloatOps.prec FloatOps.emax total (- (30)) false);
    destruct (SpecFloat.binary_normalize FloatOps.prec FloatOps.emax free (- (30)) false);
    (eexists; split; [reflexivity |]);
    cbn [drives_info];
    first [ exists []; rewrite app_nil_r; repeat split; constructor
          | eexists; split; [reflexivity |]; split; [reflexivity |];
            repeat constructor; apply drive_label_is_no_placeholder ].
Qed.

Lemma scan_loop_spec (host : win32.Host) (n a : nat) (s : Scan) :
  exists s',
    for_each (seq a n) (scan_drive format_2f host) s = (Ok tt, s')
    /\ exists added,
         drives_info s' = drives_info s ++ added
         /\ map device_drive added = map drive_path (filter (listed host) (seq a n))
         /\ Forall (fun d => device_label d <> no_usb_devices_found) added.
Proof.
  revert a s. induction n as [|n IH]; intros a s.
  - exists s. split; [reflexivity |]. exists []. rewrite app_nil_r. repeat split. constructor.
  - cbn [seq for_each filter]. unfold bind.
    destruct (scan_drive_spec host a s) as (s1 & Hrun & added1 & Hinfo1 & Hdrives1 & Hlabels1).
    rewrite Hrun.
    destruct (IH (S a) s1) as (s2 & Hloop & added2 & Hinfo2 & Hdrives2 & Hlabels2).
    exists s2. split; [exact Hloop |]. exists (added1 ++ added2).
    split; [rewrite Hinfo2, Hinfo1, app_assoc; reflexivity |]. split.
    + rewrite map_app, Hdrives1, Hdrives2. destruct (listed host a); reflexivity.
    + apply Forall_app. split; assumption.
Qed.

(** X14.  [list_usb_devices] raises nothing.  The drives it returns are, in
    the order of their letters, exactly the drives whose bit is set in the
    mask of logical drives, whose type is removable, and for which Windows
    answers the volume and the usage question; a drive whose question fails
    is left out without stopping the scan.  So no drive is returned twice
    and at most 26 are returned. *)
Theorem list_usb_devices_returns_usable_drives (host : win32.Host) (out : list string) :
  exists devices,
    fst (list_usb_devices format_2f host out) = Ok devices
    /\ map device_drive devices = map drive_path (filter (listed host) (seq 0 26))
    /\ NoDup (map device_drive devices)
    /\ (List.length devices <= 26)%nat.
Proof.
  unfold list_usb_devices, range.
  destruct (scan_loop_spec host 26 0 {| drives_info := []; printed := out |})
    as (s & Hloop & added & Hinfo & Hdrives & _).
  change (Z.to_nat 26) with 26%nat. rewrite Hloop. cbn [drives_info app] in Hinfo.
  subst added. exists (drives_info s). cbn [fst]. split; [reflexivity |].
  split; [exact Hdrives |]. split.
  - rewrite Hdrives.
    assert (Hsub : forall l, (forall x, In x l -> (x < 26)%nat) -> NoDup l ->
                             NoDup (map drive_path l)).
    { induction l as [|x l IHl]; intros Hlt Hnd; cbn; [constructor |].
      inversion Hnd; subst. constructor.
      - intros Hin. apply in_map_iff in Hin. destruct Hin as (y & Hy & Hin).
        apply drive_path_injective in Hy; [subst; contradiction | |];
          apply Hlt; [now right | now left].
      - apply IHl; [intros y Hy; apply Hlt; now right | assumption]. }
    apply Hsub.
    + intros x Hx. apply filter_In in Hx. destruct Hx as [Hx _].
      apply in_seq in Hx. lia.
    + apply NoDup_filter. apply seq_NoDup.
  - rewrite <- (length_map device_drive), Hdrives, length_map.
    etransitivity; [apply filter_length_le |]. rewrite length_seq. lia.
Qed.

End Drives.

(** * The download engine inside the window *)

Section EngineInWindow.

Variable py_repr : json -> string.

Import USBSelectorApp.

(** The loop of [start_downloads] leaves the page, the slider value and the
    count of completed downloads as they are. *)
Lemma start_loop_frame (n : nat) (self : t) :
  current_index
    (snd (for_each (seq (List.length (progress_bars self)) n)
            (fun i =>
               modify (fun self =>
                 set_progress_bars (progress_bars self ++ [new_progress_bar]) self) ;;
               start_next_download i) self))
  = current_index self
  /\ concurrent_downloads
       (snd (for_each (seq (List.length (progress_bars self)) n)
               (fun i =>
                  modify (fun self =>
                    set_progress_bars (progress_bars self ++ [new_progress_bar]) self) ;;
                  start_next_download i) self))
     = concurrent_downloads self
  /\ completed_downloads
       (snd (for_each (seq (List.length (progress_bars self)) n)
               (fun i =>
                  modify (fun self =>
                    set_progress_bars (progress_bars self ++ [new_progress_bar]) self) ;;
                  start_next_download i) self))
     = completed_downloads self.
Proof.
  revert self. induction n as [|n IH]; intros self.
  - cbn. repeat split.
  - rewrite start_loop_step by lia.
    set (self1 := started (List.length (progress_bars self)) _) in *.
    assert (Hbars1 : List.length (progress_bars self1) = S (List.length (progress_bars self))).
    { subst self1. rewrite started_progress_bars. cbn. rewrite length_app. cbn. lia. }
    specialize (IH self1). rewrite Hbars1 in IH. destruct IH as (Hindex & Hc & Hdone).
    rewrite Hindex, Hc, Hdone. subst self1.
    rewrite started_current_index, started_concurrent, started_completed.
    repeat split.
Qed.

(** [go_to_stage5] when the cache folders can be made and nothing runs yet:
    the downloads of the selection are started under the invariants of a
    session, and the fifth page is shown. *)
Lemma go_to_stage5_starts_session (self : t) :
  threadpool self = [] -> progress_bars self = [] -> timers self = [] ->
  selected_content_items self <> [] ->
  exists self',
    go_to_stage5 py_repr None self = (Ok tt, self')
    /\ session_inv (map (download_of py_repr) (selected_content_items self)) self'
    /\ List.length (progress_bars self')
       = Z.to_nat (Z.min (concurrent_downloads self) (len (selected_content_items self)))
    /\ selected_content_items self' = selected_content_items self
    /\ concurrent_downloads self' = concurrent_downloads self
    /\ current_index self' = 4
    /\ completed_downloads self' = 0.
Proof.
  intros Hpool Hbars Htimers Hsome.
  rewrite go_to_stage5_eq, start_downloads_eq.
  cbn [concurrent_downloads set_files set_current_index].
  set (download_urls := map (download_of py_repr) (selected_content_items self)).
  set (self0 := set_completed_downloads 0 _). unfold range.
  assert (Hlen : len download_urls = len (selected_content_items self))
    by (subst download_urls; unfold len; rewrite length_map; reflexivity).
  assert (Hbars0 : List.length (progress_bars self0) = 0%nat)
    by (subst self0; cbn; rewrite Hbars; reflexivity).
  assert (Hinv0 : session_inv download_urls self0).
  { unfold session_inv, pool_ok. subst self0. cbn. rewrite Hpool, Hbars, Htimers.
    repeat split; try constructor; try lia; try reflexivity.
    - destruct (selected_content_items self); [contradiction |].
      unfold len. cbn [List.length].
      destruct (Z.leb_spec 1 (Z.of_nat (S (List.length l))));
        destruct (Z.leb_spec (Z.of_nat (S (List.length l))) 0); cbn; try lia; reflexivity.
    - intros H. now contradiction H. }
  destruct (start_loop_inv download_urls (Z.to_nat (Z.min (concurrent_downloads self)
                                                      (len download_urls))) self0 Hinv0)
    as (Hok & Hinv1 & Hbars1 & Hsel).
  destruct (start_loop_frame (Z.to_nat (Z.min (concurrent_downloads self)
                                          (len download_urls))) self0)
    as (Hindex & Hc & Hdone).
  rewrite Hbars0 in Hok, Hinv1, Hbars1, Hsel, Hindex, Hc, Hdone.
  destruct (for_each (seq 0 (Z.to_nat (Z.min (concurrent_downloads self)
                                         (len download_urls)))) _ self0)
    as [r self1]. cbn [fst snd] in *. subst r.
  exists self1. split; [reflexivity |]. split; [exact Hinv1 |].
  split; [rewrite Hbars1, Hlen; reflexivity |].
  split; [rewrite Hsel; reflexivity |].
  split; [rewrite Hc; reflexivity |].
  split; [rewrite Hindex; reflexivity | rewrite Hdone; reflexivity].
Qed.

Lemma completed_one_concurrent i m self :
  concurrent_downloads (completed_one i m self) = concurrent_downloads self.
Proof.
  unfold completed_one. cbn.
  match goal with |- context [if ?b then _ else _] => destruct b end;
    cbn; rewrite started_concurrent; reflexivity.
Qed.

(** The end of a worker leaves the slider value; it counts one more download
    and shows the sixth page when the count meets the number selected. *)
Lemma worker_finished_frame (download_urls : list download) (k : nat) (message : string)
    (self : t) :
  session_inv download_urls self ->
  concurrent_downloads (snd (worker_finished (k, message) self)) = concurrent_downloads self
  /\ match nth_error (threadpool self) k with
     | None => snd (worker_finished (k, message) self) = self
     | Some _ =>
         completed_downloads (snd (worker_finished (k, message) self))
         = completed_downloads self + 1
         /\ current_index (snd (worker_finished (k, message) self))
            = (if completed_downloads self + 1 =? len (selected_content_items self)
               then 5 else current_index self)
     end.
Proof.
  intros ([Hall Hlen] & _). rewrite worker_finished_eq.
  destruct (nth_error (threadpool self) k) as [w |] eqn:Hk; [| split; reflexivity].
  assert (Hw : (DownloadWorker.signal w < List.length (progress_bars self))%nat).
  { rewrite Forall_forall in Hall. apply Hall. eapply nth_error_In. eassumption. }
  rewrite on_download_complete_ok by exact Hw. cbn [snd].
  rewrite completed_one_concurrent, completed_one_completed, completed_one_current_index.
  repeat split.
Qed.

Lemma start_next_download_files (i : nat) (self : t) :
  files (snd (start_next_download i self)) = files self.
Proof.
  unfold start_next_download, bind, get, modify, raise, ret.
  destruct (download_queue self) as [|[[u p] n] rest]; cbn; [reflexivity |].
  destruct (nth_error (progress_bars self) i); reflexivity.
Qed.

Lemma start_loop_files (l : list nat) (self : t) :
  files
    (snd (for_each l
            (fun i =>
               modify (fun self =>
                 set_progress_bars (progress_bars self ++ [new_progress_bar]) self) ;;
               start_next_download i) self))
  = files self.
Proof.
  revert self. induction l as [|i l IH]; intros self; [reflexivity |].
  cbn [for_each]. unfold bind at 1. unfold bind at 1, modify at 1.
  match goal with
  | |- context [start_next_download i ?s] =>
      pose proof (start_next_download_files i s) as Hstep;
      destruct (start_next_download i s) as [[[] | e] self1]
  end; cbn [snd] in *.
  - rewrite IH, Hstep. reflexivity.
  - rewrite Hstep. reflexivity.
Qed.

Lemma dict_lookup_filter_key {V : Type} (keep : string -> bool) (k : string) (d : dict V) :
  dict_lookup k (filter (fun entry => keep (fst entry)) d)
  = if keep k then dict_lookup k d else None.
Proof.
  induction d as [|[k' v] d IH]; cbn [filter dict_lookup fst].
  - destruct (keep k); reflexivity.
  - destruct (keep k') eqn:Hkeep; cbn [dict_lookup].
    + destruct (String.eqb_spec k k') as [-> | Hne]; [rewrite Hkeep; reflexivity | exact IH].
    + destruct (String.eqb_spec k k') as [-> | Hne]; [| exact IH].
      rewrite IH, Hkeep. reflexivity.
Qed.

(** X13.  [go_to_stage5] neither changes nor removes any file outside the
    cache folder, whether the cache folders can be made or not.  When they
    can be made, which needs that nothing was left of the folder, no file
    of the earlier cache is there when [go_to_stage5] returns. *)
Theorem go_to_stage5_touches_only_the_cache (mkdir_error : option string) (self : t)
    (path : string) :
  (String.prefix "cache/" path = false ->
   dict_lookup path (files (snd (go_to_stage5 py_repr mkdir_error self)))
   = dict_lookup path (files self))
  /\ (mkdir_error = None ->
      String.prefix "cache/" path = true ->
      dict_lookup path (files (snd (go_to_stage5 py_repr mkdir_error self))) = None).
Proof.
  assert (Hwiped : dict_lookup path (rmtree cache_folder (files self))
                   = if String.prefix "cache/" path then None
                     else dict_lookup path (files self)).
  { unfold rmtree.
    rewrite (dict_lookup_filter_key (fun k => negb (String.prefix (cache_folder +s+ "/") k))).
    change (cache_folder +s+ "/") with "cache/".
    destruct (String.prefix "cache/" path); reflexivity. }
  assert (Hfiles : dict_lookup path (files (snd (go_to_stage5 py_repr mkdir_error self)))
                   = dict_lookup path (rmtree cache_folder (files self))).
  { destruct mkdir_error as [detail |].
    - reflexivity.
    - rewrite go_to_stage5_eq, start_downloads_eq. unfold range.
      rewrite start_loop_files. reflexivity. }
  rewrite Hfiles, Hwiped. split.
  - intros ->. reflexivity.
  - intros _ ->. reflexivity.
Qed.

End EngineInWindow.

(** * Properties of the pages before the download *)

Section Wizard.

Variable py_repr : json -> string.
Variable format_2f : float -> string.

Import Window.

Ltac fields :=
  cbn [app data usb_devices selected_usb comboBox comboBox_index movies_checkbox
       music_checkbox gaming_checkbox selected_categories content_checkboxes
       stage1_continue stage1_removed stage1_label summary warning_label
       stage4_continue message_boxes
       set_app set_data set_usb_devices set_selected_usb set_comboBox set_comboBox_index
       set_movies_checkbox set_music_checkbox set_gaming_checkbox
       set_selected_categories set_content_checkboxes set_stage1_continue
       set_stage1_removed set_stage1_label set_summary set_warning_label
       set_stage4_continue set_message_boxes
       USBSelectorApp.selected_content_items USBSelectorApp.concurrent_downloads
       USBSelectorApp.threadpool_max_thread_count USBSelectorApp.threadpool
       USBSelectorApp.download_queue USBSelectorApp.active_downloads
       USBSelectorApp.completed_downloads USBSelectorApp.progress_bars
       USBSelectorApp.use_cache USBSelectorApp.current_index USBSelectorApp.timers
       USBSelectorApp.stdout USBSelectorApp.files
       USBSelectorApp.set_selected_content_items USBSelectorApp.set_concurrency
       USBSelectorApp.set_threadpool USBSelectorApp.set_download_queue
       USBSelectorApp.set_active_downloads USBSelectorApp.set_completed_downloads
       USBSelectorApp.set_progress_bars USBSelectorApp.set_use_cache
       USBSelectorApp.set_current_index USBSelectorApp.set_timers
       USBSelectorApp.set_stdout USBSelectorApp.set_files] in *.

Lemma list_usb_devices_ok (host : win32.Host) (out : list string) :
  exists devices out',
    list_usb_devices format_2f host out = (Ok devices, out')
    /\ Forall (fun d => device_label d <> no_usb_devices_found) devices.
Proof.
  unfold list_usb_devices, range.
  destruct (scan_loop_spec format_2f host 26 0 {| drives_info := []; printed := out |})
    as (s & Hloop & added & Hinfo & _ & Hlabels).
  change (Z.to_nat 26) with 26%nat. rewrite Hloop.
  eexists. eexists. split; [reflexivity |]. rewrite Hinfo. exact Hlabels.
Qed.

Lemma add_items_eq (l : list device) (self : t) :
  for_each l (fun usb => comboBox_addItem (device_label usb)) self
  = (Ok tt,
     match l with
     | [] => self
     | _ :: _ =>
         set_comboBox_index (if comboBox_index self <? 0 then 0 else comboBox_index self)
           (set_comboBox (comboBox self ++ map device_label l) self)
     end).
Proof.
  revert self. induction l as [|d l IH]; intros self; [reflexivity |].
  cbn [for_each]. unfold bind. unfold comboBox_addItem at 1, modify. rewrite IH.
  destruct l as [|d' l]; [reflexivity |].
  f_equal. destruct self. cbn. rewrite <- app_assoc. cbn.
  destruct (comboBox_index0 <? 0) eqn:Hneg; cbn; [reflexivity |].
  rewrite Hneg. reflexivity.
Qed.

Lemma refresh_usb_list_eq (host : win32.Host) (self : t) (devices : list device)
    (out' : list string) :
  list_usb_devices format_2f host (USBSelectorApp.stdout (app self)) = (Ok devices, out') ->
  refresh_usb_list format_2f host self
  = (Ok tt,
     set_comboBox_index 0
       (set_comboBox
          match devices with
          | [] => [no_usb_devices_found]
          | _ :: _ => map device_label devices
          end
          (set_usb_devices devices
             (set_app (USBSelectorApp.set_stdout out' (app self)) self)))).
Proof.
  intros Hscan. unfold refresh_usb_list, comboBox_clear, bind, modify, lift_stdout.
  cbn [app set_comboBox set_comboBox_index]. rewrite Hscan.
  destruct devices as [|d devices].
  - unfold comboBox_addItem, modify. destruct self; reflexivity.
  - rewrite add_items_eq. destruct self; reflexivity.
Qed.

Ltac monad H :=
  unfold lift_app, lift_stdout in H;
  unfold bind, modify, ret, raise, get, lift_result in H;
  fields.

(** The invariant on the pages where the engine has not started. *)
Lemma wizard_inv_idle (self : t) :
  wizard_inv py_repr self -> page self <= 3 -> combo_ok self /\ idle self.
Proof.
  intros (Hcombo & _ & Hc & _ & _ & Hidle & _) Hpage.
  split; [exact Hcombo |]. split; [exact Hc | exact (Hidle Hpage)].
Qed.

(** [go_to_stage1] leads to the first page, whatever the catalog says. *)
Lemma go_to_stage1_inv (answer : string + requests.Response) (self self' : t) :
  combo_ok self -> idle self ->
  go_to_stage1 py_repr answer self = (Ok tt, self') ->
  wizard_inv py_repr self' /\ page self' = 0.
Proof.
  intros Hcombo (Hc & Hpool & Hbars & Htimers) Hrun.
  unfold go_to_stage1, setCurrentIndex, warning in Hrun. monad Hrun.
  destruct (fetch_data py_repr answer (USBSelectorApp.stdout (app self)))
    as [[fetched | e] out']; fields; [| discriminate].
  assert (Hself' : page self' = 0 /\ combo_ok self' /\ idle self'
                   /\ data self' = Some fetched).
  { unfold combo_ok, idle, page in *.
    destruct fetched; inversion Hrun; subst self'; fields; repeat split;
      first [apply Hcombo | apply Hc | assumption]. }
  destruct Hself' as (Hpage & Hcombo' & (Hc' & Hpool' & Hbars' & Htimers') & Hdata).
  split; [| exact Hpage].
  unfold wizard_inv. rewrite Hpage.
  repeat split; try assumption; try lia; try apply Hcombo'.
  - exists fetched. split; [exact Hdata | lia].
Qed.

(** What the combo box shows: the placeholder when the scan found nothing,
    and else the label of a device, which is not the placeholder. *)
Lemma combo_text (self : t) :
  combo_ok self ->
  match usb_devices self with
  | [] => comboBox_currentText self = no_usb_devices_found
  | _ :: _ =>
      exists d, shown_drive self = Some d
                /\ comboBox_currentText self = device_label d
                /\ device_label d <> no_usb_devices_found
  end.
Proof.
  intros (Hbox & Hidx & Hlabels). unfold comboBox_currentText, shown_drive.
  destruct (Z.ltb_spec (comboBox_index self) 0) as [Hneg | _]; [lia |].
  rewrite Hbox in *. destruct (usb_devices self) as [|d0 devices] eqn:Hdevices.
  - unfold len in Hidx. cbn in Hidx.
    replace (comboBox_index self) with 0 by lia. reflexivity.
  - unfold len in Hidx. rewrite length_map in Hidx.
    destruct (nth_error (d0 :: devices) (Z.to_nat (comboBox_index self))) as [d |] eqn:Hnth.
    + exists d. split; [reflexivity |]. split.
      * apply nth_error_nth. rewrite nth_error_map, Hnth. reflexivity.
      * rewrite Forall_forall in Hlabels. apply Hlabels. eapply nth_error_In. exact Hnth.
    + apply nth_error_None in Hnth. lia.
Qed.

Lemma refresh_usb_list_inv (host : win32.Host) (self : t) :
  wizard_inv py_repr self -> page self = 0 ->
  exists self',
    refresh_usb_list format_2f host self = (Ok tt, self')
    /\ wizard_inv py_repr self' /\ page self' = 0
    /\ selected_usb self' = selected_usb self.
Proof.
  intros Hinv Hpage.
  destruct (list_usb_devices_ok host (USBSelectorApp.stdout (app self)))
    as (devices & out' & Hscan & Hlabels).
  rewrite (refresh_usb_list_eq host self devices out' Hscan).
  eexists. split; [reflexivity |].
  destruct Hinv as (_ & _ & Hc & (fetched & Hdata & _) & _ & Hidle & _).
  assert (Hle : page self <= 3) by lia. specialize (Hidle Hle).
  unfold wizard_inv, combo_ok, page in *. fields. rewrite Hpage.
  split; [| split; reflexivity].
  split; [| split; [lia | split; [exact Hc | split; [| repeat split; try lia; apply Hidle]]]].
  - split; [reflexivity |]. split; [| exact Hlabels].
    destruct devices; unfold len; cbn [List.length map]; lia.
  - exists fetched. split; [exact Hdata | lia].
Qed.

Lemma py_list_get_nth {A : Type} (l : list A) (i : Z) (x : A) :
  0 <= i -> nth_error l (Z.to_nat i) = Some x -> py_list_get l i = Ok x.
Proof.
  intros Hi Hnth. unfold py_list_get.
  destruct (Z.ltb_spec i 0); [lia |]. destruct (Z.ltb_spec i 0); [lia |].
  rewrite Hnth. reflexivity.
Qed.

(** [go_to_stage2], from the first page or back from the third: it raises
    nothing; with a device in the combo box the second page is shown and the
    device is the selected one; with none a warning is shown and the scan
    made again. *)
Lemma go_to_stage2_inv (host : win32.Host) (self self' : t) :
  wizard_inv py_repr self -> page self <= 3 ->
  go_to_stage2 format_2f host self = (Ok tt, self') ->
  wizard_inv py_repr self'.
Proof.
  intros Hinv Hpage Hrun.
  pose proof Hinv as (Hcombo & Hrange & Hc & (fetched & Hdata & _) & Hsel & Hidle & _).
  specialize (Hidle Hpage).
  pose proof (combo_text self Hcombo) as Htext.
  unfold go_to_stage2 in Hrun. unfold bind at 1, get at 1 in Hrun.
  destruct (usb_devices self) as [|d0 devices] eqn:Hdevices.
  - rewrite Htext, String.eqb_refl in Hrun. cbn [negb] in Hrun.
    assert (Hzero : page self = 0).
    { destruct (Z.eq_dec (page self) 0) as [Hz | Hnz]; [exact Hz |].
      assert (Hone : 1 <= page self) by lia.
      destruct (Hsel Hone) as [Hsome Hshown].
      unfold shown_drive in Hshown. rewrite Hdevices in Hshown.
      destruct (Z.to_nat (comboBox_index self)); cbn in Hshown; contradiction. }
    unfold bind at 1, warning at 1, modify at 1 in Hrun.
    set (self1 := set_message_boxes _ self) in Hrun.
    assert (Hinv1 : wizard_inv py_repr self1).
    { subst self1. unfold wizard_inv, combo_ok, shown_drive, ticked_categories,
        ticked_items, fits, engine_ok, page in *. fields. exact Hinv. }
    destruct (refresh_usb_list_inv host self1 Hinv1 Hzero) as (self2 & Hrun2 & Hinv2 & _).
    rewrite Hrun2 in Hrun. inversion Hrun; subst self'. exact Hinv2.
  - destruct Htext as (d & Hshown & Htext & Hlabel).
    rewrite Htext in Hrun. apply String.eqb_neq in Hlabel. rewrite Hlabel in Hrun.
    cbn [negb] in Hrun. unfold shown_drive in Hshown.
    unfold setCurrentIndex in Hrun. monad Hrun.
    rewrite <- Hdevices in Hrun.
    rewrite (py_list_get_nth _ _ d) in Hrun by (try apply Hcombo; exact Hshown).
    inversion Hrun; subst self'.
    unfold wizard_inv, combo_ok, shown_drive, page in *. fields.
    split; [exact Hcombo |]. split; [lia |]. split; [exact Hc |].
    split; [exists fetched; split; [exact Hdata | lia] |].
    split; [intros _; split; [discriminate | symmetry; exact Hshown] |].
    split; [intros _; exact Hidle |].
    split; [lia |]. split; [intros [[H _] | H]; lia | lia].
Qed.

(** The rows of one category: a checked box for each item. *)
Lemma content_rows_ok (items : list ProcessedItem) (self self' : t) :
  for_each items (fun item =>
    modify (fun self =>
      set_content_checkboxes (content_checkboxes self ++ [(true, item)]) self) ;;
    lift_result (QLabel (item_title item)) ;;
    lift_result (QLabel (item_duration item))) self = (Ok tt, self') ->
  self' = set_content_checkboxes (content_checkboxes self ++ map (pair true) items) self.
Proof.
  revert self. induction items as [|item items IH]; intros self Hrun.
  - cbn in Hrun. inversion Hrun. destruct self'; cbn. rewrite app_nil_r. reflexivity.
  - cbn [for_each] in Hrun. unfold bind at 1 in Hrun. monad Hrun.
    destruct (QLabel (item_title item)); [| discriminate].
    destruct (QLabel (item_duration item)) as [[] |]; [| discriminate].
    apply IH in Hrun. subst self'. destruct self; cbn.
    rewrite <- app_assoc. reflexivity.
Qed.

Lemma content_loop_ok (categories : list string) (fetched : dict (list ProcessedItem))
    (self self' : t) :
  data self = Some fetched ->
  for_each categories (fun category =>
    lift_app (USBSelectorApp.print ("Generating content for " +s+ category)) ;;
    self <- get ;;
    items <- match data self with
             | None => raise (Exception "AttributeError"
                                "'NoneType' object has no attribute 'get'")
             | Some data => ret (dict_get data category [])
             end ;;
    for_each items (fun item =>
      modify (fun self =>
        set_content_checkboxes (content_checkboxes self ++ [(true, item)]) self) ;;
      lift_result (QLabel (item_title item)) ;;
      lift_result (QLabel (item_duration item)))) self = (Ok tt, self') ->
  self'
  = set_content_checkboxes
      (content_checkboxes self ++ map (pair true) (catalog_items fetched categories))
      (set_app
         (USBSelectorApp.set_stdout
            (USBSelectorApp.stdout (app self)
             ++ map (fun category => "Generating content for " +s+ category) categories)
            (app self))
         self).
Proof.
  revert self. induction categories as [|category categories IH]; intros self Hdata Hrun.
  - cbn in Hrun. inversion Hrun. destruct self' as [a]; destruct a; cbn.
    rewrite !app_nil_r. reflexivity.
  - cbn [for_each] in Hrun. unfold bind at 1 in Hrun.
    unfold bind at 1, lift_app at 1, USBSelectorApp.print at 1, modify at 1 in Hrun.
    unfold bind at 1, get at 1 in Hrun. fields. rewrite Hdata in Hrun.
    unfold bind at 1, ret at 1 in Hrun.
    match type of Hrun with
    | context [for_each (dict_get fetched category []) ?body ?s] =>
        destruct (for_each (dict_get fetched category []) body s) as [[[] | e] self1] eqn:Hrows
    end; [| discriminate].
    apply content_rows_ok in Hrows. fields.
    apply IH in Hrun; [| subst self1; exact Hdata].
    subst self' self1. destruct self as [a]; destruct a; cbn.
    unfold catalog_items. cbn [map List.concat].
    rewrite map_app, <- !app_assoc. reflexivity.
Qed.

Lemma generate_content_items_ok (categories : list string)
    (fetched : dict (list ProcessedItem)) (self self' : t) :
  data self = Some fetched ->
  generate_content_items categories self = (Ok tt, self') ->
  self'
  = set_content_checkboxes (map (pair true) (catalog_items fetched categories))
      (set_app
         (USBSelectorApp.set_stdout
            (USBSelectorApp.stdout (app self)
             ++ map (fun category => "Generating content for " +s+ category) categories)
            (app self))
         self).
Proof.
  intros Hdata Hrun. unfold generate_content_items in Hrun.
  unfold bind at 1, modify at 1 in Hrun.
  apply (content_loop_ok categories fetched) in Hrun; [| exact Hdata].
  subst self'. destruct self as [a]; destruct a; reflexivity.
Qed.

Lemma go_to_stage3_eq (self : t) :
  go_to_stage3 self
  = match ticked_categories self with
    | [] =>
        (Ok tt,
         set_message_boxes
           (message_boxes self
            ++ [("No Categories Selected", "Please select at least one category.")])
           (set_selected_categories [] self))
    | _ :: _ =>
        (generate_content_items (ticked_categories self) ;; setCurrentIndex 2)
          (set_selected_categories (ticked_categories self) self)
    end.
Proof.
  unfold go_to_stage3, ticked_categories.
  unfold bind at 1, modify at 1. unfold bind at 1, get at 1. fields.
  destruct (movies_checkbox self), (music_checkbox self), (gaming_checkbox self);
    reflexivity.
Qed.

(** [go_to_stage3], from the second page or back from the fourth. *)
Lemma go_to_stage3_inv (self self' : t) :
  wizard_inv py_repr self -> 1 <= page self <= 3 ->
  go_to_stage3 self = (Ok tt, self') ->
  wizard_inv py_repr self'.
Proof.
  intros Hinv Hpage Hrun. rewrite go_to_stage3_eq in Hrun.
  destruct (ticked_categories self) as [|c cs] eqn:Hticked.
  - inversion Hrun; subst self'.
    unfold wizard_inv, combo_ok, shown_drive, ticked_categories, ticked_items, fits,
      engine_ok, page in *. fields. exact Hinv.
  - rewrite <- Hticked in Hrun.
    destruct Hinv as (Hcombo & Hrange & Hc & (fetched & Hdata & _) & Hsel & Hidle & _).
    unfold bind in Hrun.
    destruct (generate_content_items (ticked_categories self) _) as [[[] | e] self1] eqn:Hgen;
      [| discriminate].
    apply (generate_content_items_ok _ fetched) in Hgen; [| exact Hdata].
    unfold setCurrentIndex in Hrun. monad Hrun. inversion Hrun; subst self' self1.
    unfold wizard_inv, combo_ok, shown_drive, ticked_categories, page in *. fields.
    split; [exact Hcombo |]. split; [lia |]. split; [exact Hc |].
    split.
    { exists fetched. split; [exact Hdata |]. intros _.
      rewrite map_map. cbn [snd]. apply map_id. }
    split; [intros _; apply Hsel; lia |].
    split; [intros _; apply Hidle; lia |].
    split; [lia |]. split; [intros [[H _] | H]; lia | lia].
Qed.

(** The loop of [go_to_stage4]: the items of the checked boxes are appended. *)
Lemma collect_checked_eq (boxes : list (bool * ProcessedItem)) (self : t) :
  for_each boxes (fun entry =>
    if fst entry
    then lift_app (modify (fun app =>
           USBSelectorApp.set_selected_content_items
             (USBSelectorApp.selected_content_items app ++ [snd entry]) app))
    else ret tt) self
  = (Ok tt,
     set_app
       (USBSelectorApp.set_selected_content_items
          (USBSelectorApp.selected_content_items (app self) ++ map snd (filter fst boxes))
          (app self))
       self).
Proof.
  revert self. induction boxes as [|[checked item] boxes IH]; intros self.
  - cbn. destruct self as [a]; destruct a; cbn. rewrite app_nil_r. reflexivity.
  - cbn [for_each filter fst snd]. unfold bind. destruct checked.
    + unfold lift_app at 1, modify at 1. rewrite IH. f_equal.
      destruct self as [a]; destruct a; cbn. rewrite <- app_assoc. reflexivity.
    + unfold ret at 1. apply IH.
Qed.

(** [generate_summary], when it returns. *)
Lemma generate_summary_ok (self self' : t) :
  generate_summary py_repr format_2f self = (Ok tt, self') ->
  exists usb totals,
    selected_usb self = Some usb
    /\ summarize py_repr (USBSelectorApp.selected_content_items (app self))
         PrimFloat.zero [] = Ok totals
    /\ self'
       = if PrimFloat.ltb (device_free_gb usb) (fst totals)
         then set_stage4_continue false
                (set_warning_label "Warning: Not enough space on the selected USB drive!"
                   (set_summary [describe (snd totals)] self))
         else set_stage4_continue true
                (set_warning_label
                   ("Total Required Space: " +s+ format_2f (fst totals) +s+ " GB / "
                    +s+ format_2f (device_free_gb usb) +s+ " GB Free")
                   (set_summary [describe (snd totals)] self)).
Proof.
  intros Hrun. unfold generate_summary in Hrun. monad Hrun.
  destruct (summarize py_repr (USBSelectorApp.selected_content_items (app self))
              PrimFloat.zero []) as [totals | e]; [| discriminate].
  destruct (selected_usb self) as [usb |]; [| discriminate].
  exists usb, totals. split; [reflexivity |]. split; [reflexivity |].
  destruct (PrimFloat.ltb (device_free_gb usb) (fst totals));
    inversion Hrun; reflexivity.
Qed.

Lemma go_to_stage4_eq (self : t) :
  go_to_stage4 py_repr format_2f self
  = match ticked_items self with
    | [] =>
        (Ok tt,
         set_message_boxes
           (message_boxes self
            ++ [("No Content Selected", "Please select at least one content item.")])
           (set_app (USBSelectorApp.set_selected_content_items [] (app self)) self))
    | _ :: _ =>
        (generate_summary py_repr format_2f ;; setCurrentIndex 3)
          (set_app
             (USBSelectorApp.set_selected_content_items (ticked_items self) (app self))
             self)
    end.
Proof.
  unfold go_to_stage4.
  unfold bind at 1, lift_app at 1, modify at 1. unfold bind at 1, get at 1. fields.
  unfold bind at 1. rewrite collect_checked_eq. fields. cbn [app].
  unfold bind at 1, get at 1. fields. fold (ticked_items self).
  destruct (ticked_items self) as [|item items]; reflexivity.
Qed.

(** [go_to_stage4], from the third page. *)
Lemma go_to_stage4_inv (self self' : t) :
  wizard_inv py_repr self -> page self = 2 ->
  go_to_stage4 py_repr format_2f self = (Ok tt, self') ->
  wizard_inv py_repr self'.
Proof.
  intros Hinv Hpage Hrun. rewrite go_to_stage4_eq in Hrun.
  destruct Hinv as (Hcombo & Hrange & Hc & (fetched & Hdata & Hboxes) & Hsel & Hidle & _).
  destruct (ticked_items self) as [|item items] eqn:Hticked.
  - inversion Hrun; subst self'.
    unfold wizard_inv, combo_ok, shown_drive, ticked_categories, page in *. fields.
    split; [exact Hcombo |]. split; [lia |]. split; [exact Hc |].
    split; [exists fetched; split; [exact Hdata | exact Hboxes] |].
    split; [exact Hsel |]. split; [exact Hidle |].
    split; [lia |]. split; [intros [[H _] | H]; lia | lia].
  - rewrite <- Hticked in Hrun. unfold bind in Hrun.
    destruct (generate_summary py_repr format_2f _) as [[[] | e] self1] eqn:Hsum;
      [| discriminate].
    apply generate_summary_ok in Hsum. destruct Hsum as (usb & totals & Husb & Htotals & Hself1).
    unfold setCurrentIndex in Hrun. monad Hrun. inversion Hrun; subst self'. clear Hrun.
    assert (Hframe : combo_ok self1 /\ data self1 = data self
                     /\ content_checkboxes self1 = content_checkboxes self
                     /\ ticked_categories self1 = ticked_categories self
                     /\ selected_usb self1 = selected_usb self
                     /\ shown_drive self1 = shown_drive self
                     /\ USBSelectorApp.concurrent_downloads (app self1)
                        = USBSelectorApp.concurrent_downloads (app self)
                     /\ USBSelectorApp.threadpool (app self1)
                        = USBSelectorApp.threadpool (app self)
                     /\ USBSelectorApp.progress_bars (app self1)
                        = USBSelectorApp.progress_bars (app self)
                     /\ USBSelectorApp.timers (app self1) = USBSelectorApp.timers (app self)
                     /\ USBSelectorApp.selected_content_items (app self1)
                        = ticked_items self
                     /\ (stage4_continue self1 = true ->
                         PrimFloat.ltb (device_free_gb usb) (fst totals) = false)).
    { unfold combo_ok, shown_drive, ticked_categories in *.
      destruct (PrimFloat.ltb (device_free_gb usb) (fst totals)); subst self1; fields;
        repeat split; try apply Hcombo; try reflexivity; try discriminate. }
    destruct Hframe as (Hcombo1 & Hdata1 & Hboxes1 & Hcats1 & Husb1 & Hshown1 & Hc1 & Hpool1
                        & Hbars1 & Htimers1 & Hsel1 & Hroom).
    fields.
    unfold wizard_inv, fits, page. fields.
    assert (Hticked1 : ticked_items (set_app (USBSelectorApp.set_current_index 3 (app self1))
                                       self1) = ticked_items self).
    { unfold ticked_items. fields. rewrite Hboxes1. reflexivity. }
    rewrite Hticked1.
    split; [unfold combo_ok in *; fields; exact Hcombo1 |]. split; [lia |].
    split; [rewrite Hc1; exact Hc |].
    split.
    { exists fetched. split; [rewrite Hdata1; exact Hdata |]. intros _.
      unfold ticked_categories in *. fields. rewrite Hboxes1, Hcats1. apply Hboxes. lia. }
    split.
    { intros _. unfold shown_drive in *. fields. rewrite Husb1, Hshown1. apply Hsel. lia. }
    split; [intros _; rewrite Hpool1, Hbars1, Htimers1; apply Hidle; lia |].
    split; [intros _; split; [exact Hsel1 | rewrite Hsel1, Hticked; discriminate] |].
    split; [| lia].
    intros [[_ Hon] | H]; [| lia].
    exists usb, totals. split; [rewrite Husb1; exact Husb |].
    split; [rewrite Hsel1; exact Htotals | exact (Hroom Hon)].
Qed.

(** [go_to_stage5], from the fourth page with its button enabled. *)
Lemma go_to_stage5_inv (mkdir_error : option string) (self self' : t) :
  wizard_inv py_repr self -> page self = 3 -> stage4_continue self = true ->
  go_to_stage5 py_repr mkdir_error self = (Ok tt, self') ->
  wizard_inv py_repr self'.
Proof.
  intros Hinv Hpage Hon Hrun.
  destruct Hinv as (Hcombo & Hrange & Hc & (fetched & Hdata & Hboxes) & Hsel & Hidle
                    & Hticked & Hfits & _).
  destruct Hidle as (Hpool & Hbars & Htimers); [lia |].
  destruct Hticked as (Hticked & Hsome); [lia |].
  specialize (Hfits (or_introl (conj Hpage Hon))).
  specialize (Hsel ltac:(lia)). specialize (Hboxes ltac:(lia)).
  unfold go_to_stage5, lift_app in Hrun.
  assert (Happ : exists app',
             self' = set_app app' self
             /\ USBSelectorApp.selected_content_items app'
                = USBSelectorApp.selected_content_items (app self)
             /\ USBSelectorApp.concurrent_downloads app'
                = USBSelectorApp.concurrent_downloads (app self)
             /\ USBSelectorApp.current_index app' = 4
             /\ engine_ok py_repr (set_app app' self)).
  { destruct mkdir_error as [detail |].
    - cbn in Hrun. inversion Hrun; subst self'. eexists. split; [reflexivity |].
      unfold engine_ok, page. fields.
      split; [reflexivity |]. split; [reflexivity |]. split; [reflexivity |].
      left. repeat split; assumption.
    - destruct (go_to_stage5_starts_session py_repr (app self) Hpool Hbars Htimers Hsome)
        as (app' & Hstart & Hsession & Hlen & Hsame & Hc' & Hindex & Hdone).
      rewrite Hstart in Hrun. inversion Hrun; subst self'.
      exists app'. split; [reflexivity |]. split; [exact Hsame |]. split; [exact Hc' |].
      split; [exact Hindex |].
      unfold engine_ok, page. fields. right. left. rewrite Hsame, Hc', Hdone, Hindex.
      split; [exact Hsession |]. split; [exact Hlen |].
      destruct (Z.leb_spec (len (USBSelectorApp.selected_content_items (app self))) 0)
        as [Hle |]; [| reflexivity].
      destruct (USBSelectorApp.selected_content_items (app self)); [contradiction |].
      unfold len in Hle. cbn [List.length] in Hle. lia. }
  destruct Happ as (app' & Hself' & Hsame & Hc' & Hindex & Hengine). subst self'.
  unfold wizard_inv, combo_ok, shown_drive, ticked_categories, ticked_items, fits, page in *.
  fields. rewrite Hsame, Hc', Hindex.
  split; [exact Hcombo |]. split; [lia |]. split; [exact Hc |].
  split; [exists fetched; split; [exact Hdata | intros _; exact Hboxes] |].
  split; [intros _; exact Hsel |]. split; [lia |].
  split; [intros _; split; assumption |].
  split; [intros _; exact Hfits | intros _; exact Hengine].
Qed.

(** The end of a worker. *)
Lemma worker_finished_window_inv (k : nat) (message : string) (self self' : t) :
  wizard_inv py_repr self ->
  lift_app (USBSelectorApp.worker_finished (k, message)) self = (Ok tt, self') ->
  wizard_inv py_repr self'.
Proof.
  intros Hinv Hrun.
  assert (Hnone : USBSelectorApp.threadpool (app self) = [] -> self' = self).
  { intros Hpool. unfold lift_app in Hrun. rewrite worker_finished_eq, Hpool in Hrun.
    destruct k; cbn in Hrun; inversion Hrun; destruct self; reflexivity. }
  destruct (Z.le_gt_cases (page self) 3) as [Hearly | Hlate].
  { rewrite Hnone; [exact Hinv |]. apply Hinv. exact Hearly. }
  pose proof Hinv as (Hcombo & Hrange & Hc & (fetched & Hdata & Hboxes) & Hsel & Hidle
                      & Hticked & Hfits & Hengine).
  destruct Hengine as [(_ & Hpool & _) | [(Hsession & Hlen & Hpage) | (_ & Hpool & _)]];
    [lia | rewrite (Hnone Hpool); exact Hinv | | rewrite (Hnone Hpool); exact Hinv].
  destruct (nth_error (USBSelectorApp.threadpool (app self)) k) as [w |] eqn:Hk.
  2: { assert (Hsame : self' = self).
       { unfold lift_app in Hrun. rewrite worker_finished_eq, Hk in Hrun.
         inversion Hrun; destruct self; reflexivity. }
       rewrite Hsame. exact Hinv. }
  destruct (worker_finished_inv _ (k, message) (app self) Hsession)
    as (Hok & Hsession' & Hbars' & Hsame).
  destruct (worker_finished_frame _ k message (app self) Hsession) as (Hc' & Hstep).
  rewrite Hk in Hstep. destruct Hstep as (Hdone' & Hindex').
  unfold lift_app in Hrun.
  destruct (USBSelectorApp.worker_finished (k, message) (app self)) as [r app'].
  cbn [fst snd] in *. inversion Hrun; subst self'. clear Hrun.
  assert (Hcount : USBSelectorApp.completed_downloads (app self) + 1
                   <= len (USBSelectorApp.selected_content_items (app self))).
  { destruct Hsession as (_ & _ & _ & Htasks & _ & Hcount & _).
    apply (f_equal (@List.length _)) in Htasks.
    rewrite length_app, !length_map in Htasks.
    assert (Hpos : (1 <= List.length (USBSelectorApp.threadpool (app self)))%nat).
    { destruct (USBSelectorApp.threadpool (app self)); [destruct k; discriminate |].
      cbn. lia. }
    unfold len in *. lia. }
  assert (Hpage4 : page self = 4).
  { rewrite Hpage.
    destruct (Z.leb_spec (len (USBSelectorApp.selected_content_items (app self)))
                (USBSelectorApp.completed_downloads (app self))); [lia | reflexivity]. }
  assert (Hpage' : USBSelectorApp.current_index app'
                   = if len (USBSelectorApp.selected_content_items (app self))
                        <=? USBSelectorApp.completed_downloads (app self) + 1
                     then 5 else 4).
  { rewrite Hindex'. fold (page self). rewrite Hpage4.
    destruct (Z.eqb_spec (USBSelectorApp.completed_downloads (app self) + 1)
                (len (USBSelectorApp.selected_content_items (app self))));
      destruct (Z.leb_spec (len (USBSelectorApp.selected_content_items (app self)))
                  (USBSelectorApp.completed_downloads (app self) + 1));
      try lia; reflexivity. }
  assert (Hpage'' : 4 <= USBSelectorApp.current_index app' <= 5).
  { rewrite Hpage'.
    destruct (len (USBSelectorApp.selected_content_items (app self))
              <=? USBSelectorApp.completed_downloads (app self) + 1); lia. }
  unfold wizard_inv, combo_ok, shown_drive, ticked_categories, ticked_items, fits,
    engine_ok, page in *.
  fields. rewrite Hsame, Hc'.
  split; [exact Hcombo |]. split; [lia |]. split; [exact Hc |].
  split; [exists fetched; split; [exact Hdata | intros _; apply Hboxes; lia] |].
  split; [intros _; apply Hsel; lia |]. split; [lia |].
  split; [intros _; apply Hticked; lia |].
  split; [intros _; apply Hfits; right; lia |].
  intros _. right. left. rewrite Hdone', Hbars'.
  split; [exact Hsession' |]. split; [exact Hlen | exact Hpage'].
Qed.

(** The expiry of a timer. *)
Lemma timeout_inv (self self' : t) :
  wizard_inv py_repr self -> timeout self = (Ok tt, self') -> wizard_inv py_repr self'.
Proof.
  intros Hinv Hrun. unfold timeout, go_to_stage7, setCurrentIndex in Hrun. monad Hrun.
  destruct (USBSelectorApp.timers (app self)) as [|[delay []] rest] eqn:Htimers.
  { inversion Hrun; subst self'. exact Hinv. }
  fields. inversion Hrun; subst self'. clear Hrun.
  destruct Hinv as (Hcombo & Hrange & Hc & (fetched & Hdata & Hboxes) & Hsel & Hidle
                    & Hticked & Hfits & Hengine).
  destruct (Z.le_gt_cases (page self) 3) as [Hearly | Hlate].
  { destruct (Hidle Hearly) as (_ & _ & Hnone). rewrite Hnone in Htimers. discriminate. }
  destruct Hengine as [(_ & _ & _ & Hnone) | [(Hsession & Hlen & Hpage) | (_ & _ & _ & Hnone & _)]];
    [lia | rewrite Hnone in Htimers; discriminate | | rewrite Hnone in Htimers; discriminate].
  destruct Hsession as (_ & _ & _ & Htasks & Hpos & Hcount & _ & Hfired & _).
  rewrite Htimers in Hfired.
  assert (Hall : len (USBSelectorApp.selected_content_items (app self))
                 <= USBSelectorApp.completed_downloads (app self) /\ rest = []).
  { destruct (1 <=? len (USBSelectorApp.selected_content_items (app self)));
      [| discriminate].
    destruct (Z.leb_spec (len (USBSelectorApp.selected_content_items (app self)))
                (USBSelectorApp.completed_downloads (app self))); [| discriminate].
    cbn in Hfired. inversion Hfired. split; [assumption | reflexivity]. }
  destruct Hall as [Hall Hrest]. subst rest.
  pose proof Htasks as Hlens. apply (f_equal (@List.length _)) in Hlens.
  rewrite length_app, !length_map in Hlens.
  assert (Hpool : USBSelectorApp.threadpool (app self) = []).
  { destruct (USBSelectorApp.threadpool (app self)); [reflexivity |].
    unfold len in *. cbn [List.length] in *. lia. }
  assert (Hqueue : USBSelectorApp.download_queue (app self) = []).
  { destruct (USBSelectorApp.download_queue (app self)); [reflexivity |].
    unfold len in *. cbn [List.length] in *. lia. }
  rewrite Hqueue, app_nil_r in Htasks.
  unfold wizard_inv, combo_ok, shown_drive, ticked_categories, ticked_items, fits,
    engine_ok, page in *.
  fields.
  split; [exact Hcombo |]. split; [lia |]. split; [exact Hc |].
  split; [exists fetched; split; [exact Hdata | intros _; apply Hboxes; lia] |].
  split; [intros _; apply Hsel; lia |]. split; [lia |].
  split; [intros _; apply Hticked; lia |].
  split; [intros _; apply Hfits; right; lia |].
  intros _. right. right.
  split; [reflexivity |]. split; [exact Hpool |]. split; [exact Hqueue |].
  split; [reflexivity |]. split; [exact Htasks |].
  rewrite Hpool, Hqueue in *. unfold len in *. cbn [List.length] in *. lia.
Qed.

Lemma toggle_nth_items (k : nat) (boxes : list (bool * ProcessedItem)) :
  map snd (toggle_nth k boxes) = map snd boxes.
Proof.
  revert k. induction boxes as [|[checked item] boxes IH]; intros k.
  - destruct k; reflexivity.
  - destruct k; cbn; [reflexivity | rewrite IH; reflexivity].
Qed.

(** Every event keeps the invariant. *)
Lemma handle_inv (e : event) (self self' : t) :
  wizard_inv py_repr self ->
  handle py_repr format_2f e self = (Ok tt, self') ->
  wizard_inv py_repr self'.
Proof.
  intros Hinv Hrun. unfold handle in Hrun. unfold bind at 1, get at 1 in Hrun.
  destruct e.
  - (* Refresh *)
    destruct (Z.eqb_spec (page self) 0) as [Hpage |]; cbn [andb] in Hrun;
      [| inversion Hrun; subst; exact Hinv].
    destruct (negb (stage1_removed self)); [| inversion Hrun; subst; exact Hinv].
    destruct (refresh_usb_list_inv host self Hinv Hpage) as (self1 & Hrun1 & Hinv1 & _).
    rewrite Hrun1 in Hrun. inversion Hrun; subst. exact Hinv1.
  - (* Choose_usb *)
    destruct (Z.eqb_spec (page self) 0) as [Hpage |]; cbn [andb] in Hrun;
      [| inversion Hrun; subst; exact Hinv].
    destruct (negb (stage1_removed self)); cbn [andb] in Hrun;
      [| inversion Hrun; subst; exact Hinv].
    destruct (Z.ltb_spec (Z.of_nat k) (len (comboBox self))) as [Hk |];
      [| inversion Hrun; subst; exact Hinv].
    unfold choose_usb, modify in Hrun. inversion Hrun; subst self'.
    destruct Hinv as ((Hbox & Hidx & Hlabels) & Hrange & Hc & (fetched & Hdata & Hboxes)
                      & Hsel & Hidle & Hticked & Hfits & Hengine).
    unfold wizard_inv, combo_ok, shown_drive, ticked_categories, ticked_items, fits,
      engine_ok, page in *.
    fields.
    split; [split; [exact Hbox | split; [lia | exact Hlabels]] |].
    split; [lia |]. split; [exact Hc |].
    split; [exists fetched; split; [exact Hdata | lia] |].
    split; [lia |]. split; [exact Hidle |].
    split; [lia |]. split; [intros [[Hp _] | Hp]; lia | lia].
  - (* Slide *)
    destruct (Z.eqb_spec (page self) 0) as [Hpage |]; cbn [andb] in Hrun;
      [| inversion Hrun; subst; exact Hinv].
    destruct (Z.leb_spec 1 value) as [Hlo |]; cbn [andb] in Hrun;
      [| inversion Hrun; subst; exact Hinv].
    destruct (Z.leb_spec value 15) as [Hhi |]; [| inversion Hrun; subst; exact Hinv].
    unfold USBSelectorApp.update_concurrent_downloads in Hrun. monad Hrun.
    inversion Hrun; subst self'.
    destruct Hinv as (Hcombo & Hrange & Hc & (fetched & Hdata & Hboxes)
                      & Hsel & Hidle & Hticked & Hfits & Hengine).
    unfold wizard_inv, combo_ok, shown_drive, ticked_categories, ticked_items, fits,
      engine_ok, page in *.
    fields.
    split; [exact Hcombo |]. split; [lia |]. split; [lia |].
    split; [exists fetched; split; [exact Hdata | lia] |].
    split; [lia |]. split; [exact Hidle |].
    split; [lia |]. split; [intros [[Hp _] | Hp]; lia | lia].
  - (* Toggle_use_cache *)
    destruct (page self =? 0); [| inversion Hrun; subst; exact Hinv].
    unfold toggle_use_cache in Hrun. monad Hrun. inversion Hrun; subst self'.
    unfold wizard_inv, combo_ok, shown_drive, ticked_categories, ticked_items, fits,
      engine_ok, session_inv, USBSelectorApp.pool_ok, page in *.
    fields. exact Hinv.
  - (* Stage1_continue *)
    destruct (Z.eqb_spec (page self) 0) as [Hpage |]; cbn [andb] in Hrun;
      [| inversion Hrun; subst; exact Hinv].
    destruct (negb (stage1_removed self)); cbn [andb] in Hrun;
      [| inversion Hrun; subst; exact Hinv].
    destruct (stage1_continue self); [| inversion Hrun; subst; exact Hinv].
    apply (go_to_stage2_inv host self self' Hinv); [lia | exact Hrun].
  - (* Toggle_movies *)
    destruct (Z.eqb_spec (page self) 1) as [Hpage |]; [| inversion Hrun; subst; exact Hinv].
    unfold toggle_movies, modify in Hrun. inversion Hrun; subst self'.
    destruct Hinv as (Hcombo & Hrange & Hc & (fetched & Hdata & Hboxes)
                      & Hsel & Hidle & Hticked & Hfits & Hengine).
    unfold wizard_inv, combo_ok, shown_drive, ticked_items, fits, engine_ok, page in *.
    fields.
    split; [exact Hcombo |]. split; [lia |]. split; [exact Hc |].
    split; [exists fetched; split; [exact Hdata | lia] |].
    split; [exact Hsel |]. split; [exact Hidle |].
    split; [lia |]. split; [intros [[Hp _] | Hp]; lia | lia].
  - (* Toggle_music *)
    destruct (Z.eqb_spec (page self) 1) as [Hpage |]; [| inversion Hrun; subst; exact Hinv].
    unfold toggle_music, modify in Hrun. inversion Hrun; subst self'.
    destruct Hinv as (Hcombo & Hrange & Hc & (fetched & Hdata & Hboxes)
                      & Hsel & Hidle & Hticked & Hfits & Hengine).
    unfold wizard_inv, combo_ok, shown_drive, ticked_items, fits, engine_ok, page in *.
    fields.
    split; [exact Hcombo |]. split; [lia |]. split; [exact Hc |].
    split; [exists fetched; split; [exact Hdata | lia] |].
    split; [exact Hsel |]. split; [exact Hidle |].
    split; [lia |]. split; [intros [[Hp _] | Hp]; lia | lia].
  - (* Toggle_gaming *)
    destruct (Z.eqb_spec (page self) 1) as [Hpage |]; [| inversion Hrun; subst; exact Hinv].
    unfold toggle_gaming, modify in Hrun. inversion Hrun; subst self'.
    destruct Hinv as (Hcombo & Hrange & Hc & (fetched & Hdata & Hboxes)
                      & Hsel & Hidle & Hticked & Hfits & Hengine).
    unfold wizard_inv, combo_ok, shown_drive, ticked_items, fits, engine_ok, page in *.
    fields.
    split; [exact Hcombo |]. split; [lia |]. split; [exact Hc |].
    split; [exists fetched; split; [exact Hdata | lia] |].
    split; [exact Hsel |]. split; [exact Hidle |].
    split; [lia |]. split; [intros [[Hp _] | Hp]; lia | lia].
  - (* Stage2_back *)
    destruct (Z.eqb_spec (page self) 1) as [Hpage |]; [| inversion Hrun; subst; exact Hinv].
    destruct (wizard_inv_idle self Hinv) as [Hcombo Hidle]; [lia |].
    apply (go_to_stage1_inv answer self self' Hcombo Hidle Hrun).
  - (* Stage2_continue *)
    destruct (Z.eqb_spec (page self) 1) as [Hpage |]; [| inversion Hrun; subst; exact Hinv].
    apply (go_to_stage3_inv self self' Hinv); [lia | exact Hrun].
  - (* Toggle_content *)
    destruct (Z.eqb_spec (page self) 2) as [Hpage |]; [| inversion Hrun; subst; exact Hinv].
    unfold toggle_content, modify in Hrun. inversion Hrun; subst self'.
    destruct Hinv as (Hcombo & Hrange & Hc & (fetched & Hdata & Hboxes)
                      & Hsel & Hidle & Hticked & Hfits & Hengine).
    unfold wizard_inv, combo_ok, shown_drive, ticked_categories, fits, engine_ok, page in *.
    fields.
    split; [exact Hcombo |]. split; [lia |]. split; [exact Hc |].
    split; [exists fetched; split; [exact Hdata |]; rewrite toggle_nth_items; exact Hboxes |].
    split; [exact Hsel |]. split; [exact Hidle |].
    split; [lia |]. split; [intros [[Hp _] | Hp]; lia | lia].
  - (* Stage3_back *)
    destruct (Z.eqb_spec (page self) 2) as [Hpage |]; [| inversion Hrun; subst; exact Hinv].
    apply (go_to_stage2_inv host self self' Hinv); [lia | exact Hrun].
  - (* Stage3_continue *)
    destruct (Z.eqb_spec (page self) 2) as [Hpage |]; [| inversion Hrun; subst; exact Hinv].
    apply (go_to_stage4_inv self self' Hinv Hpage Hrun).
  - (* Stage4_back *)
    destruct (Z.eqb_spec (page self) 3) as [Hpage |]; [| inversion Hrun; subst; exact Hinv].
    apply (go_to_stage3_inv self self' Hinv); [lia | exact Hrun].
  - (* Stage4_continue *)
    destruct (Z.eqb_spec (page self) 3) as [Hpage |]; cbn [andb] in Hrun;
      [| inversion Hrun; subst; exact Hinv].
    destruct (stage4_continue self) eqn:Hon; [| inversion Hrun; subst; exact Hinv].
    apply (go_to_stage5_inv mkdir_error self self' Hinv Hpage Hon Hrun).
  - (* Worker_finished *)
    apply (worker_finished_window_inv k message self self' Hinv Hrun).
  - (* Timeout *)
    apply (timeout_inv self self' Hinv Hrun).
Qed.

Lemma for_each_inv {S A : Type} (P : S -> Prop) (body : A -> M S unit) :
  (forall x s s', P s -> body x s = (Ok tt, s') -> P s') ->
  forall l s s', P s -> for_each l body s = (Ok tt, s') -> P s'.
Proof.
  intros Hbody. induction l as [|x l IH]; intros s s' HP Hrun.
  - cbn in Hrun. inversion Hrun; subst. exact HP.
  - cbn [for_each] in Hrun. unfold bind in Hrun.
    destruct (body x s) as [[[] | e] s1] eqn:Hx; [| discriminate].
    apply (IH s1 s'); [apply (Hbody x s s1 HP Hx) | exact Hrun].
Qed.

(** The invariant holds wherever a run of the window arrives. *)
Lemma run_inv (host : win32.Host) (answer : string + requests.Response)
    (events : list event) (disk : Disk) (self' : t) :
  run py_repr format_2f host answer events (init disk) = (Ok tt, self') ->
  wizard_inv py_repr self'.
Proof.
  intros Hrun. unfold run in Hrun. unfold bind at 1 in Hrun.
  destruct (list_usb_devices_ok host (USBSelectorApp.stdout (app (init disk))))
    as (devices & out' & Hscan & Hlabels).
  rewrite (refresh_usb_list_eq host (init disk) devices out' Hscan) in Hrun.
  unfold bind at 1 in Hrun.
  match type of Hrun with
  | context [go_to_stage1 py_repr answer ?s] =>
      destruct (go_to_stage1 py_repr answer s) as [[[] | e] self0] eqn:Hfirst
  end; [| discriminate].
  apply go_to_stage1_inv in Hfirst.
  - destruct Hfirst as [Hinv0 _].
    apply (for_each_inv (wizard_inv py_repr) (handle py_repr format_2f) handle_inv
             events self0 self' Hinv0 Hrun).
  - unfold combo_ok. fields. split; [reflexivity |]. split; [| exact Hlabels].
    destruct devices; unfold len; cbn [List.length map]; lia.
  - unfold idle. cbn. repeat split; lia.
Qed.

Lemma for_each_app {S A : Type} (l1 l2 : list A) (body : A -> M S unit) (s s1 : S) :
  for_each l1 body s = (Ok tt, s1) ->
  for_each (l1 ++ l2) body s = for_each l2 body s1.
Proof.
  revert s. induction l1 as [|x l1 IH]; intros s Hrun.
  - cbn in Hrun. inversion Hrun; subst. reflexivity.
  - cbn [for_each Datatypes.app] in *. unfold bind in *.
    destruct (body x s) as [[[] | e] s0]; [| discriminate].
    apply IH. exact Hrun.
Qed.

(** A run continued by further events. *)
Lemma run_app (host : win32.Host) (answer : string + requests.Response)
    (events later : list event) (s self : t) :
  run py_repr format_2f host answer events s = (Ok tt, self) ->
  run py_repr format_2f host answer (events ++ later) s
  = for_each later (handle py_repr format_2f) self.
Proof.
  unfold run, bind. intros Hrun.
  destruct (refresh_usb_list format_2f host s) as [[[] | e] s1]; [| discriminate].
  destruct (go_to_stage1 py_repr answer s1) as [[[] | e] s2]; [| discriminate].
  apply for_each_app. exact Hrun.
Qed.

(** [go_to_stage2] raises nothing where it can be called. *)
Lemma go_to_stage2_total (host : win32.Host) (self : t) :
  wizard_inv py_repr self -> page self <= 3 ->
  exists self', go_to_stage2 format_2f host self = (Ok tt, self').
Proof.
  intros Hinv Hpage.
  pose proof Hinv as (Hcombo & _ & _ & _ & Hsel & _).
  pose proof (combo_text self Hcombo) as Htext.
  unfold go_to_stage2. unfold bind at 1, get at 1.
  destruct (usb_devices self) as [|d0 devices] eqn:Hdevices.
  - rewrite Htext, String.eqb_refl. cbn [negb].
    assert (Hzero : page self = 0).
    { destruct (Z.eq_dec (page self) 0) as [Hz | Hnz]; [exact Hz |].
      assert (Hone : 1 <= page self) by (destruct Hinv as (_ & Hrange & _); lia).
      destruct (Hsel Hone) as [Hsome Hshown].
      unfold shown_drive in Hshown. rewrite Hdevices in Hshown.
      destruct (Z.to_nat (comboBox_index self)); cbn in Hshown; contradiction. }
    unfold bind at 1, warning at 1, modify at 1.
    match goal with
    | |- context [refresh_usb_list format_2f host ?s] => set (self1 := s)
    end.
    assert (Hinv1 : wizard_inv py_repr self1).
    { subst self1. unfold wizard_inv, combo_ok, shown_drive, ticked_categories,
        ticked_items, fits, engine_ok, page in *. fields. exact Hinv. }
    destruct (refresh_usb_list_inv host self1 Hinv1 Hzero) as (self2 & Hrun2 & _).
    exists self2. exact Hrun2.
  - destruct Htext as (d & Hshown & Htext & Hlabel).
    rewrite Htext. apply String.eqb_neq in Hlabel. rewrite Hlabel. cbn [negb].
    unfold shown_drive in Hshown. unfold setCurrentIndex.
    unfold lift_app, bind, modify, lift_result. rewrite <- Hdevices.
    rewrite (py_list_get_nth _ _ d) by (try apply Hcombo; exact Hshown).
    eexists. reflexivity.
Qed.

(** When every download is counted nothing runs and nothing is queued. *)
Lemma all_counted (download_urls : list download) (self : USBSelectorApp.t) :
  session_inv download_urls self ->
  len download_urls <= USBSelectorApp.completed_downloads self ->
  USBSelectorApp.threadpool self = []
  /\ USBSelectorApp.download_queue self = []
  /\ map DownloadWorker.task (USBSelectorApp.active_downloads self) = download_urls
  /\ USBSelectorApp.completed_downloads self = len download_urls.
Proof.
  intros (_ & _ & _ & Htasks & Hpos & Hcount & _) Hall.
  pose proof Htasks as Hlens. apply (f_equal (@List.length _)) in Hlens.
  rewrite length_app, !length_map in Hlens.
  assert (Hpool : USBSelectorApp.threadpool self = []).
  { destruct (USBSelectorApp.threadpool self); [reflexivity |].
    unfold len in *. cbn [List.length] in *. lia. }
  assert (Hqueue : USBSelectorApp.download_queue self = []).
  { destruct (USBSelectorApp.download_queue self); [reflexivity |].
    unfold len in *. cbn [List.length] in *. lia. }
  rewrite Hqueue, app_nil_r in Htasks.
  split; [exact Hpool |]. split; [exact Hqueue |]. split; [exact Htasks |].
  rewrite Hpool, Hqueue in *. unfold len in *. cbn [List.length] in *. lia.
Qed.

(** X15.  Wherever a run of the window arrives past the first page, a drive
    is selected, and it is the device of the last scan that the combo box
    shows, under its label: [usb_devices[index]] never fails, and the free
    space the summary compares with is that of the drive the user sees. *)
Theorem selected_drive_is_the_one_shown (host : win32.Host)
    (answer : string + requests.Response) (events : list event) (disk : Disk) (self : t) :
  run py_repr format_2f host answer events (init disk) = (Ok tt, self) ->
  1 <= page self ->
  exists usb,
    selected_usb self = Some usb
    /\ nth_error (usb_devices self) (Z.to_nat (comboBox_index self)) = Some usb
    /\ comboBox_currentText self = device_label usb.
Proof.
  intros Hrun Hpage.
  destruct (run_inv _ _ _ _ _ Hrun) as (Hcombo & _ & _ & _ & Hsel & _).
  destruct (Hsel Hpage) as [Hsome Hshown].
  destruct (selected_usb self) as [usb |] eqn:Husb; [| contradiction].
  exists usb. split; [reflexivity |]. split; [symmetry; exact Hshown |].
  pose proof (combo_text self Hcombo) as Htext.
  destruct (usb_devices self) as [|d0 devices] eqn:Hdevices.
  - unfold shown_drive in Hshown. rewrite Hdevices in Hshown.
    destruct (Z.to_nat (comboBox_index self)); discriminate.
  - destruct Htext as (d & Hd & Htext & _). rewrite Hd in Hshown.
    inversion Hshown; subst d. exact Htext.
Qed.

(** X16.  From the confirmation page on, the selection is what is ticked on
    the content page, whose rows are the items the catalog holds for the
    ticked categories, Movies, Music, Gaming in this order; and once
    downloads were started, the tasks started or queued are those of the
    selection, in this order. *)
Theorem downloads_are_the_ticked_catalog_items (host : win32.Host)
    (answer : string + requests.Response) (events : list event) (disk : Disk) (self : t) :
  run py_repr format_2f host answer events (init disk) = (Ok tt, self) ->
  3 <= page self ->
  exists fetched,
    data self = Some fetched
    /\ map snd (content_checkboxes self) = catalog_items fetched (ticked_categories self)
    /\ USBSelectorApp.selected_content_items (app self) = ticked_items self
    /\ (USBSelectorApp.progress_bars (app self) = []
        \/ map DownloadWorker.task (USBSelectorApp.active_downloads (app self))
             ++ USBSelectorApp.download_queue (app self)
           = map (download_of py_repr) (ticked_items self)).
Proof.
  intros Hrun Hpage.
  destruct (run_inv _ _ _ _ _ Hrun)
    as (_ & _ & _ & (fetched & Hdata & Hboxes) & _ & Hidle & Hticked & _ & Hengine).
  destruct (Hticked Hpage) as [Hsel _].
  exists fetched. split; [exact Hdata |]. split; [apply Hboxes; lia |].
  split; [exact Hsel |].
  destruct (Z.le_gt_cases (page self) 3) as [Hearly | Hlate].
  { left. apply (Hidle Hearly). }
  destruct Hengine as [(_ & _ & Hbars & _) | [(Hsession & _) | (_ & _ & Hqueue & _ & Htasks & _)]];
    [lia | left; exact Hbars | right | right].
  - destruct Hsession as (_ & _ & _ & Htasks & _). rewrite <- Hsel. exact Htasks.
  - rewrite Hqueue, app_nil_r, <- Hsel. exact Htasks.
Qed.

(** X17.  The download page is only ever reached with a selection that is
    not empty, with a drive selected, and after a summary that could be
    added up and whose total was not above the free space of that drive. *)
Theorem download_starts_only_when_it_fits (host : win32.Host)
    (answer : string + requests.Response) (events : list event) (disk : Disk) (self : t) :
  run py_repr format_2f host answer events (init disk) = (Ok tt, self) ->
  4 <= page self ->
  USBSelectorApp.selected_content_items (app self) <> []
  /\ exists usb totals,
       selected_usb self = Some usb
       /\ summarize py_repr (USBSelectorApp.selected_content_items (app self))
            PrimFloat.zero [] = Ok totals
       /\ PrimFloat.ltb (device_free_gb usb) (fst totals) = false.
Proof.
  intros Hrun Hpage.
  destruct (run_inv _ _ _ _ _ Hrun) as (_ & _ & _ & _ & _ & _ & Hticked & Hfits & _).
  split; [apply Hticked; lia |]. apply Hfits. right. exact Hpage.
Qed.

(** X18.  On the content page with something ticked whose sizes add up,
    Continue raises nothing and shows the confirmation page: the selection
    is what is ticked, the summary is its description, and the button that
    starts the download is enabled exactly when the total is not above the
    free space of the selected drive. *)
Theorem confirm_enabled_iff_it_fits (host : win32.Host)
    (answer : string + requests.Response) (events : list event) (disk : Disk) (self : t)
    (totals : float * dict (list string)) :
  run py_repr format_2f host answer events (init disk) = (Ok tt, self) ->
  page self = 2 ->
  ticked_items self <> [] ->
  summarize py_repr (ticked_items self) PrimFloat.zero [] = Ok totals ->
  exists usb self',
    selected_usb self = Some usb
    /\ handle py_repr format_2f Stage3_continue self = (Ok tt, self')
    /\ page self' = 3
    /\ stage4_continue self' = negb (PrimFloat.ltb (device_free_gb usb) (fst totals))
    /\ summary self' = [describe (snd totals)]
    /\ USBSelectorApp.selected_content_items (app self') = ticked_items self.
Proof.
  intros Hrun Hpage Hsome Htotals.
  destruct (run_inv _ _ _ _ _ Hrun) as (_ & _ & _ & _ & Hsel & _).
  destruct Hsel as [Husb _]; [lia |].
  destruct (selected_usb self) as [usb |] eqn:Hselected; [| contradiction].
  exists usb. unfold handle. unfold bind at 1, get at 1. rewrite Hpage. cbn [Z.eqb Pos.eqb].
  rewrite go_to_stage4_eq.
  destruct (ticked_items self) as [|item items] eqn:Hticked; [contradiction |].
  rewrite <- Hticked in *.
  unfold generate_summary, setCurrentIndex, lift_app, bind, modify, get, lift_result,
    raise, ret.
  fields. rewrite Htotals, Hselected.
  destruct (PrimFloat.ltb (device_free_gb usb) (fst totals));
    (eexists; split; [reflexivity |]; split; [reflexivity |]; repeat split).
Qed.

(** X19.  All along a run of the window the pool holds no more workers than
    the slider says, which is between 1 and 15. *)
Theorem pool_within_slider (host : win32.Host)
    (answer : string + requests.Response) (events : list event) (disk : Disk) (self : t) :
  run py_repr format_2f host answer events (init disk) = (Ok tt, self) ->
  len (USBSelectorApp.threadpool (app self))
  <= USBSelectorApp.concurrent_downloads (app self) <= 15
  /\ (List.length (USBSelectorApp.threadpool (app self))
      <= List.length (USBSelectorApp.progress_bars (app self)))%nat.
Proof.
  intros Hrun.
  destruct (run_inv _ _ _ _ _ Hrun) as (_ & _ & Hc & _ & _ & Hidle & _ & _ & Hengine).
  assert (Hempty : USBSelectorApp.threadpool (app self) = [] ->
                   len (USBSelectorApp.threadpool (app self))
                   <= USBSelectorApp.concurrent_downloads (app self) <= 15
                   /\ (List.length (USBSelectorApp.threadpool (app self))
                       <= List.length (USBSelectorApp.progress_bars (app self)))%nat).
  { intros Hpool. rewrite Hpool. unfold len. cbn [List.length]. lia. }
  destruct (Z.le_gt_cases (page self) 3) as [Hearly | Hlate].
  { apply Hempty. apply (Hidle Hearly). }
  destruct Hengine as [(_ & Hpool & _) | [(Hsession & Hlen & _) | (_ & Hpool & _)]];
    [lia | apply Hempty; exact Hpool | | apply Hempty; exact Hpool].
  destruct Hsession as ([_ Hbars] & _). unfold len. split; [lia | exact Hbars].
Qed.

(** X20.  The pages after the download page are only shown when every
    download of the selection was started and has ended: no worker runs,
    none is queued, and the count of completed downloads is the number of
    selected items. *)
Theorem later_pages_after_all_downloads (host : win32.Host)
    (answer : string + requests.Response) (events : list event) (disk : Disk) (self : t) :
  run py_repr format_2f host answer events (init disk) = (Ok tt, self) ->
  5 <= page self ->
  USBSelectorApp.threadpool (app self) = []
  /\ USBSelectorApp.download_queue (app self) = []
  /\ map DownloadWorker.task (USBSelectorApp.active_downloads (app self))
     = map (download_of py_repr) (USBSelectorApp.selected_content_items (app self))
  /\ USBSelectorApp.completed_downloads (app self)
     = len (USBSelectorApp.selected_content_items (app self)).
Proof.
  intros Hrun Hpage.
  destruct (run_inv _ _ _ _ _ Hrun) as (_ & _ & _ & _ & _ & _ & _ & _ & Hengine).
  destruct Hengine
    as [(Hfour & _) | [(Hsession & _ & Hshown)
                      | (_ & Hpool & Hqueue & _ & Htasks & Hdone)]]; [lia | lia | |].
  - destruct (Z.leb_spec (len (USBSelectorApp.selected_content_items (app self)))
                (USBSelectorApp.completed_downloads (app self))) as [Hall |]; [| lia].
    destruct (all_counted _ _ Hsession) as (Hpool & Hqueue & Htasks & Hdone).
    { unfold len in *. rewrite length_map. exact Hall. }
    repeat split; try assumption.
    rewrite Hdone. unfold len. rewrite length_map. reflexivity.
  - repeat split; assumption.
Qed.

(** An event whose slot does not read the catalog raises nothing. *)
Lemma handle_total (e : event) (self : t) :
  wizard_inv py_repr self -> reads_catalog e = false ->
  exists self', handle py_repr format_2f e self = (Ok tt, self').
Proof.
  intros Hinv Hquiet. unfold handle. unfold bind at 1, get at 1.
  destruct e; try discriminate Hquiet.
  - (* Refresh *)
    destruct (Z.eqb_spec (page self) 0) as [Hpage |]; cbn [andb];
      [| eexists; reflexivity].
    destruct (negb (stage1_removed self)); [| eexists; reflexivity].
    destruct (refresh_usb_list_inv host self Hinv Hpage) as (self1 & Hrun1 & _).
    exists self1. exact Hrun1.
  - (* Choose_usb *)
    match goal with |- context [if ?b then _ else _] => destruct b end;
      eexists; reflexivity.
  - (* Slide *)
    match goal with |- context [if ?b then _ else _] => destruct b end;
      eexists; reflexivity.
  - (* Toggle_use_cache *)
    destruct (page self =? 0); eexists; reflexivity.
  - (* Stage1_continue *)
    destruct (Z.eqb_spec (page self) 0) as [Hpage |]; cbn [andb];
      [| eexists; reflexivity].
    destruct (negb (stage1_removed self)); cbn [andb]; [| eexists; reflexivity].
    destruct (stage1_continue self); [| eexists; reflexivity].
    apply (go_to_stage2_total host self Hinv). lia.
  - (* Toggle_movies *)
    destruct (page self =? 1); eexists; reflexivity.
  - (* Toggle_music *)
    destruct (page self =? 1); eexists; reflexivity.
  - (* Toggle_gaming *)
    destruct (page self =? 1); eexists; reflexivity.
  - (* Toggle_content *)
    destruct (page self =? 2); eexists; reflexivity.
  - (* Stage3_back *)
    destruct (Z.eqb_spec (page self) 2) as [Hpage |]; [| eexists; reflexivity].
    apply (go_to_stage2_total host self Hinv). lia.
  - (* Stage4_continue *)
    destruct (Z.eqb_spec (page self) 3) as [Hpage |]; cbn [andb];
      [| eexists; reflexivity].
    destruct (stage4_continue self); [| eexists; reflexivity].
    unfold go_to_stage5, lift_app.
    destruct mkdir_error as [detail |]; [eexists; reflexivity |].
    destruct Hinv as (_ & _ & _ & _ & _ & Hidle & Hticked & _).
    destruct Hidle as (Hpool & Hbars & Htimers); [lia |].
    destruct Hticked as (_ & Hsome); [lia |].
    destruct (go_to_stage5_starts_session py_repr (app self) Hpool Hbars Htimers Hsome)
      as (app' & Hstart & _).
    rewrite Hstart. eexists. reflexivity.
  - (* Worker_finished *)
    unfold lift_app.
    assert (Hnone : USBSelectorApp.threadpool (app self) = [] ->
                    exists self',
                      (let (r, app') := USBSelectorApp.worker_finished (k, message) (app self)
                       in (r, set_app app' self)) = (Ok tt, self')).
    { intros Hpool. rewrite worker_finished_eq, Hpool.
      destruct k; eexists; reflexivity. }
    destruct Hinv as (_ & _ & _ & _ & _ & Hidle & _ & _ & Hengine).
    destruct (Z.le_gt_cases (page self) 3) as [Hearly | Hlate].
    { apply Hnone. apply (Hidle Hearly). }
    destruct Hengine as [(_ & Hpool & _) | [(Hsession & _) | (_ & Hpool & _)]];
      [lia | apply Hnone; exact Hpool | | apply Hnone; exact Hpool].
    destruct (worker_finished_inv _ (k, message) (app self) Hsession) as (Hok & _).
    destruct (USBSelectorApp.worker_finished (k, message) (app self)) as [r app'].
    cbn [fst] in Hok. subst r. eexists. reflexivity.
  - (* Timeout *)
    unfold timeout, go_to_stage7, setCurrentIndex, lift_app, bind, modify, get, ret.
    destruct (USBSelectorApp.timers (app self)) as [|[delay []] rest];
      eexists; reflexivity.
Qed.

(** X21.  Wherever a run of the window arrives, the next click, end of a
    worker or expiry of a timer raises nothing unless its slot reads the
    catalog (Go Back on the categories page, which fetches it, the two
    buttons that lay out the content page, and the one that adds up the
    summary): the scan of the drives, the choice of the drive, the start of
    the downloads, the end of a worker and the timer never end the
    program. *)
Theorem only_catalog_steps_can_fail (host : win32.Host)
    (answer : string + requests.Response) (events : list event) (disk : Disk) (self : t)
    (e : event) :
  run py_repr format_2f host answer events (init disk) = (Ok tt, self) ->
  reads_catalog e = false ->
  exists self',
    run py_repr format_2f host answer (events ++ [e]) (init disk) = (Ok tt, self').
Proof.
  intros Hrun Hquiet.
  destruct (handle_total e self (run_inv _ _ _ _ _ Hrun) Hquiet) as (self' & Hstep).
  exists self'. rewrite (run_app _ _ _ _ _ _ Hrun).
  cbn [for_each]. unfold bind. rewrite Hstep. reflexivity.
Qed.

Lemma fetch_data_not_200 (response : requests.Response) (out : list string) :
  requests.status_code response <> 200 ->
  fetch_data py_repr (inr response) out
  = (Ok [],
     out ++ ["Error fetching data: "
             +s+ py_format py_repr (JInt (requests.status_code response))]).
Proof.
  intros Hcode. unfold fetch_data, bind, ret, modify.
  apply Z.eqb_neq in Hcode. rewrite Hcode. reflexivity.
Qed.

(** Once the first page has lost its widgets no event leads anywhere. *)
Lemma handle_dead (e : event) (self : t) :
  wizard_inv py_repr self -> page self = 0 -> stage1_removed self = true ->
  exists self',
    handle py_repr format_2f e self = (Ok tt, self')
    /\ page self' = 0 /\ stage1_removed self' = true
    /\ selected_usb self' = selected_usb self
    /\ message_boxes self' = message_boxes self
    /\ stage1_label self' = stage1_label self.
Proof.
  intros Hinv Hpage Hremoved.
  destruct Hinv as (_ & _ & _ & _ & _ & Hidle & _).
  destruct Hidle as (Hpool & _ & Htimers); [lia |].
  unfold handle. unfold bind at 1, get at 1. unfold page in *.
  destruct e; rewrite ?Hpage, ?Hremoved; cbn [Z.eqb andb negb];
    try (exists self; repeat split; assumption).
  - (* Slide *)
    unfold USBSelectorApp.update_concurrent_downloads, lift_app, modify.
    destruct ((1 <=? value) && (value <=? 15));
      (eexists; split; [reflexivity |]; fields; repeat split; assumption).
  - (* Toggle_use_cache *)
    unfold toggle_use_cache, lift_app, modify.
    eexists. split; [reflexivity |]. fields. repeat split; assumption.
  - (* Worker_finished *)
    unfold lift_app. rewrite worker_finished_eq, Hpool.
    destruct k; (eexists; split; [reflexivity |]; fields; repeat split; assumption).
  - (* Timeout *)
    unfold timeout, bind, get. rewrite Htimers.
    exists self. repeat split; assumption.
Qed.

Lemma dead_forever (events : list event) (self : t) :
  wizard_inv py_repr self -> page self = 0 -> stage1_removed self = true ->
  exists self',
    for_each events (handle py_repr format_2f) self = (Ok tt, self')
    /\ page self' = 0 /\ stage1_removed self' = true
    /\ selected_usb self' = selected_usb self
    /\ message_boxes self' = message_boxes self
    /\ stage1_label self' = stage1_label self.
Proof.
  revert self. induction events as [|e events IH]; intros self Hinv Hpage Hremoved.
  - exists self. repeat split; assumption.
  - destruct (handle_dead e self Hinv Hpage Hremoved)
      as (self1 & Hstep & Hpage1 & Hremoved1 & Husb1 & Hboxes1 & Hlabel1).
    destruct (IH self1 (handle_inv e self self1 Hinv Hstep) Hpage1 Hremoved1)
      as (self2 & Hrest & Hpage2 & Hremoved2 & Husb2 & Hboxes2 & Hlabel2).
    exists self2. cbn [for_each]. unfold bind. rewrite Hstep.
    split; [exact Hrest |]. repeat split; congruence.
Qed.

(** X22.  When the catalog is answered with a status other than 200 at the
    start, the window raises nothing and is of no further use: whatever the
    user does and whatever happens, the first page stays, without its
    buttons and its combo box, no drive is selected, and the one warning
    "Error Fetching Data" has been shown. *)
Theorem failed_fetch_ends_the_session (host : win32.Host) (response : requests.Response)
    (events : list event) (disk : Disk) :
  requests.status_code response <> 200 ->
  exists self,
    run py_repr format_2f host (inr response) events (init disk) = (Ok tt, self)
    /\ page self = 0
    /\ stage1_removed self = true
    /\ selected_usb self = None
    /\ message_boxes self
       = [("Error Fetching Data", "There was an error fetching the content data.")]
    /\ stage1_label self
       = "Error: Could not fetch content data" +s+ nl +s+ nl
         +s+ "Are you connected to the internet?".
Proof.
  intros Hcode. unfold run. unfold bind at 1.
  destruct (list_usb_devices_ok host (USBSelectorApp.stdout (app (init disk))))
    as (devices & out' & Hscan & Hlabels).
  rewrite (refresh_usb_list_eq host (init disk) devices out' Hscan).
  unfold bind at 1.
  match goal with
  | |- context [go_to_stage1 py_repr (inr response) ?s] => set (self0 := s)
  end.
  assert (Hfirst : exists self1,
             go_to_stage1 py_repr (inr response) self0 = (Ok tt, self1)
             /\ stage1_removed self1 = true /\ selected_usb self1 = None
             /\ message_boxes self1
                = [("Error Fetching Data", "There was an error fetching the content data.")]
             /\ stage1_label self1
                = "Error: Could not fetch content data" +s+ nl +s+ nl
                  +s+ "Are you connected to the internet?").
  { unfold go_to_stage1, setCurrentIndex, warning, lift_app, lift_stdout, bind, modify.
    fields. rewrite (fetch_data_not_200 response _ Hcode).
    eexists. split; [reflexivity |]. subst self0. fields. repeat split. }
  destruct Hfirst as (self1 & Hfirst & Hremoved & Husb & Hboxes & Hlabel).
  rewrite Hfirst.
  assert (Hstart : wizard_inv py_repr self1 /\ page self1 = 0).
  { apply (go_to_stage1_inv (inr response) self0 self1); [| | exact Hfirst].
    - subst self0. unfold combo_ok. fields. split; [reflexivity |]. split; [| exact Hlabels].
      destruct devices; unfold len; cbn [List.length map]; lia.
    - subst self0. unfold idle. cbn. repeat split; lia. }
  destruct Hstart as [Hinv Hpage].
  destruct (dead_forever events self1 Hinv Hpage Hremoved)
    as (self2 & Hrest & Hpage2 & Hremoved2 & Husb2 & Hboxes2 & Hlabel2).
  exists self2. split; [exact Hrest |]. repeat split; congruence.
Qed.

(** On the download page with nothing started no event has any effect. *)
Lemma handle_waiting (e : event) (self : t) :
  page self = 4 ->
  USBSelectorApp.threadpool (app self) = [] ->
  USBSelectorApp.timers (app self) = [] ->
  handle py_repr format_2f e self = (Ok tt, self).
Proof.
  intros Hpage Hpool Htimers.
  unfold handle. unfold bind at 1, get at 1. unfold page in *.
  destruct e; rewrite ?Hpage; cbn [Z.eqb andb negb]; try reflexivity.
  - unfold lift_app. rewrite worker_finished_eq, Hpool.
    destruct k; destruct self; reflexivity.
  - unfold timeout, bind, get. rewrite Htimers. reflexivity.
Qed.

Lemma waiting_forever (events : list event) (self : t) :
  page self = 4 ->
  USBSelectorApp.threadpool (app self) = [] ->
  USBSelectorApp.timers (app self) = [] ->
  for_each events (handle py_repr format_2f) self = (Ok tt, self).
Proof.
  intros Hpage Hpool Htimers. induction events as [|e events IH]; [reflexivity |].
  cbn [for_each]. unfold bind. rewrite (handle_waiting e self Hpage Hpool Htimers).
  exact IH.
Qed.

(** X23.  When the cache folders cannot be made, pressing the button of the
    confirmation page shows the download page and prints the error; no
    download is started, no warning is shown, and whatever the user does
    and whatever happens afterwards changes nothing: the window stays on
    "Downloading..." for ever. *)
Theorem failed_mkdir_leaves_the_window_waiting (host : win32.Host)
    (answer : string + requests.Response) (events later : list event) (disk : Disk)
    (self : t) (detail : string) :
  run py_repr format_2f host answer events (init disk) = (Ok tt, self) ->
  page self = 3 ->
  stage4_continue self = true ->
  exists self',
    run py_repr format_2f host answer (events ++ Stage4_continue (Some detail) :: later)
      (init disk) = (Ok tt, self')
    /\ page self' = 4
    /\ USBSelectorApp.threadpool (app self') = []
    /\ USBSelectorApp.progress_bars (app self') = []
    /\ USBSelectorApp.stdout (app self')
       = USBSelectorApp.stdout (app self) ++ ["Error creating cache folder: " +s+ detail]
    /\ message_boxes self' = message_boxes self.
Proof.
  intros Hrun Hpage Hon.
  destruct (run_inv _ _ _ _ _ Hrun) as (_ & _ & _ & _ & _ & Hidle & _).
  destruct Hidle as (Hpool & Hbars & Htimers); [lia |].
  rewrite (run_app _ _ _ _ _ _ Hrun). cbn [for_each]. unfold bind at 1.
  unfold handle at 1. unfold bind at 1, get at 1. rewrite Hpage, Hon. cbn [Z.eqb Pos.eqb andb].
  unfold go_to_stage5, lift_app. cbn.
  eexists. split.
  - apply waiting_forever; unfold page; fields; [reflexivity | exact Hpool | exact Htimers].
  - unfold page. fields. repeat split; assumption.
Qed.


(** ** Progress signals *)










(** The rows of one category are laid out exactly when every title and
    duration can be shown. *)
Lemma content_rows_iff (items : list ProcessedItem) (self : t) :
  fst (for_each items (fun item =>
         modify (fun self =>
           set_content_checkboxes (content_checkboxes self ++ [(true, item)]) self) ;;
         lift_result (QLabel (item_title item)) ;;
         lift_result (QLabel (item_duration item))) self) = Ok tt
  <-> Forall labelable items.
Proof.
  revert self. induction items as [|item items IH]; intros self.
  - cbn. split; [constructor | reflexivity].
  - cbn [for_each]. unfold bind at 1. unfold bind at 1, modify at 1.
    unfold bind at 1, lift_result at 1. unfold lift_result at 1.
    rewrite Forall_cons_iff. unfold labelable at 1.
    destruct (QLabel (item_title item)) as [[] | e1]; cbn [fst].
    + destruct (QLabel (item_duration item)) as [[] | e2]; cbn [fst].
      * rewrite IH. tauto.
      * split; [discriminate | intros [[_ H] _]; discriminate].
    + split; [discriminate | intros [[H _] _]; discriminate].
Qed.

Lemma content_loop_iff (categories : list string) (fetched : dict (list ProcessedItem))
    (self : t) :
  data self = Some fetched ->
  fst (for_each categories (fun category =>
         lift_app (USBSelectorApp.print ("Generating content for " +s+ category)) ;;
         self <- get ;;
         items <- match data self with
                  | None => raise (Exception "AttributeError"
                                     "'NoneType' object has no attribute 'get'")
                  | Some data => ret (dict_get data category [])
                  end ;;
         for_each items (fun item =>
           modify (fun self =>
             set_content_checkboxes (content_checkboxes self ++ [(true, item)]) self) ;;
           lift_result (QLabel (item_title item)) ;;
           lift_result (QLabel (item_duration item)))) self) = Ok tt
  <-> Forall labelable (catalog_items fetched categories).
Proof.
  revert self. induction categories as [|category categories IH]; intros self Hdata.
  - cbn. split; [constructor | reflexivity].
  - cbn [for_each]. unfold bind at 1.
    unfold bind at 1, lift_app at 1, USBSelectorApp.print at 1, modify at 1.
    unfold bind at 1, get at 1. fields. rewrite Hdata.
    unfold bind at 1, ret at 1.
    unfold catalog_items. cbn [map List.concat]. rewrite Forall_app.
    fold (catalog_items fetched categories).
    match goal with
    | |- context [for_each (dict_get fetched category []) ?body ?s] =>
        pose proof (content_rows_iff (dict_get fetched category []) s) as Hrows;
        destruct (for_each (dict_get fetched category []) body s) as [[[] | e] self1] eqn:Hrun
    end; cbn [fst] in *.
    + apply content_rows_ok in Hrun.
      rewrite (IH self1) by (subst self1; exact Hdata). tauto.
    + split; [discriminate |]. intros [Hall _]. apply Hrows in Hall. discriminate.
Qed.

(** X25.  With the catalog fetched, [go_to_stage3] raises nothing exactly
    when every item the catalog holds for the ticked categories has a title
    and a duration that are texts or null: one number among them and the
    slot ends with the [TypeError] of [QLabel]. *)
Theorem content_page_needs_text_labels (self : t) (fetched : dict (list ProcessedItem)) :
  data self = Some fetched ->
  fst (go_to_stage3 self) = Ok tt
  <-> Forall labelable (catalog_items fetched (ticked_categories self)).
Proof.
  intros Hdata. rewrite go_to_stage3_eq.
  destruct (ticked_categories self) as [|c cs] eqn:Hticked.
  - cbn. split; [constructor | reflexivity].
  - rewrite <- Hticked. unfold generate_content_items.
    unfold bind at 1. unfold bind at 1, modify at 1.
    match goal with
    | |- context [for_each (ticked_categories self) ?body ?s] =>
        pose proof (content_loop_iff (ticked_categories self) fetched s Hdata) as Hloop;
        destruct (for_each (ticked_categories self) body s) as [[[] | e] self1]
    end; cbn [fst] in *.
    + unfold setCurrentIndex, lift_app, modify. cbn [fst]. tauto.
    + exact Hloop.
Qed.

(** The sum of the sizes fails only on a size that cannot be added. *)
Lemma summarize_raises (items : list ProcessedItem) (total : float)
    (lines : dict (list string)) (e : exn) :
  summarize py_repr items total lines = Raise e ->
  exists item x, In item items /\ py_float_add x (item_size_gb item) = Raise e.
Proof.
  revert total lines. induction items as [|item items IH]; intros total lines Hrun.
  - discriminate.
  - cbn [summarize] in Hrun.
    destruct (py_float_add total (item_size_gb item)) as [total' | e'] eqn:Hadd.
    + apply IH in Hrun. destruct Hrun as (item' & x & Hin & Hx).
      exists item', x. split; [right; exact Hin | exact Hx].
    + inversion Hrun; subst e'. exists item, total. split; [left; reflexivity | exact Hadd].
Qed.

(** X26.  Wherever a run of the window arrives on the content page, if
    Continue raises an exception it is the one that adding the size of one
    of the ticked items to a float raises: a size that is no number, or an
    integer too large for a float.  No missing drive and no index is ever
    the cause. *)
Theorem confirmation_fails_only_on_sizes (host : win32.Host)
    (answer : string + requests.Response) (events : list event) (disk : Disk)
    (self self' : t) (e : exn) :
  run py_repr format_2f host answer events (init disk) = (Ok tt, self) ->
  page self = 2 ->
  handle py_repr format_2f Stage3_continue self = (Raise e, self') ->
  exists item x,
    In item (ticked_items self) /\ py_float_add x (item_size_gb item) = Raise e.
Proof.
  intros Hrun Hpage Hstep.
  destruct (run_inv _ _ _ _ _ Hrun) as (_ & _ & _ & _ & Hsel & _).
  destruct Hsel as [Husb _]; [lia |].
  unfold handle in Hstep. unfold bind at 1, get at 1 in Hstep.
  rewrite Hpage in Hstep. cbn [Z.eqb Pos.eqb] in Hstep.
  rewrite go_to_stage4_eq in Hstep.
  destruct (ticked_items self) as [|item items] eqn:Hticked; [discriminate |].
  rewrite <- Hticked in *.
  unfold generate_summary, setCurrentIndex in Hstep. monad Hstep.
  destruct (summarize py_repr (ticked_items self) PrimFloat.zero []) as [totals | e']
    eqn:Hsum.
  - destruct (selected_usb self) as [usb |]; [| contradiction].
    destruct (PrimFloat.ltb (device_free_gb usb) (fst totals)); discriminate.
  - inversion Hstep; subst e'. apply (summarize_raises _ _ _ _ Hsum).
Qed.

Lemma dict_set_keys {V : Type} (k : string) (v : V) (d : dict V) :
  map fst (dict_set k v d)
  = if existsb (String.eqb k) (map fst d) then map fst d else map fst d ++ [k].
Proof.
  induction d as [|[k' v'] d IH]; cbn; [reflexivity |].
  destruct (String.eqb_spec k k') as [-> | Hne]; cbn; [reflexivity |].
  rewrite IH. destruct (existsb (String.eqb k) (map fst d)); reflexivity.
Qed.

Lemma dict_lookup_keys {V : Type} (k : string) (d : dict V) :
  existsb (String.eqb k) (map fst d)
  = match dict_lookup k d with Some _ => true | None => false end.
Proof.
  induction d as [|[k' v'] d IH]; cbn; [reflexivity |].
  destruct (k =? k')%string; [reflexivity | exact IH].
Qed.

(** The first loop of [generate_summary], from any total and any lines. *)
Lemma summarize_groups (items : list ProcessedItem) (total : float)
    (lines : dict (list string)) (totals : float * dict (list string)) :
  summarize py_repr items total lines = Ok totals ->
  map fst (snd totals) = first_seen_after (map fst lines) (map item_category items)
  /\ forall category,
       dict_get (snd totals) category []
       = dict_get lines category []
         ++ map (summary_line py_repr) (of_category category items).
Proof.
  revert total lines. induction items as [|item items IH]; intros total lines Hrun.
  - cbn in Hrun. inversion Hrun; subst totals. cbn.
    split; [reflexivity |]. intros category. rewrite app_nil_r. reflexivity.
  - cbn [summarize] in Hrun.
    destruct (py_float_add total (item_size_gb item)) as [total' |]; [| discriminate].
    apply IH in Hrun. destruct Hrun as [Hkeys Hlines].
    set (lines1 := match dict_lookup (item_category item) lines with
                   | None => dict_set (item_category item) [] lines
                   | Some _ => lines
                   end) in *.
    assert (Hget1 : forall category, dict_get lines1 category [] = dict_get lines category []).
    { intros category. subst lines1. unfold dict_get.
      destruct (dict_lookup (item_category item) lines) eqn:Hfound; [reflexivity |].
      destruct (String.eqb_spec category (item_category item)) as [-> | Hne].
      - rewrite dict_lookup_set_same, Hfound. reflexivity.
      - rewrite dict_lookup_set_other by congruence. reflexivity. }
    assert (Hkeys1 : map fst (dict_set (item_category item)
                                (dict_get lines1 (item_category item) []
                                 ++ [py_format py_repr (item_title item) +s+ " ("
                                     +s+ item_size item +s+ ")"]) lines1)
                     = if existsb (String.eqb (item_category item)) (map fst lines)
                       then map fst lines else map fst lines ++ [item_category item]).
    { rewrite dict_set_keys. subst lines1. rewrite (dict_lookup_keys _ lines).
      destruct (dict_lookup (item_category item) lines) eqn:Hfound.
      - rewrite dict_lookup_keys, Hfound. reflexivity.
      - rewrite dict_lookup_keys, dict_lookup_set_same, dict_set_keys, dict_lookup_keys,
          Hfound. reflexivity. }
    split.
    + rewrite Hkeys, Hkeys1. reflexivity.
    + intros category. rewrite Hlines. unfold of_category. cbn [filter].
      unfold dict_get at 1.
      destruct (String.eqb_spec (item_category item) category) as [<- | Hne].
      * rewrite dict_lookup_set_same, Hget1. cbn [map].
        rewrite <- app_assoc. reflexivity.
      * rewrite dict_lookup_set_other by congruence.
        fold (dict_get lines1 category []). rewrite Hget1. reflexivity.
Qed.

(** X27.  When the sizes of the selection add up, the summary has one group
    for each category of the selection, in the order the categories first
    occur in it, and the group of a category lists its items in the order of
    the selection, each once, as "title (size)". *)
Theorem summary_groups_by_category (items : list ProcessedItem)
    (totals : float * dict (list string)) :
  summarize py_repr items PrimFloat.zero [] = Ok totals ->
  map fst (snd totals) = first_seen (map item_category items)
  /\ forall category,
       dict_get (snd totals) category []
       = map (summary_line py_repr) (of_category category items).
Proof.
  intros Hrun. destruct (summarize_groups _ _ _ _ Hrun) as [Hkeys Hlines].
  split; [exact Hkeys |]. intros category. rewrite Hlines. reflexivity.
Qed.

End Wizard.

Lemma selected_drive_is_the_one_shown_witness :
  Window.run sample_repr sample_format sample_host (inr (catalog_response 200))
    to_confirmation (Window.init []) = (Ok tt, sample_window to_confirmation)
  /\ 1 <= Window.page (sample_window to_confirmation)
  /\ exists usb,
       Window.selected_usb (sample_window to_confirmation) = Some usb
       /\ nth_error (Window.usb_devices (sample_window to_confirmation))
            (Z.to_nat (Window.comboBox_index (sample_window to_confirmation))) = Some usb
       /\ Window.comboBox_currentText (sample_window to_confirmation) = device_label usb.
Proof.
  assert (Hrun : Window.run sample_repr sample_format sample_host
                   (inr (catalog_response 200)) to_confirmation (Window.init [])
                 = (Ok tt, sample_window to_confirmation)) by (vm_compute; reflexivity).
  assert (Hpage : 1 <= Window.page (sample_window to_confirmation))
    by (vm_compute; discriminate).
  split; [exact Hrun |]. split; [exact Hpage |].
  exact (selected_drive_is_the_one_shown sample_repr sample_format sample_host
           (inr (catalog_response 200)) to_confirmation [] _ Hrun Hpage).
Defined.

Lemma downloads_are_the_ticked_catalog_items_witness :
  Window.run sample_repr sample_format sample_host (inr (catalog_response 200))
    to_the_end (Window.init []) = (Ok tt, sample_window to_the_end)
  /\ 3 <= Window.page (sample_window to_the_end)
  /\ exists fetched,
       Window.data (sample_window to_the_end) = Some fetched
       /\ map snd (Window.content_checkboxes (sample_window to_the_end))
          = catalog_items fetched (ticked_categories (sample_window to_the_end))
       /\ USBSelectorApp.selected_content_items (Window.app (sample_window to_the_end))
          = ticked_items (sample_window to_the_end)
       /\ (USBSelectorApp.progress_bars (Window.app (sample_window to_the_end)) = []
           \/ map DownloadWorker.task
                (USBSelectorApp.active_downloads (Window.app (sample_window to_the_end)))
                ++ USBSelectorApp.download_queue (Window.app (sample_window to_the_end))
              = map (download_of sample_repr) (ticked_items (sample_window to_the_end))).
Proof.
  assert (Hrun : Window.run sample_repr sample_format sample_host
                   (inr (catalog_response 200)) to_the_end (Window.init [])
                 = (Ok tt, sample_window to_the_end)) by (vm_compute; reflexivity).
  assert (Hpage : 3 <= Window.page (sample_window to_the_end))
    by (vm_compute; discriminate).
  split; [exact Hrun |]. split; [exact Hpage |].
  exact (downloads_are_the_ticked_catalog_items sample_repr sample_format sample_host
           (inr (catalog_response 200)) to_the_end [] _ Hrun Hpage).
Defined.

Lemma download_starts_only_when_it_fits_witness :
  Window.run sample_repr sample_format sample_host (inr (catalog_response 200))
    to_the_end (Window.init []) = (Ok tt, sample_window to_the_end)
  /\ 4 <= Window.page (sample_window to_the_end)
  /\ USBSelectorApp.selected_content_items (Window.app (sample_window to_the_end)) <> [].
Proof.
  assert (Hrun : Window.run sample_repr sample_format sample_host
                   (inr (catalog_response 200)) to_the_end (Window.init [])
                 = (Ok tt, sample_window to_the_end)) by (vm_compute; reflexivity).
  assert (Hpage : 4 <= Window.page (sample_window to_the_end))
    by (vm_compute; discriminate).
  split; [exact Hrun |]. split; [exact Hpage |].
  exact (proj1 (download_starts_only_when_it_fits sample_repr sample_format sample_host
                  (inr (catalog_response 200)) to_the_end [] _ Hrun Hpage)).
Defined.

Lemma confirm_enabled_iff_it_fits_witness :
  Window.run sample_repr sample_format sample_host (inr (catalog_response 200))
    to_content (Window.init []) = (Ok tt, sample_window to_content)
  /\ Window.page (sample_window to_content) = 2
  /\ ticked_items (sample_window to_content) <> []
  /\ Window.summarize sample_repr (ticked_items (sample_window to_content))
       PrimFloat.zero [] = Ok sample_totals
  /\ exists usb self',
       Window.selected_usb (sample_window to_content) = Some usb
       /\ Window.handle sample_repr sample_format Window.Stage3_continue
            (sample_window to_content) = (Ok tt, self')
       /\ Window.page self' = 3
       /\ Window.stage4_continue self'
          = negb (PrimFloat.ltb (device_free_gb usb) (fst sample_totals))
       /\ Window.summary self' = [Window.describe (snd sample_totals)]
       /\ USBSelectorApp.selected_content_items (Window.app self')
          = ticked_items (sample_window to_content).
Proof.
  assert (Hrun : Window.run sample_repr sample_format sample_host
                   (inr (catalog_response 200)) to_content (Window.init [])
                 = (Ok tt, sample_window to_content)) by (vm_compute; reflexivity).
  assert (Hpage : Window.page (sample_window to_content) = 2) by (vm_compute; reflexivity).
  assert (Hsome : ticked_items (sample_window to_content) <> [])
    by (vm_compute; discriminate).
  assert (Htotals : Window.summarize sample_repr (ticked_items (sample_window to_content))
                      PrimFloat.zero [] = Ok sample_totals) by (vm_compute; reflexivity).
  split; [exact Hrun |]. split; [exact Hpage |]. split; [exact Hsome |].
  split; [exact Htotals |].
  exact (confirm_enabled_iff_it_fits sample_repr sample_format sample_host
           (inr (catalog_response 200)) to_content [] _ sample_totals
           Hrun Hpage Hsome Htotals).
Defined.

Lemma pool_within_slider_witness :
  Window.run sample_repr sample_format sample_host (inr (catalog_response 200))
    (to_confirmation ++ [Window.Stage4_continue None]) (Window.init [])
  = (Ok tt, sample_window (to_confirmation ++ [Window.Stage4_continue None]))
  /\ len (USBSelectorApp.threadpool
            (Window.app (sample_window (to_confirmation ++ [Window.Stage4_continue None]))))
     <= USBSelectorApp.concurrent_downloads
          (Window.app (sample_window (to_confirmation ++ [Window.Stage4_continue None])))
     <= 15.
Proof.
  assert (Hrun : Window.run sample_repr sample_format sample_host
                   (inr (catalog_response 200))
                   (to_confirmation ++ [Window.Stage4_continue None]) (Window.init [])
                 = (Ok tt, sample_window (to_confirmation ++ [Window.Stage4_continue None])))
    by (vm_compute; reflexivity).
  split; [exact Hrun |].
  exact (proj1 (pool_within_slider sample_repr sample_format sample_host
                  (inr (catalog_response 200))
                  (to_confirmation ++ [Window.Stage4_continue None]) [] _ Hrun)).
Defined.

Lemma later_pages_after_all_downloads_witness :
  Window.run sample_repr sample_format sample_host (inr (catalog_response 200))
    to_the_end (Window.init []) = (Ok tt, sample_window to_the_end)
  /\ 5 <= Window.page (sample_window to_the_end)
  /\ USBSelectorApp.threadpool (Window.app (sample_window to_the_end)) = []
  /\ USBSelectorApp.download_queue (Window.app (sample_window to_the_end)) = [].
Proof.
  assert (Hrun : Window.run sample_repr sample_format sample_host
                   (inr (catalog_response 200)) to_the_end (Window.init [])
                 = (Ok tt, sample_window to_the_end)) by (vm_compute; reflexivity).
  assert (Hpage : 5 <= Window.page (sample_window to_the_end))
    by (vm_compute; discriminate).
  split; [exact Hrun |]. split; [exact Hpage |].
  destruct (later_pages_after_all_downloads sample_repr sample_format sample_host
              (inr (catalog_response 200)) to_the_end [] _ Hrun Hpage)
    as (Hpool & Hqueue & _).
  split; [exact Hpool | exact Hqueue].
Defined.

Lemma only_catalog_steps_can_fail_witness :
  Window.run sample_repr sample_format sample_host (inr (catalog_response 200))
    to_confirmation (Window.init []) = (Ok tt, sample_window to_confirmation)
  /\ reads_catalog (Window.Stage4_continue None) = false
  /\ exists self',
       Window.run sample_repr sample_format sample_host (inr (catalog_response 200))
         (to_confirmation ++ [Window.Stage4_continue None]) (Window.init [])
       = (Ok tt, self').
Proof.
  assert (Hrun : Window.run sample_repr sample_format sample_host
                   (inr (catalog_response 200)) to_confirmation (Window.init [])
                 = (Ok tt, sample_window to_confirmation)) by (vm_compute; reflexivity).
  assert (Hquiet : reads_catalog (Window.Stage4_continue None) = false) by reflexivity.
  split; [exact Hrun |]. split; [exact Hquiet |].
  exact (only_catalog_steps_can_fail sample_repr sample_format sample_host
           (inr (catalog_response 200)) to_confirmation [] _
           (Window.Stage4_continue None) Hrun Hquiet).
Defined.

Lemma failed_fetch_ends_the_session_witness :
  requests.status_code (catalog_response 404) <> 200
  /\ exists self,
       Window.run sample_repr sample_format sample_host (inr (catalog_response 404))
         to_the_end (Window.init []) = (Ok tt, self)
       /\ Window.page self = 0.
Proof.
  assert (Hcode : requests.status_code (catalog_response 404) <> 200)
    by (cbn; discriminate).
  split; [exact Hcode |].
  destruct (failed_fetch_ends_the_session sample_repr sample_format sample_host
              (catalog_response 404) to_the_end [] Hcode) as (self & Hrun & Hpage & _).
  exists self. split; [exact Hrun | exact Hpage].
Defined.

Lemma failed_mkdir_leaves_the_window_waiting_witness :
  Window.run sample_repr sample_format sample_host (inr (catalog_response 200))
    to_confirmation (Window.init []) = (Ok tt, sample_window to_confirmation)
  /\ Window.page (sample_window to_confirmation) = 3
  /\ Window.stage4_continue (sample_window to_confirmation) = true
  /\ exists self',
       Window.run sample_repr sample_format sample_host (inr (catalog_response 200))
         (to_confirmation
          ++ Window.Stage4_continue (Some "Permission denied")
             :: [Window.Stage4_back; Window.Timeout]) (Window.init [])
       = (Ok tt, self')
       /\ Window.page self' = 4.
Proof.
  assert (Hrun : Window.run sample_repr sample_format sample_host
                   (inr (catalog_response 200)) to_confirmation (Window.init [])
                 = (Ok tt, sample_window to_confirmation)) by (vm_compute; reflexivity).
  assert (Hpage : Window.page (sample_window to_confirmation) = 3)
    by (vm_compute; reflexivity).
  assert (Hon : Window.stage4_continue (sample_window to_confirmation) = true)
    by (vm_compute; reflexivity).
  split; [exact Hrun |]. split; [exact Hpage |]. split; [exact Hon |].
  destruct (failed_mkdir_leaves_the_window_waiting sample_repr sample_format sample_host
              (inr (catalog_response 200)) to_confirmation
              [Window.Stage4_back; Window.Timeout] [] _ "Permission denied"
              Hrun Hpage Hon) as (self' & Hlater & Hfour & _).
  exists self'. split; [exact Hlater | exact Hfour].
Defined.

Lemma go_to_stage5_touches_only_the_cache_witness :
  (String.prefix "cache/" "cache/Movies/A.mp4" = true
   /\ dict_lookup "cache/Movies/A.mp4" (USBSelectorApp.files cached_app)
      = Some (piece Byte.x61))
  /\ dict_lookup "cache/Movies/A.mp4"
       (USBSelectorApp.files (snd (go_to_stage5 sample_repr None cached_app)))
     = None.
Proof.
  split; [split; reflexivity |].
  exact (proj2 (go_to_stage5_touches_only_the_cache sample_repr None cached_app
                  "cache/Movies/A.mp4") eq_refl eq_refl).
Defined.


(** A progress signal with a total of zero, as an empty body without
    content-length header gives, ends the program. *)
Lemma zero_total_ends_the_window :
  fst (Window.run_signals sample_repr sample_format sample_host
         (inr (catalog_response 200))
         (map Window.Event to_confirmation
          ++ [Window.Event (Window.Stage4_continue None);
              Window.Worker_progress 0 (megabytes 0) (megabytes 0) (JStr "A")])
         (Window.init []))
  = Raise (Exception "ZeroDivisionError" "float division by zero").
Proof. vm_compute. reflexivity. Qed.

Lemma content_page_needs_text_labels_witness :
  Window.data (sample_window to_content) = Some sample_data
  /\ (fst (Window.go_to_stage3 (sample_window to_content)) = Ok tt
      <-> Forall labelable
            (catalog_items sample_data (ticked_categories (sample_window to_content)))).
Proof.
  assert (Hdata : Window.data (sample_window to_content) = Some sample_data)
    by (vm_compute; reflexivity).
  split; [exact Hdata |].
  exact (content_page_needs_text_labels (sample_window to_content) sample_data Hdata).
Defined.

Lemma confirmation_fails_only_on_sizes_witness :
  Window.run sample_repr sample_format sample_host (inr text_size_response)
    to_content (Window.init []) = (Ok tt, text_size_window)
  /\ Window.page text_size_window = 2
  /\ Window.handle sample_repr sample_format Window.Stage3_continue text_size_window
     = (Raise (Exception "TypeError" "unsupported operand type(s) for +="),
        snd (Window.handle sample_repr sample_format Window.Stage3_continue
               text_size_window))
  /\ exists item x,
       In item (ticked_items text_size_window)
       /\ py_float_add x (item_size_gb item)
          = Raise (Exception "TypeError" "unsupported operand type(s) for +=").
Proof.
  assert (Hrun : Window.run sample_repr sample_format sample_host
                   (inr text_size_response) to_content (Window.init [])
                 = (Ok tt, text_size_window)) by (vm_compute; reflexivity).
  assert (Hpage : Window.page text_size_window = 2) by (vm_compute; reflexivity).
  assert (Hstep : Window.handle sample_repr sample_format Window.Stage3_continue
                    text_size_window
                  = (Raise (Exception "TypeError" "unsupported operand type(s) for +="),
                     snd (Window.handle sample_repr sample_format Window.Stage3_continue
                            text_size_window))) by (vm_compute; reflexivity).
  split; [exact Hrun |]. split; [exact Hpage |]. split; [exact Hstep |].
  exact (confirmation_fails_only_on_sizes sample_repr sample_format sample_host
           (inr text_size_response) to_content [] _ _ _ Hrun Hpage Hstep).
Defined.

Lemma summary_groups_by_category_witness :
  Window.summarize sample_repr five_items PrimFloat.zero [] = Ok five_totals
  /\ map fst (snd five_totals) = first_seen (map item_category five_items)
  /\ dict_get (snd five_totals) "Movies" []
     = map (summary_line sample_repr) (of_category "Movies" five_items).
Proof.
  assert (Hrun : Window.summarize sample_repr five_items PrimFloat.zero [] = Ok five_totals)
    by (vm_compute; reflexivity).
  split; [exact Hrun |].
  destruct (summary_groups_by_category sample_repr five_items five_totals Hrun)
    as [Hkeys Hlines].
  split; [exact Hkeys | exact (Hlines "Movies")].
Defined.
